(** * Kuantum Kitchen: a shallow embedding of [src/main.py]

    The development follows the layout of the program: the Python values the
    game computes with ([Py]), the enumerations, the class [Order] with its
    outcome distribution and collapse, the class [MiniPuzzle], and the class
    [KuantumKitchen] that owns the world state.  Every random draw of the
    program is an explicit argument of the function that makes it, so a
    statement quantified over the draws holds for every run. *)

From Stdlib Require Import ZArith QArith Qround Qabs Floats String Ascii List Lia.
From stdpp Require Import base list strings pretty.
Import ListNotations.

Set Warnings "-inexact-float".
Local Open Scope Z_scope.

(** ** Python values *)

Module Py.

(** Exceptions the modelled code can raise.  [DanglingReference] is not a
    Python exception: it marks a reference to an object that the store
    does not hold, which Python cannot produce. *)
Inductive Exception :=
| ZeroDivisionError
| TypeError
| ValueError
| OverflowError
| AttributeError
| IndexError
| DanglingReference.

Inductive Res (A : Type) :=
| Ret (a : A)
| Raise (e : Exception).
Arguments Ret {A} a.
Arguments Raise {A} e.

Definition bind {A B} (r : Res A) (k : A -> Res B) : Res B :=
  match r with
  | Ret a => k a
  | Raise e => Raise e
  end.

(** [float(z)] for an [int]: round to nearest, ties to even. *)
Definition float_of_int (z : Z) : float :=
  SF2Prim (binary_normalize prec emax z 0 false).

(** The exact rational value of a finite float. *)
Definition Q_of_float (x : float) : option Q :=
  match Prim2SF x with
  | S754_zero _ => Some 0%Q
  | S754_finite s m e =>
      let v := (inject_Z (Zpos m) * Qpower 2 e)%Q in
      Some (if s then Qopp v else v)
  | S754_infinity _ => None
  | S754_nan => None
  end.

(** [int(x)] for a float: truncation towards zero. *)
Definition int_of_float (x : float) : Res Z :=
  match Prim2SF x with
  | S754_zero _ => Ret 0
  | S754_finite s m e =>
      let a := if 0 <=? e then Zpos m * 2 ^ e else Zpos m / 2 ^ (- e) in
      Ret (if s then - a else a)
  | S754_infinity _ => Raise OverflowError
  | S754_nan => Raise ValueError
  end.

(** [x / y] on floats: Python raises where IEEE 754 returns an infinity
    or a NaN for a zero divisor. *)
Definition float_truediv (x y : float) : Res float :=
  if PrimFloat.eqb y 0%float then Raise ZeroDivisionError
  else Ret (PrimFloat.div x y).

(** The builtin [sum] over floats, started from the int [0].  Up to
    Python 3.11 it adds from left to right; from 3.12 on it carries a
    Neumaier compensation term, added once at the end. *)
Inductive SumImpl := LeftToRight | Compensated.

Definition neumaier_step (acc : float * float) (x : float) : float * float :=
  let '(f_result, c) := acc in
  let t := PrimFloat.add f_result x in
  if PrimFloat.leb (PrimFloat.abs x) (PrimFloat.abs f_result)
  then (t, PrimFloat.add c (PrimFloat.add (PrimFloat.sub f_result t) x))
  else (t, PrimFloat.add c (PrimFloat.add (PrimFloat.sub x t) f_result)).

Definition sum (impl : SumImpl) (l : list float) : float :=
  match impl with
  | LeftToRight => fold_left PrimFloat.add l 0%float
  | Compensated =>
      let '(f_result, c) := fold_left neumaier_step l (0%float, 0%float) in
      if negb (PrimFloat.eqb c 0%float) && PrimFloat.is_finite c
      then PrimFloat.add f_result c
      else f_result
  end.

(** A number that is an [int] or a [float] at run time. *)
Inductive number :=
| Int (z : Z)
| Float (f : float).

Definition to_float (x : number) : float :=
  match x with
  | Int z => float_of_int z
  | Float f => f
  end.

Definition add (x y : number) : number :=
  match x, y with
  | Int a, Int b => Int (a + b)
  | _, _ => Float (PrimFloat.add (to_float x) (to_float y))
  end.

Definition sub (x y : number) : number :=
  match x, y with
  | Int a, Int b => Int (a - b)
  | _, _ => Float (PrimFloat.sub (to_float x) (to_float y))
  end.

(** Comparisons; an int meets a float through its float value, which is
    exact for the magnitudes of this program (below 2^53). *)
Definition lt (x y : number) : bool :=
  match x, y with
  | Int a, Int b => a <? b
  | _, _ => PrimFloat.ltb (to_float x) (to_float y)
  end.

Definition le (x y : number) : bool :=
  match x, y with
  | Int a, Int b => a <=? b
  | _, _ => PrimFloat.leb (to_float x) (to_float y)
  end.

(** [max(a, b)] and [min(a, b)] keep the first argument unless the second
    is strictly greater (smaller). *)
Definition max (a b : number) : number := if lt a b then b else a.
Definition min (a b : number) : number := if lt b a then b else a.

(** [a / b] on ints: true division, a float. *)
Definition int_truediv (a b : Z) : Res float :=
  float_truediv (float_of_int a) (float_of_int b).

(** [x // d] for an int divisor [d]: the floor of the quotient, an int
    for an int [x] and a float for a float [x] (the sign of a zero result
    is not tracked). *)
Definition floordiv (x : number) (d : Z) : Res number :=
  if d =? 0 then Raise ZeroDivisionError
  else match x with
       | Int a => Ret (Int (a / d))
       | Float f =>
           match Q_of_float f with
           | Some q => Ret (Float (float_of_int (Qfloor (q / inject_Z d))))
           | None => Ret (Float PrimFloat.nan)
           end
       end.

End Py.

Notation "'try!' x := r 'in' k" := (Py.bind r (fun x => k))
  (at level 10, x name, r at level 100, k at level 200).

(** ** Enumerations *)

Inductive OrderState := SUPERPOSITION | COLLAPSED | FAILED | DELIVERED.

Inductive ResourceType := QUANTUM_ENERGY | PROBABILITY_STABILIZER | TIMELINE_TOKEN.

Inductive DishType :=
| QUANTUM_BURGER | SCHRODINGER_SALAD | ENTANGLED_PASTA | PROBABILITY_PIE
| WAVE_FUNCTION_SOUP | UNCERTAINTY_SUSHI | QUBIT_QUESADILLA | SUPERPOSITION_STIR_FRY.

Inductive TimelineEvent :=
| RESOURCE_BOOST | TIMELINE_SHIFT | QUANTUM_FLUCTUATION | REALITY_DISTORTION.

Inductive MiniPuzzleType := SEQUENCE | PATTERN | PROBABILITY | QUANTUM_STATE.

#[global] Instance OrderState_eq_dec : EqDecision OrderState.
Proof. solve_decision. Defined.
#[global] Instance ResourceType_eq_dec : EqDecision ResourceType.
Proof. solve_decision. Defined.
#[global] Instance TimelineEvent_eq_dec : EqDecision TimelineEvent.
Proof. solve_decision. Defined.
#[global] Instance MiniPuzzleType_eq_dec : EqDecision MiniPuzzleType.
Proof. solve_decision. Defined.

(** The [value] of each member. *)
Definition OrderState_value (s : OrderState) : string :=
  match s with
  | SUPERPOSITION => "SUPERPOSITION"
  | COLLAPSED => "COLLAPSED"
  | FAILED => "FAILED"
  | DELIVERED => "DELIVERED"
  end.

Definition ResourceType_value (r : ResourceType) : string :=
  match r with
  | QUANTUM_ENERGY => "Quantum Energy"
  | PROBABILITY_STABILIZER => "Probability Stabilizer"
  | TIMELINE_TOKEN => "Timeline Token"
  end.

Definition DishType_value (d : DishType) : string :=
  match d with
  | QUANTUM_BURGER => "Quantum Burger"
  | SCHRODINGER_SALAD => "Schrödinger's Salad"
  | ENTANGLED_PASTA => "Entangled Pasta"
  | PROBABILITY_PIE => "Probability Pie"
  | WAVE_FUNCTION_SOUP => "Wave Function Soup"
  | UNCERTAINTY_SUSHI => "Uncertainty Sushi"
  | QUBIT_QUESADILLA => "Qubit Quesadilla"
  | SUPERPOSITION_STIR_FRY => "Superposition Stir Fry"
  end.

Definition TimelineEvent_value (e : TimelineEvent) : string :=
  match e with
  | RESOURCE_BOOST => "Resource Boost"
  | TIMELINE_SHIFT => "Timeline Shift"
  | QUANTUM_FLUCTUATION => "Quantum Fluctuation"
  | REALITY_DISTORTION => "Reality Distortion"
  end.

(** A dict keyed by the three members of [ResourceType], in their
    declaration order; the program never adds or removes a key. *)
Record ResourceDict := mkResources {
  quantum_energy : Z;
  probability_stabilizer : Z;
  timeline_token : Z
}.

Definition res_get (d : ResourceDict) (r : ResourceType) : Z :=
  match r with
  | QUANTUM_ENERGY => quantum_energy d
  | PROBABILITY_STABILIZER => probability_stabilizer d
  | TIMELINE_TOKEN => timeline_token d
  end.

Definition res_set (d : ResourceDict) (r : ResourceType) (v : Z) : ResourceDict :=
  match r with
  | QUANTUM_ENERGY => mkResources v (probability_stabilizer d) (timeline_token d)
  | PROBABILITY_STABILIZER => mkResources (quantum_energy d) v (timeline_token d)
  | TIMELINE_TOKEN => mkResources (quantum_energy d) (probability_stabilizer d) v
  end.

(** [d.items()], in insertion order. *)
Definition res_items (d : ResourceDict) : list (ResourceType * Z) :=
  [(QUANTUM_ENERGY, quantum_energy d);
   (PROBABILITY_STABILIZER, probability_stabilizer d);
   (TIMELINE_TOKEN, timeline_token d)].

(** ** class Order *)

(** An outcome record: the dict with keys [description], [satisfaction],
    [reward_multiplier] and [probability]. *)
Record Outcome := mkOutcome {
  description : string;
  satisfaction : Z;
  reward_multiplier : float;
  probability : float
}.

Definition set_probability (o : Outcome) (p : float) : Outcome :=
  mkOutcome (description o) (satisfaction o) (reward_multiplier o) p.

Module Order.

(** The outcome dicts are objects: [possible_outcomes], its shallow copy
    in [collapse_state] and [actual_outcome] all refer to the same ones.
    [heap] holds the dicts of this order by address; the other fields
    hold addresses.  No other object of the program refers to them. *)
Record t := mk {
  id : Z;
  state : OrderState;
  dish : DishType;
  time_limit : Z;
  time_remaining : Z;
  difficulty : Z;
  resource_requirements : ResourceDict;
  reward : Z;
  puzzle : MiniPuzzleType;
  possible_outcomes : list nat;
  actual_outcome : option nat;
  timeline : Z;
  heap : list Outcome
}.

Definition set_state (self : t) (s : OrderState) : t :=
  mk (id self) s (dish self) (time_limit self) (time_remaining self)
     (difficulty self) (resource_requirements self) (reward self)
     (puzzle self) (possible_outcomes self) (actual_outcome self)
     (timeline self) (heap self).

Definition set_time_remaining (self : t) (n : Z) : t :=
  mk (id self) (state self) (dish self) (time_limit self) n
     (difficulty self) (resource_requirements self) (reward self)
     (puzzle self) (possible_outcomes self) (actual_outcome self)
     (timeline self) (heap self).

Definition set_actual_outcome (self : t) (a : option nat) : t :=
  mk (id self) (state self) (dish self) (time_limit self) (time_remaining self)
     (difficulty self) (resource_requirements self) (reward self)
     (puzzle self) (possible_outcomes self) a
     (timeline self) (heap self).

Definition set_timeline (self : t) (n : Z) : t :=
  mk (id self) (state self) (dish self) (time_limit self) (time_remaining self)
     (difficulty self) (resource_requirements self) (reward self)
     (puzzle self) (possible_outcomes self) (actual_outcome self)
     n (heap self).

Definition set_heap (self : t) (h : list Outcome) : t :=
  mk (id self) (state self) (dish self) (time_limit self) (time_remaining self)
     (difficulty self) (resource_requirements self) (reward self)
     (puzzle self) (possible_outcomes self) (actual_outcome self)
     (timeline self) h.

(** Reading the dict at an address. *)
Definition deref (h : list Outcome) (a : nat) : Py.Res Outcome :=
  match h !! a with
  | Some o => Py.Ret o
  | None => Py.Raise Py.DanglingReference
  end.

(** The records a list of addresses refers to. *)
Fixpoint records (h : list Outcome) (refs : list nat) : Py.Res (list Outcome) :=
  match refs with
  | [] => Py.Ret []
  | a :: rest =>
      try! o := deref h a in
      try! os := records h rest in
      Py.Ret (o :: os)
  end.

(** [for outcome in outcomes: outcome["probability"] /= total_prob] on
    freshly built dicts. *)
Fixpoint normalize (total_prob : float) (outcomes : list Outcome)
  : Py.Res (list Outcome) :=
  match outcomes with
  | [] => Py.Ret []
  | o :: rest =>
      try! p := Py.float_truediv (probability o) total_prob in
      try! rest' := normalize total_prob rest in
      Py.Ret (set_probability o p :: rest')
  end.

(** [generate_possible_outcomes]; [num_outcomes] is the draw
    [random.randint(2, 4)]. *)
Definition generate_possible_outcomes (impl : Py.SumImpl) (dish : DishType)
    (difficulty : Z) (num_outcomes : Z) : Py.Res (list Outcome) :=
  let perfect :=
    mkOutcome ("Perfect " ++ DishType_value dish) 100 1.5%float
      (PrimFloat.add 0.2%float
         (PrimFloat.mul 0.1%float (Py.float_of_int difficulty))) in
  let good := mkOutcome ("Good " ++ DishType_value dish) 80 1.0%float 0.4%float in
  let mediocre :=
    mkOutcome ("Mediocre " ++ DishType_value dish) 50 0.7%float 0.3%float in
  let poor := mkOutcome ("Poor " ++ DishType_value dish) 20 0.3%float 0.1%float in
  let outcomes :=
    [perfect; good]
      ++ (if 2 <? num_outcomes then [mediocre] else [])
      ++ (if 3 <? num_outcomes then [poor] else []) in
  let total_prob := Py.sum impl (map probability outcomes) in
  normalize total_prob outcomes.

(** The draws of [__init__], in program order. *)
Record Draws := mkDraws {
  draw_id : Z;                       (* randint(1000, 9999) *)
  draw_dish : DishType;              (* choice(list(DishType)) *)
  draw_time_limit : Z;               (* randint(3, 5 + min(day // 2, 5)) *)
  draw_quantum_energy : Z;           (* randint(1, 1 + difficulty) *)
  draw_probability_stabilizer : Z;   (* randint(0, difficulty // 2) *)
  draw_timeline_token : Z;           (* randint(0, 1 if difficulty > 2 else 0) *)
  draw_puzzle : MiniPuzzleType;      (* choice(list(MiniPuzzleType)) *)
  draw_num_outcomes : Z;             (* randint(2, 4) *)
  draw_timeline : Z                  (* randint(1, min(2 + day // 3, 5)) *)
}.

Definition init (impl : Py.SumImpl) (day : Z) (d : Draws) : Py.Res t :=
  let difficulty := Z.min (1 + day / 3) 5 in
  let resource_requirements :=
    mkResources (draw_quantum_energy d) (draw_probability_stabilizer d)
      (draw_timeline_token d) in
  let reward :=
    (quantum_energy resource_requirements
     + probability_stabilizer resource_requirements
     + timeline_token resource_requirements) * 10 + difficulty * 5 in
  try! outcomes :=
    generate_possible_outcomes impl (draw_dish d) difficulty (draw_num_outcomes d) in
  Py.Ret (mk (draw_id d) SUPERPOSITION (draw_dish d) (draw_time_limit d)
            (draw_time_limit d) difficulty resource_requirements reward
            (draw_puzzle d) (seq 0 (length outcomes)) None (draw_timeline d)
            outcomes).

(** The bias loop of [collapse_state] over the copied list.  Each
    iteration writes through the reference into the shared dict; the
    writes made before an exception stay. *)
Fixpoint bias_loop (bonus_probability : float) (count : Z)
    (modified_outcomes : list nat) (h : list Outcome)
  : list Outcome * Py.Res unit :=
  match modified_outcomes with
  | [] => (h, Py.Ret tt)
  | a :: rest =>
      match deref h a with
      | Py.Raise e => (h, Py.Raise e)
      | Py.Ret o =>
          if 80 <=? satisfaction o then
            bias_loop bonus_probability count rest
              (<[a := set_probability o
                        (PrimFloat.add (probability o) bonus_probability)]> h)
          else
            match Py.float_truediv bonus_probability
                    (Py.float_of_int (count - 2)) with
            | Py.Raise e => (h, Py.Raise e)
            | Py.Ret q =>
                bias_loop bonus_probability count rest
                  (<[a := set_probability o (PrimFloat.sub (probability o) q)]> h)
            end
      end
  end.

(** The re-normalization loop of [collapse_state]. *)
Fixpoint renormalize_loop (total_prob : float) (modified_outcomes : list nat)
    (h : list Outcome) : list Outcome * Py.Res unit :=
  match modified_outcomes with
  | [] => (h, Py.Ret tt)
  | a :: rest =>
      match deref h a with
      | Py.Raise e => (h, Py.Raise e)
      | Py.Ret o =>
          match Py.float_truediv (probability o) total_prob with
          | Py.Raise e => (h, Py.Raise e)
          | Py.Ret p =>
              renormalize_loop total_prob rest (<[a := set_probability o p]> h)
          end
      end
  end.

(** The selection loop: the first outcome whose cumulative probability
    reaches [rand], or none when the loop ends without a [break]. *)
Fixpoint select_loop (rand : float) (cumulative_prob : float)
    (modified_outcomes : list nat) (h : list Outcome) : Py.Res (option nat) :=
  match modified_outcomes with
  | [] => Py.Ret None
  | a :: rest =>
      try! o := deref h a in
      let cumulative_prob := PrimFloat.add cumulative_prob (probability o) in
      if PrimFloat.leb rand cumulative_prob then Py.Ret (Some a)
      else select_loop rand cumulative_prob rest h
  end.

(** [collapse_state(bonus_probability)]; [rand] is the draw
    [random.random()].  The result pairs the order after the call with
    the normal return or the exception raised. *)
Definition collapse_state (impl : Py.SumImpl) (self : t)
    (bonus_probability : float) (rand : float) : t * Py.Res unit :=
  if negb (bool_decide (state self = SUPERPOSITION)) then (self, Py.Ret tt)
  else
    let modified_outcomes := possible_outcomes self in
    let '(h, biased) :=
      if PrimFloat.ltb 0%float bonus_probability then
        match bias_loop bonus_probability
                (Z.of_nat (length modified_outcomes)) modified_outcomes
                (heap self) with
        | (h1, Py.Raise e) => (h1, Py.Raise e)
        | (h1, Py.Ret _) =>
            match records h1 modified_outcomes with
            | Py.Raise e => (h1, Py.Raise e)
            | Py.Ret os =>
                renormalize_loop (Py.sum impl (map probability os))
                  modified_outcomes h1
            end
        end
      else (heap self, Py.Ret tt) in
    match biased with
    | Py.Raise e => (set_heap self h, Py.Raise e)
    | Py.Ret _ =>
        match select_loop rand 0%float modified_outcomes h with
        | Py.Raise e => (set_heap self h, Py.Raise e)
        | Py.Ret picked =>
            let self1 := set_heap self h in
            let self2 :=
              match picked with
              | Some a => set_actual_outcome self1 (Some a)
              | None => self1
              end in
            (set_state self2 COLLAPSED, Py.Ret tt)
        end
    end.

(** [update_time()]. *)
Definition update_time (self : t) : t * bool :=
  let self1 := set_time_remaining self (time_remaining self - 1) in
  if (time_remaining self1 <=? 0) && bool_decide (state self1 = SUPERPOSITION)
  then (set_state self1 FAILED, true)
  else (self1, false).

End Order.

(** ** Strings

    A [str] is modelled by its UTF-8 bytes.  [strip] removes the white
    space of [str.strip()], whose code points take one, two or three
    bytes.  [lower] maps the letters A to Z.  [str.lower()] also maps the
    cased letters outside ASCII, each to one or more lower-case letters;
    the solutions the puzzles store hold no letter, so an answer that
    holds such a letter is rejected under either. *)

Module Str.

Definition is_upper (c : ascii) : bool :=
  (65 <=? nat_of_ascii c)%nat && (nat_of_ascii c <=? 90)%nat.

Definition lower_char (c : ascii) : ascii :=
  if is_upper c then ascii_of_nat (nat_of_ascii c + 32) else c.

Fixpoint lower (s : string) : string :=
  match s with
  | EmptyString => EmptyString
  | String c r => String (lower_char c) (lower r)
  end.

(** The white space of one byte: U+0009 to U+000D and U+001C to U+0020. *)
Definition is_space (c : ascii) : bool :=
  let n := nat_of_ascii c in
  ((9 <=? n)%nat && (n <=? 13)%nat) || ((28 <=? n)%nat && (n <=? 32)%nat).

(** The white space of two bytes: U+0085 (C2 85) and U+00A0 (C2 A0). *)
Definition is_space2 (c1 c2 : ascii) : bool :=
  let n1 := nat_of_ascii c1 in
  let n2 := nat_of_ascii c2 in
  (n1 =? 194)%nat && ((n2 =? 133)%nat || (n2 =? 160)%nat).

(** The white space of three bytes: U+1680 (E1 9A 80), U+2000 to U+200A
    (E2 80 80 to E2 80 8A), U+2028, U+2029 and U+202F (E2 80 A8, A9 and
    AF), U+205F (E2 81 9F) and U+3000 (E3 80 80). *)
Definition is_space3 (c1 c2 c3 : ascii) : bool :=
  let n1 := nat_of_ascii c1 in
  let n2 := nat_of_ascii c2 in
  let n3 := nat_of_ascii c3 in
  ((n1 =? 225)%nat && ((n2 =? 154)%nat && (n3 =? 128)%nat))
  || ((n1 =? 226)%nat
      && (((n2 =? 128)%nat
           && (((128 <=? n3)%nat && (n3 <=? 138)%nat)
               || (n3 =? 168)%nat || (n3 =? 169)%nat || (n3 =? 175)%nat))
          || ((n2 =? 129)%nat && (n3 =? 159)%nat)))
  || ((n1 =? 227)%nat && ((n2 =? 128)%nat && (n3 =? 128)%nat)).

(** [s.lstrip()]: the white space code points at the front go. *)
Fixpoint lstrip (s : string) : string :=
  match s with
  | EmptyString => EmptyString
  | String c1 r1 =>
      if is_space c1 then lstrip r1
      else
        match r1 with
        | EmptyString => s
        | String c2 r2 =>
            if is_space2 c1 c2 then lstrip r2
            else
              match r2 with
              | EmptyString => s
              | String c3 r3 => if is_space3 c1 c2 c3 then lstrip r3 else s
              end
        end
  end.

(** [s.rstrip()]: the longest suffix made of white space goes.  No suffix
    that starts inside a code point is one, its first byte being a
    continuation byte. *)
Fixpoint rstrip (s : string) : string :=
  match s with
  | EmptyString => EmptyString
  | String c r =>
      match lstrip s with
      | EmptyString => EmptyString
      | String _ _ => String c (rstrip r)
      end
  end.

Definition strip (s : string) : string := rstrip (lstrip s).

(** [sep.join(l)]. *)
Fixpoint join (sep : string) (l : list string) : string :=
  match l with
  | [] => EmptyString
  | [x] => x
  | x :: rest => x ++ sep ++ join sep rest
  end.

End Str.

(** ** class MiniPuzzle *)

Module MiniPuzzle.

(** An element of a puzzle sequence: a digit or a symbol. *)
Inductive item := IInt (z : Z) | IStr (s : string).

#[global] Instance item_eq_dec : EqDecision item.
Proof. solve_decision. Defined.

(** What [solution] holds and what [check_solution] receives: a list for
    the two fill-in puzzles, a string for the other two. *)
Inductive value := VList (l : list item) | VStr (s : string).

(** The attributes; one that a puzzle kind does not set is left at its
    empty value.  [order] is only read by the terminal code. *)
Record t := mk {
  type : MiniPuzzleType;
  difficulty : Z;
  sequence : list (option item);
  pattern : list string;
  initial_state : string;
  operations : list string;
  question : string;
  answer : string;
  solution : value
}.

(** The draws of [setup_puzzle]; each kind reads its own.  [blanks k] is
    the index that leaves the redraw loop in round [k], one whose entry
    is not yet blank. *)
Record Draws := mkDraws {
  draw_digits : nat -> Z;              (* randint(1, 9), per position *)
  draw_pattern : list string;          (* choice(patterns) *)
  draw_blanks : nat -> nat;            (* randint(0, len - 1), accepted *)
  draw_dice_sides : Z;                 (* randint(2, 6) *)
  draw_target_value : Z;               (* randint(1, dice_sides) *)
  draw_initial_state : string;         (* choice(states) *)
  draw_operations : nat -> string      (* choice(operations), per position *)
}.

Definition patterns : list (list string) :=
  [["#"; "."; "#"; "."]; ["O"; "X"; "O"; "X"]; ["^"; "v"; "<"; ">"];
   ["1"; "0"; "1"; "0"]]%string.

Definition states : list string := ["|0⟩"; "|1⟩"; "|+⟩"; "|-⟩"]%string.

Definition operation_names : list string := ["X"; "Z"; "H"]%string.

(** [for _ in range(removals): ...; self.sequence[idx] = None]. *)
Fixpoint blank_out (blanks : nat -> nat) (round : nat) (removals : nat)
    (sequence : list (option item)) : list (option item) :=
  match removals with
  | O => sequence
  | S n => blank_out blanks (S round) n (<[blanks round := None]> sequence)
  end.

(** [while len(self.sequence) < length: self.sequence.extend(self.pattern)];
    [fuel] bounds the iterations, [length] of them suffice for a pattern
    that is not empty. *)
Fixpoint tile (fuel : nat) (length : Z) (pattern sequence : list string)
  : list string :=
  match fuel with
  | O => sequence
  | S n =>
      if Z.of_nat (List.length sequence) <? length
      then tile n length pattern (sequence ++ pattern)
      else sequence
  end.

(** The toy two-state transform of the [QUANTUM_STATE] branch. *)
Definition final_state (initial_state : string) (operations : list string)
  : string :=
  if String.eqb initial_state "|0⟩" then
    fold_left
      (fun final_state op =>
         if String.eqb op "X" then
           if String.eqb final_state "|0⟩" then "|1⟩" else "|0⟩"
         else if String.eqb op "H" then
           if String.eqb final_state "|0⟩" then "|+⟩" else "|-⟩"
         else final_state)
      operations "|0⟩"%string
  else if String.eqb initial_state "|1⟩" then
    fold_left
      (fun final_state op =>
         if String.eqb op "X" then
           if String.eqb final_state "|1⟩" then "|0⟩" else "|1⟩"
         else if String.eqb op "H" then
           if String.eqb final_state "|1⟩" then "|-⟩" else "|+⟩"
         else final_state)
      operations "|1⟩"%string
  else if (Z.of_nat (List.length operations) mod 2 =? 0) then "|+⟩"%string
  else "|-⟩"%string.

(** [__init__] with [setup_puzzle]; [type] and [difficulty] come from the
    order. *)
Definition setup_puzzle (type : MiniPuzzleType) (difficulty : Z) (d : Draws) : t :=
  match type with
  | SEQUENCE =>
      let length := 3 + difficulty in
      let digits := map (fun i => IInt (draw_digits d i)) (seq 0 (Z.to_nat length)) in
      let removals := Z.min (length - 2) (difficulty + 1) in
      mk type difficulty
        (blank_out (draw_blanks d) 0 (Z.to_nat removals) (map Some digits))
        [] "" [] "" "" (VList digits)
  | PATTERN =>
      let length := 4 + difficulty * 2 in
      let tiled := tile (Z.to_nat length) length (draw_pattern d) [] in
      let symbols := map IStr (take (Z.to_nat length) tiled) in
      let removals := Z.min (length - 4) (difficulty * 2) in
      mk type difficulty
        (blank_out (draw_blanks d) 0 (Z.to_nat removals) (map Some symbols))
        (draw_pattern d) "" [] "" "" (VList symbols)
  | PROBABILITY =>
      let question :=
        ("If a " ++ pretty (draw_dice_sides d)
           ++ "-sided die is rolled, what's the probability of getting a "
           ++ pretty (draw_target_value d) ++ "?")%string in
      let answer := ("1/" ++ pretty (draw_dice_sides d))%string in
      mk type difficulty [] [] "" [] question answer (VStr answer)
  | QUANTUM_STATE =>
      let num_operations := 1 + difficulty / 2 in
      let initial_state := draw_initial_state d in
      let operations := map (draw_operations d) (seq 0 (Z.to_nat num_operations)) in
      let final := final_state initial_state operations in
      let question :=
        ("If we start with " ++ initial_state ++ " and apply the operations "
           ++ Str.join " " operations ++ ", what's the final state?")%string in
      mk type difficulty [] [] initial_state operations question final (VStr final)
  end.

(** [temp_sequence[i] = user_answer[answer_idx]] for every blank. *)
Fixpoint fill (sequence : list (option item)) (user_answer : list item)
  : list (option item) :=
  match sequence with
  | [] => []
  | Some x :: rest => Some x :: fill rest user_answer
  | None :: rest =>
      match user_answer with
      | a :: more => Some a :: fill rest more
      | [] => None :: fill rest []
      end
  end.

Definition count_none (sequence : list (option item)) : nat :=
  List.length (filter (fun x => x = None) sequence).

(** [check_solution(user_answer)]. *)
Definition check_solution (self : t) (user_answer : value) : Py.Res bool :=
  match type self with
  | SEQUENCE | PATTERN =>
      match user_answer with
      | VList l =>
          if negb (List.length l =? count_none (sequence self))%nat then Py.Ret false
          else
            Py.Ret
              (match solution self with
               | VList sol =>
                   bool_decide (fill (sequence self) l = map Some sol)
               | VStr _ => false
               end)
      | VStr s =>
          (* [len] and indexing also work on a str, character by character *)
          let l := map (fun c => IStr (String c EmptyString)) (list_ascii_of_string s) in
          if negb (List.length l =? count_none (sequence self))%nat then Py.Ret false
          else
            Py.Ret
              (match solution self with
               | VList sol =>
                   bool_decide (fill (sequence self) l = map Some sol)
               | VStr _ => false
               end)
      end
  | PROBABILITY | QUANTUM_STATE =>
      match user_answer, solution self with
      | VStr s, VStr sol =>
          Py.Ret (String.eqb (Str.lower (Str.strip s)) (Str.lower sol))
      | _, _ => Py.Raise Py.AttributeError
      end
  end.

End MiniPuzzle.

(** ** class KuantumKitchen *)

Module KuantumKitchen.

(** The world state.  [Order] instances are objects shared between the
    order lists and the timelines: [objects] holds them by address and
    every list holds addresses.  [timelines] is the [defaultdict(list)],
    as an association list in insertion order.  The constant
    [kitchen_units] is only displayed. *)
Record t := mk {
  day : Z;
  resources : ResourceDict;
  active_orders : list nat;
  completed_orders : list nat;
  failed_orders : list nat;
  score : Z;
  customer_satisfaction : Py.number;
  reality_stability : Py.number;
  timelines : list (Z * list nat);
  current_phase : string;
  max_active_orders : Z;
  available_orders : list nat;
  special_events : list TimelineEvent;
  tutorial_shown : bool;
  objects : list Order.t
}.

Definition set_day (self : t) (v : Z) : t :=
  mk v (resources self) (active_orders self) (completed_orders self)
     (failed_orders self) (score self) (customer_satisfaction self)
     (reality_stability self) (timelines self) (current_phase self)
     (max_active_orders self) (available_orders self)
     (special_events self) (tutorial_shown self) (objects self).

Definition set_resources (self : t) (v : ResourceDict) : t :=
  mk (day self) v (active_orders self) (completed_orders self)
     (failed_orders self) (score self) (customer_satisfaction self)
     (reality_stability self) (timelines self) (current_phase self)
     (max_active_orders self) (available_orders self)
     (special_events self) (tutorial_shown self) (objects self).

Definition set_active_orders (self : t) (v : list nat) : t :=
  mk (day self) (resources self) v (completed_orders self)
     (failed_orders self) (score self) (customer_satisfaction self)
     (reality_stability self) (timelines self) (current_phase self)
     (max_active_orders self) (available_orders self)
     (special_events self) (tutorial_shown self) (objects self).

Definition set_completed_orders (self : t) (v : list nat) : t :=
  mk (day self) (resources self) (active_orders self) v
     (failed_orders self) (score self) (customer_satisfaction self)
     (reality_stability self) (timelines self) (current_phase self)
     (max_active_orders self) (available_orders self)
     (special_events self) (tutorial_shown self) (objects self).

Definition set_failed_orders (self : t) (v : list nat) : t :=
  mk (day self) (resources self) (active_orders self)
     (completed_orders self) v (score self) (customer_satisfaction self)
     (reality_stability self) (timelines self) (current_phase self)
     (max_active_orders self) (available_orders self)
     (special_events self) (tutorial_shown self) (objects self).

Definition set_score (self : t) (v : Z) : t :=
  mk (day self) (resources self) (active_orders self)
     (completed_orders self) (failed_orders self) v
     (customer_satisfaction self) (reality_stability self)
     (timelines self) (current_phase self) (max_active_orders self)
     (available_orders self) (special_events self) (tutorial_shown self)
     (objects self).

Definition set_customer_satisfaction (self : t) (v : Py.number) : t :=
  mk (day self) (resources self) (active_orders self)
     (completed_orders self) (failed_orders self) (score self) v
     (reality_stability self) (timelines self) (current_phase self)
     (max_active_orders self) (available_orders self)
     (special_events self) (tutorial_shown self) (objects self).

Definition set_reality_stability (self : t) (v : Py.number) : t :=
  mk (day self) (resources self) (active_orders self)
     (completed_orders self) (failed_orders self) (score self)
     (customer_satisfaction self) v (timelines self) (current_phase self)
     (max_active_orders self) (available_orders self)
     (special_events self) (tutorial_shown self) (objects self).

Definition set_timelines (self : t) (v : list (Z * list nat)) : t :=
  mk (day self) (resources self) (active_orders self)
     (completed_orders self) (failed_orders self) (score self)
     (customer_satisfaction self) (reality_stability self) v
     (current_phase self) (max_active_orders self) (available_orders self)
     (special_events self) (tutorial_shown self) (objects self).

Definition set_max_active_orders (self : t) (v : Z) : t :=
  mk (day self) (resources self) (active_orders self)
     (completed_orders self) (failed_orders self) (score self)
     (customer_satisfaction self) (reality_stability self)
     (timelines self) (current_phase self) v (available_orders self)
     (special_events self) (tutorial_shown self) (objects self).

Definition set_available_orders (self : t) (v : list nat) : t :=
  mk (day self) (resources self) (active_orders self)
     (completed_orders self) (failed_orders self) (score self)
     (customer_satisfaction self) (reality_stability self)
     (timelines self) (current_phase self) (max_active_orders self) v
     (special_events self) (tutorial_shown self) (objects self).

Definition set_special_events (self : t) (v : list TimelineEvent) : t :=
  mk (day self) (resources self) (active_orders self)
     (completed_orders self) (failed_orders self) (score self)
     (customer_satisfaction self) (reality_stability self)
     (timelines self) (current_phase self) (max_active_orders self)
     (available_orders self) v (tutorial_shown self) (objects self).

Definition set_objects (self : t) (v : list Order.t) : t :=
  mk (day self) (resources self) (active_orders self)
     (completed_orders self) (failed_orders self) (score self)
     (customer_satisfaction self) (reality_stability self)
     (timelines self) (current_phase self) (max_active_orders self)
     (available_orders self) (special_events self) (tutorial_shown self) v.

(** [__init__]. *)
Definition init : t :=
  mk 1 (mkResources 10 5 2) [] [] [] 0 (Py.Int 50) (Py.Int 100) []
     "Planning" 3 [] [] false [].

Definition get_order (self : t) (a : nat) : Py.Res Order.t :=
  match objects self !! a with
  | Some o => Py.Ret o
  | None => Py.Raise Py.DanglingReference
  end.

Definition put_order (self : t) (a : nat) (o : Order.t) : t :=
  set_objects self (<[a := o]> (objects self)).

(** [d[k]] on the defaultdict, which inserts an empty list under a
    missing key, followed by the update [f] of the list it returns. *)
Fixpoint dd_alter (f : list nat -> list nat) (k : Z) (d : list (Z * list nat))
  : list (Z * list nat) :=
  match d with
  | [] => [(k, f [])]
  | (k', l) :: rest =>
      if k =? k' then (k', f l) :: rest else (k', l) :: dd_alter f k rest
  end.

(** [l.remove(x)]: the first occurrence goes; [None] stands for the
    [ValueError] of an absent [x]. *)
Fixpoint remove_first (x : nat) (l : list nat) : option (list nat) :=
  match l with
  | [] => None
  | y :: rest =>
      if (x =? y)%nat then Some rest
      else match remove_first x rest with
           | Some rest' => Some (y :: rest')
           | None => None
           end
  end.

(** [if x in l: l.remove(x)]. *)
Definition discard (x : nat) (l : list nat) : list nat :=
  match remove_first x l with
  | Some l' => l'
  | None => l
  end.

Definition valid_index (order_idx : Z) (l : list nat) : bool :=
  negb ((order_idx <? 0) || (Z.of_nat (length l) <=? order_idx)).

(** [generate_orders]; [draws k] are the draws of the [k]-th new order. *)
Fixpoint generate_loop (impl : Py.SumImpl) (draws : nat -> Order.Draws)
    (k n : nat) (self : t) : t * Py.Res unit :=
  match n with
  | O => (self, Py.Ret tt)
  | S m =>
      match Order.init impl (day self) (draws k) with
      | Py.Raise e => (self, Py.Raise e)
      | Py.Ret o =>
          let a := length (objects self) in
          generate_loop impl draws (S k) m
            (set_available_orders (set_objects self (objects self ++ [o]))
               (available_orders self ++ [a]))
      end
  end.

Definition generate_orders (impl : Py.SumImpl) (draws : nat -> Order.Draws)
    (self : t) : t * Py.Res unit :=
  let num_orders := 3 + Z.min (day self / 2) 5 in
  generate_loop impl draws 0 (Z.to_nat num_orders) (set_available_orders self []).

(** [accept_order(order_idx)]. *)
Definition accept_order (order_idx : Z) (self : t) : t * Py.Res (bool * string) :=
  if negb (valid_index order_idx (available_orders self))
  then (self, Py.Ret (false, "Invalid order index"%string))
  else
    match available_orders self !! Z.to_nat order_idx with
    | None => (self, Py.Raise Py.IndexError)
    | Some a =>
        match get_order self a with
        | Py.Raise e => (self, Py.Raise e)
        | Py.Ret order =>
            if max_active_orders self <=? Z.of_nat (length (active_orders self))
            then (self,
                  Py.Ret (false,
                          ("You can only handle " ++ pretty (max_active_orders self)
                             ++ " active orders at once")%string))
            else
              let self1 := set_active_orders self (active_orders self ++ [a]) in
              let self2 :=
                set_timelines self1
                  (dd_alter (fun l => l ++ [a]) (Order.timeline order)
                     (timelines self1)) in
              let self3 :=
                set_available_orders self2
                  (delete (Z.to_nat order_idx) (available_orders self2)) in
              (self3, Py.Ret (true, ("Accepted order #" ++ pretty (Order.id order))%string))
        end
    end.

(** [reject_order(order_idx)]. *)
Definition reject_order (order_idx : Z) (self : t) : t * (bool * string) :=
  if negb (valid_index order_idx (available_orders self))
  then (self, (false, "Invalid order index"%string))
  else
    let self1 :=
      set_available_orders self
        (delete (Z.to_nat order_idx) (available_orders self)) in
    (set_customer_satisfaction self1
       (Py.max (Py.Int 0) (Py.sub (customer_satisfaction self1) (Py.Int 2))),
     (true, "Order rejected"%string)).

(** The resource check of [prepare_order]: the first kind, in dict
    order, whose balance is below the requirement. *)
Fixpoint first_shortage (resources : ResourceDict)
    (requirements : list (ResourceType * Z)) : option ResourceType :=
  match requirements with
  | [] => None
  | (resource, amount) :: rest =>
      if res_get resources resource <? amount then Some resource
      else first_shortage resources rest
  end.

(** [for resource, amount in ...: self.resources[resource] -= amount]. *)
Definition consume (resources : ResourceDict)
    (requirements : list (ResourceType * Z)) : ResourceDict :=
  fold_left
    (fun acc '(resource, amount) =>
       res_set acc resource (res_get acc resource - amount))
    requirements resources.

(** [solve_puzzle]: up to three attempts.  [inputs k] is what
    [parse_user_input] returns for the text typed at attempt [k] ([None]
    for an invalid format); an exception of [check_solution] is caught
    and the attempt is lost.  The printing is not modelled. *)
Fixpoint solve_attempts (puzzle : MiniPuzzle.t)
    (inputs : nat -> option MiniPuzzle.value) (attempt n : nat) : bool :=
  match n with
  | O => false
  | S m =>
      match inputs attempt with
      | None => solve_attempts puzzle inputs (S attempt) m
      | Some answer =>
          match MiniPuzzle.check_solution puzzle answer with
          | Py.Ret true => true
          | _ => solve_attempts puzzle inputs (S attempt) m
          end
      end
  end.

Definition solve_puzzle (puzzle : MiniPuzzle.t)
    (inputs : nat -> option MiniPuzzle.value) : bool :=
  solve_attempts puzzle inputs 0 3.

(** [prepare_order(order_idx)].  [rand] is the draw of [collapse_state]
    and [refund_resource] the draw [random.choice(list(ResourceType))]. *)
Definition prepare_order (impl : Py.SumImpl) (order_idx : Z)
    (puzzle_draws : MiniPuzzle.Draws) (inputs : nat -> option MiniPuzzle.value)
    (rand : float) (refund_resource : ResourceType) (self : t)
  : t * Py.Res (bool * string) :=
  if negb (valid_index order_idx (active_orders self))
  then (self, Py.Ret (false, "Invalid order index"%string))
  else
    match active_orders self !! Z.to_nat order_idx with
    | None => (self, Py.Raise Py.IndexError)
    | Some a =>
    match get_order self a with
    | Py.Raise e => (self, Py.Raise e)
    | Py.Ret order =>
    if negb (bool_decide (Order.state order = SUPERPOSITION))
    then (self,
          Py.Ret (false,
                  ("Cannot prepare order in " ++ OrderState_value (Order.state order)
                     ++ " state")%string))
    else
    let requirements := res_items (Order.resource_requirements order) in
    match first_shortage (resources self) requirements with
    | Some resource =>
        (self, Py.Ret (false, ("Not enough " ++ ResourceType_value resource)%string))
    | None =>
    let puzzle :=
      MiniPuzzle.setup_puzzle (Order.puzzle order) (Order.difficulty order)
        puzzle_draws in
    let puzzle_completed := solve_puzzle puzzle inputs in
    let probability_bonus := if puzzle_completed then 0.2%float else 0%float in
    let self1 := set_resources self (consume (resources self) requirements) in
    let '(order1, collapsed) :=
      Order.collapse_state impl order probability_bonus rand in
    let self2 := put_order self1 a order1 in
    match collapsed with
    | Py.Raise e => (self2, Py.Raise e)
    | Py.Ret _ =>
    match Order.actual_outcome order1 with
    | None => (self2, Py.Raise Py.TypeError)
    | Some r =>
    match Order.deref (Order.heap order1) r with
    | Py.Raise e => (self2, Py.Raise e)
    | Py.Ret outcome =>
    match Py.int_truediv (satisfaction outcome - 50) 10 with
    | Py.Raise e => (self2, Py.Raise e)
    | Py.Ret satisfaction_delta =>
    let self3 :=
      set_customer_satisfaction self2
        (Py.min (Py.Int 100)
           (Py.max (Py.Int 0)
              (Py.add (customer_satisfaction self2) (Py.Float satisfaction_delta)))) in
    match Py.int_of_float
            (PrimFloat.mul (Py.float_of_int (Order.reward order1))
               (reward_multiplier outcome)) with
    | Py.Raise e => (self3, Py.Raise e)
    | Py.Ret final_reward =>
    let self4 := set_score self3 (score self3 + final_reward) in
    let prepared :=
      ("Prepared order #" ++ pretty (Order.id order1) ++ " ("
         ++ description outcome ++ ").")%string in
    match (if satisfaction outcome <? 50
           then
             match Py.int_truediv (50 - satisfaction outcome) 10 with
             | Py.Raise e => Py.Raise e
             | Py.Ret stability_loss =>
                 Py.Ret
                   (set_reality_stability self4
                      (Py.max (Py.Int 0)
                         (Py.sub (reality_stability self4) (Py.Float stability_loss))),
                    (prepared ++ " Reality distortion detected!")%string)
             end
           else
             Py.Ret (self4,
                     (prepared ++ " Earned " ++ pretty final_reward ++ " points.")%string))
    with
    | Py.Raise e => (self4, Py.Raise e)
    | Py.Ret (self5, message) =>
        if 80 <=? satisfaction outcome then
          let refund_amount := 1 + (if 90 <=? satisfaction outcome then 1 else 0) in
          (set_resources self5
             (res_set (resources self5) refund_resource
                (res_get (resources self5) refund_resource + refund_amount)),
           Py.Ret (true,
                   (message ++ " Gained " ++ pretty refund_amount ++ " "
                      ++ ResourceType_value refund_resource ++ "!")%string))
        else (self5, Py.Ret (true, message))
    end
    end
    end
    end
    end
    end
    end
    end
    end.

(** [for _ in range(resource_reward): self.resources[choice] += 1];
    [choices k] is the [k]-th draw. *)
Fixpoint reward_loop (choices : nat -> ResourceType) (k n : nat)
    (resources : ResourceDict) : ResourceDict :=
  match n with
  | O => resources
  | S m =>
      reward_loop choices (S k) m
        (res_set resources (choices k) (res_get resources (choices k) + 1))
  end.

(** [deliver_order(order_idx)]. *)
Definition deliver_order (order_idx : Z) (choices : nat -> ResourceType)
    (self : t) : t * Py.Res (bool * string) :=
  if negb (valid_index order_idx (active_orders self))
  then (self, Py.Ret (false, "Invalid order index"%string))
  else
    match active_orders self !! Z.to_nat order_idx with
    | None => (self, Py.Raise Py.IndexError)
    | Some a =>
    match get_order self a with
    | Py.Raise e => (self, Py.Raise e)
    | Py.Ret order =>
    if negb (bool_decide (Order.state order = COLLAPSED))
    then (self,
          Py.Ret (false,
                  ("Cannot deliver order in " ++ OrderState_value (Order.state order)
                     ++ " state")%string))
    else
    let self1 :=
      set_active_orders self (delete (Z.to_nat order_idx) (active_orders self)) in
    let self2 := set_completed_orders self1 (completed_orders self1 ++ [a]) in
    let self3 :=
      set_timelines self2
        (dd_alter (discard a) (Order.timeline order) (timelines self2)) in
    let order1 := Order.set_state order DELIVERED in
    let self4 := put_order self3 a order1 in
    match Order.actual_outcome order1 with
    | None => (self4, Py.Raise Py.TypeError)
    | Some r =>
    match Order.deref (Order.heap order1) r with
    | Py.Raise e => (self4, Py.Raise e)
    | Py.Ret outcome =>
        let resource_reward := satisfaction outcome / 20 in
        let self5 :=
          if 0 <? resource_reward
          then set_resources self4
                 (reward_loop choices 0 (Z.to_nat resource_reward) (resources self4))
          else self4 in
        (self5,
         Py.Ret (true,
                 ("Delivered order #" ++ pretty (Order.id order1)
                    ++ ". Customer satisfaction: " ++ pretty (satisfaction outcome)
                    ++ "%")%string))
    end
    end
    end
    end.

(** The first loop of [update_time]: every active order still in
    superposition ticks; the expired ones are collected. *)
Fixpoint tick_loop (orders : list nat) (expired_orders : list nat) (self : t)
  : t * Py.Res (list nat) :=
  match orders with
  | [] => (self, Py.Ret expired_orders)
  | a :: rest =>
      match get_order self a with
      | Py.Raise e => (self, Py.Raise e)
      | Py.Ret order =>
          if bool_decide (Order.state order = SUPERPOSITION) then
            let '(order1, expired) := Order.update_time order in
            tick_loop rest
              (if expired then expired_orders ++ [a] else expired_orders)
              (put_order self a order1)
          else tick_loop rest expired_orders self
      end
  end.

(** The second loop of [update_time]: each expired order leaves
    [active_orders] for [failed_orders] and costs 5 points of each
    meter.  The timelines are not touched. *)
Fixpoint expire_loop (expired_orders : list nat) (self : t) : t * Py.Res unit :=
  match expired_orders with
  | [] => (self, Py.Ret tt)
  | a :: rest =>
      match remove_first a (active_orders self) with
      | None => (self, Py.Raise Py.ValueError)
      | Some l =>
          let self1 := set_active_orders self l in
          let self2 := set_failed_orders self1 (failed_orders self1 ++ [a]) in
          let self3 :=
            set_customer_satisfaction self2
              (Py.max (Py.Int 0) (Py.sub (customer_satisfaction self2) (Py.Int 5))) in
          let self4 :=
            set_reality_stability self3
              (Py.max (Py.Int 0) (Py.sub (reality_stability self3) (Py.Int 5))) in
          expire_loop rest self4
      end
  end.

(** [update_time()]. *)
Definition update_time (self : t) : t * Py.Res bool :=
  match tick_loop (active_orders self) [] self with
  | (self1, Py.Raise e) => (self1, Py.Raise e)
  | (self1, Py.Ret expired_orders) =>
      match expire_loop expired_orders self1 with
      | (self2, Py.Raise e) => (self2, Py.Raise e)
      | (self2, Py.Ret _) => (self2, Py.Ret (0 <? length expired_orders)%nat)
      end
  end.

(** The draws of [trigger_special_event]; each kind reads its own. *)
Record EventDraws := mkEventDraws {
  draw_event : TimelineEvent;         (* choice(list(TimelineEvent)) *)
  draw_resource : ResourceType;       (* choice(list(ResourceType)) *)
  draw_amount : Z;                    (* randint(2, 5) *)
  draw_timelines : nat -> Z;          (* randint(1, min(2 + day // 3, 5)), per order *)
  draw_order : nat;                   (* the index choice(active_orders) picks *)
  draw_stability_loss : Z             (* randint(5, 15) *)
}.

(** The reassignment loop of the Timeline Shift. *)
Fixpoint shift_loop (draws : nat -> Z) (k : nat) (all_orders : list nat)
    (self : t) : t * Py.Res unit :=
  match all_orders with
  | [] => (self, Py.Ret tt)
  | a :: rest =>
      match get_order self a with
      | Py.Raise e => (self, Py.Raise e)
      | Py.Ret order =>
          let order1 := Order.set_timeline order (draws k) in
          let self1 := put_order self a order1 in
          shift_loop draws (S k) rest
            (set_timelines self1
               (dd_alter (fun l => l ++ [a]) (Order.timeline order1)
                  (timelines self1)))
      end
  end.

(** [trigger_special_event()]; the message it returns is dropped by its
    only caller and is not modelled. *)
Definition trigger_special_event (d : EventDraws) (self : t) : t * Py.Res unit :=
  let event := draw_event d in
  let self1 := set_special_events self (special_events self ++ [event]) in
  match event with
  | RESOURCE_BOOST =>
      (set_resources self1
         (res_set (resources self1) (draw_resource d)
            (res_get (resources self1) (draw_resource d) + draw_amount d)),
       Py.Ret tt)
  | TIMELINE_SHIFT =>
      let all_orders := concat (map snd (timelines self1)) in
      shift_loop (draw_timelines d) 0 all_orders (set_timelines self1 [])
  | QUANTUM_FLUCTUATION =>
      match active_orders self1 with
      | [] => (self1, Py.Ret tt)
      | _ :: _ =>
          match active_orders self1
                !! (draw_order d mod length (active_orders self1))%nat with
          | None => (self1, Py.Raise Py.IndexError)
          | Some a =>
              match get_order self1 a with
              | Py.Raise e => (self1, Py.Raise e)
              | Py.Ret order =>
                  if bool_decide (Order.state order = SUPERPOSITION) then
                    (put_order self1 a
                       (Order.set_time_remaining order
                          (Z.min (Order.time_limit order)
                             (Order.time_remaining order + 2))),
                     Py.Ret tt)
                  else (self1, Py.Ret tt)
              end
          end
      end
  | REALITY_DISTORTION =>
      (set_reality_stability self1
         (Py.max (Py.Int 0)
            (Py.sub (reality_stability self1) (Py.Int (draw_stability_loss d)))),
       Py.Ret tt)
  end.

(** [advance_day()]; [rand] is the draw compared with [0.3].  The banner
    it returns is not modelled. *)
Definition advance_day (rand : float) (d : EventDraws) (self : t)
  : t * Py.Res unit :=
  let '(self1, fired) :=
    if PrimFloat.ltb rand 0.3%float then trigger_special_event d self
    else (self, Py.Ret tt) in
  match fired with
  | Py.Raise e => (self1, Py.Raise e)
  | Py.Ret _ =>
      let daily_resources :=
        mkResources (5 + day self1 / 2) (2 + day self1 / 3) (1 + day self1 / 4) in
      let self2 :=
        set_resources self1
          (fold_left
             (fun acc '(resource, amount) =>
                res_set acc resource (res_get acc resource + amount))
             (res_items daily_resources) (resources self1)) in
      match Py.floordiv (customer_satisfaction self2) 20 with
      | Py.Raise e => (self2, Py.Raise e)
      | Py.Ret q =>
          let stability_gain := Py.add (Py.Int 5) q in
          let self3 :=
            set_reality_stability self2
              (Py.min (Py.Int 100) (Py.add (reality_stability self2) stability_gain)) in
          let self4 := set_day self3 (day self3 + 1) in
          (set_max_active_orders self4 (3 + Z.min (day self4 / 3) 4), Py.Ret tt)
      end
  end.

(** The forced end of day of [run_delivery_phase]: 3 points of
    satisfaction per order still active, then both collections are
    emptied. *)
Definition end_day (self : t) : t :=
  let self1 :=
    set_customer_satisfaction self
      (fold_left (fun cs _ => Py.max (Py.Int 0) (Py.sub cs (Py.Int 3)))
         (active_orders self) (customer_satisfaction self)) in
  set_timelines (set_active_orders self1 []) [].

(** [check_game_over()]. *)
Definition check_game_over (self : t) : bool * string :=
  if Py.le (reality_stability self) (Py.Int 0)
  then (true, "GAME OVER: Reality has completely collapsed!"%string)
  else if Py.le (customer_satisfaction self) (Py.Int 0)
  then (true, "GAME OVER: Your restaurant has lost all its customers!"%string)
  else (false, ""%string).

End KuantumKitchen.

(** * Sample inputs and stated properties *)

(** The draws of a day-1 order for a Quantum Burger with [n] outcomes. *)
Definition burger_draws (n : Z) : Order.Draws :=
  Order.mkDraws 1234 QUANTUM_BURGER 3 1 0 0 QUANTUM_STATE n 1.

(** The order [Order(1)] builds from [burger_draws 2]. *)
Definition burger2 : Order.t :=
  Order.mk 1234 SUPERPOSITION QUANTUM_BURGER 3 3 1 (mkResources 1 0 0) 15
    QUANTUM_STATE [0; 1]%nat None 1
    [mkOutcome "Perfect Quantum Burger" 100 1.5%float 0.4285714285714286%float;
     mkOutcome "Good Quantum Burger" 80 1%float 0.5714285714285714%float].

(** The order [Order(1)] builds from [burger_draws 3]. *)
Definition burger3 : Order.t :=
  Order.mk 1234 SUPERPOSITION QUANTUM_BURGER 3 3 1 (mkResources 1 0 0) 15
    QUANTUM_STATE [0; 1; 2]%nat None 1
    [mkOutcome "Perfect Quantum Burger" 100 1.5%float 0.30000000000000004%float;
     mkOutcome "Good Quantum Burger" 80 1%float 0.4%float;
     mkOutcome "Mediocre Quantum Burger" 50 0.7%float 0.3%float].

(** Puzzle draws that start from [|0⟩] and always pick the operation X. *)
Definition x_draws : MiniPuzzle.Draws :=
  MiniPuzzle.mkDraws (fun _ => 3) ["#"; "."; "#"; "."]%string (fun k => k) 6 3
    "|0⟩" (fun _ => "X"%string).

(** The probabilities [generate_possible_outcomes] assigns before it
    normalizes: Perfect, Good, then Mediocre and Poor when drawn. *)
Definition base_probabilities (difficulty num_outcomes : Z) : list float :=
  [PrimFloat.add 0.2%float (PrimFloat.mul 0.1%float (Py.float_of_int difficulty));
   0.4%float]
    ++ (if 2 <? num_outcomes then [0.3%float] else [])
    ++ (if 3 <? num_outcomes then [0.1%float] else []).

(** The exact sum of a list of finite floats, as a rational. *)
Fixpoint exact_sum (l : list float) : option Q :=
  match l with
  | [] => Some 0%Q
  | x :: rest =>
      match Py.Q_of_float x, exact_sum rest with
      | Some a, Some b => Some (a + b)%Q
      | _, _ => None
      end
  end.

(** The floats are finite and their exact sum is within 1e-9 of 1. *)
Definition sums_to_one (l : list float) : Prop :=
  exists q, exact_sum l = Some q /\ (Qabs (q - 1) <= 1 # 1000000000)%Q.

Definition sums_to_oneb (l : list float) : bool :=
  match exact_sum l with
  | Some q => Qle_bool (Qabs (q - 1)) (1 # 1000000000)
  | None => false
  end.

(** The test [abs(sum(l) - 1.0) <= 1e-9] as Python evaluates it. *)
Definition float_sums_to_one (impl : Py.SumImpl) (l : list float) : bool :=
  PrimFloat.leb
    (PrimFloat.abs (PrimFloat.sub (Py.sum impl l) 1%float)) 1e-9%float.

(** A kitchen in the execution phase of day 1 whose only active order is
    [o], accepted into its timeline. *)
Definition kitchen_of (o : Order.t) : KuantumKitchen.t :=
  KuantumKitchen.mk 1 (mkResources 10 5 2) [0%nat] [] [] 0 (Py.Int 50) (Py.Int 100)
    [(Order.timeline o, [0%nat])] "Execution" 3 [] [] false [o].

(** The player types nothing that parses: the puzzle fails. *)
Definition no_answers : nat -> option MiniPuzzle.value := fun _ => None.

(** ** The two meters

    A meter (customer satisfaction, reality stability) holds the integer
    [n] as the int [n] or, once a true division has been added to it, as
    the float [n.0]. *)
Definition meter_is (x : Py.number) (n : Z) : Prop :=
  x = Py.Int n \/ x = Py.Float (Py.float_of_int n).

Definition meter_isb (x : Py.number) (n : Z) : bool :=
  match x with
  | Py.Int z => z =? n
  | Py.Float f => PrimFloat.Leibniz.eqb f (Py.float_of_int n)
  end.

(** An integer between 0 and 100. *)
Definition clamped (x : Py.number) : Prop :=
  exists n, 0 <= n <= 100 /\ meter_is x n.

(** The satisfaction scores [generate_possible_outcomes] assigns. *)
Definition generated_scores : list Z := [100; 80; 50; 20].

(** The updates of the meters, as the program writes them. *)
Definition lose (x : Py.number) (points : Z) : Py.number :=
  Py.max (Py.Int 0) (Py.sub x (Py.Int points)).

Definition shift_satisfaction (cs : Py.number) (satisfaction_delta : float)
  : Py.number :=
  Py.min (Py.Int 100) (Py.max (Py.Int 0) (Py.add cs (Py.Float satisfaction_delta))).

Definition lose_stability (rs : Py.number) (stability_loss : float) : Py.number :=
  Py.max (Py.Int 0) (Py.sub rs (Py.Float stability_loss)).

Definition regenerate (rs : Py.number) (q : Py.number) : Py.number :=
  Py.min (Py.Int 100) (Py.add rs (Py.add (Py.Int 5) q)).

(** The two carriers of [n]. *)
Definition carriers (n : Z) : list Py.number :=
  [Py.Int n; Py.Float (Py.float_of_int n)].

(** The kitchen after the sample preparation of [burger3]: no answer
    parses, the draw 0.5 selects the Good outcome. *)
Definition prepared_kitchen : KuantumKitchen.t :=
  fst (KuantumKitchen.prepare_order Py.LeftToRight 0 x_draws no_answers 0.5%float
         QUANTUM_ENERGY (kitchen_of burger3)).

(** ** The operations on the world state

    One constructor per operation that changes the world, with the draws
    and the player's input it consumes. *)
Inductive Operation :=
| GenerateOrders (draws : nat -> Order.Draws)
| AcceptOrder (order_idx : Z)
| RejectOrder (order_idx : Z)
| PrepareOrder (order_idx : Z) (puzzle_draws : MiniPuzzle.Draws)
    (inputs : nat -> option MiniPuzzle.value) (rand : float)
    (refund_resource : ResourceType)
| DeliverOrder (order_idx : Z) (choices : nat -> ResourceType)
| UpdateTime
| AdvanceDay (rand : float) (d : KuantumKitchen.EventDraws)
| TriggerSpecialEvent (d : KuantumKitchen.EventDraws)
| EndDay.

(** The world after an operation, whether it returned or raised. *)
Definition run (impl : Py.SumImpl) (op : Operation) (k : KuantumKitchen.t)
  : KuantumKitchen.t :=
  match op with
  | GenerateOrders draws => fst (KuantumKitchen.generate_orders impl draws k)
  | AcceptOrder order_idx => fst (KuantumKitchen.accept_order order_idx k)
  | RejectOrder order_idx => fst (KuantumKitchen.reject_order order_idx k)
  | PrepareOrder order_idx puzzle_draws inputs rand refund_resource =>
      fst (KuantumKitchen.prepare_order impl order_idx puzzle_draws inputs rand
             refund_resource k)
  | DeliverOrder order_idx choices =>
      fst (KuantumKitchen.deliver_order order_idx choices k)
  | UpdateTime => fst (KuantumKitchen.update_time k)
  | AdvanceDay rand d => fst (KuantumKitchen.advance_day rand d k)
  | TriggerSpecialEvent d => fst (KuantumKitchen.trigger_special_event d k)
  | EndDay => KuantumKitchen.end_day k
  end.

(** The Reality Distortion draw is [randint(5, 15)]. *)
Definition draws_in_range (op : Operation) : Prop :=
  match op with
  | AdvanceDay _ d | TriggerSpecialEvent d =>
      5 <= KuantumKitchen.draw_stability_loss d <= 15
  | _ => True
  end.

(** Every outcome record of every order carries a generated score. *)
Definition scores_generated (k : KuantumKitchen.t) : Prop :=
  Forall
    (fun o =>
       Forall (fun oc => In (satisfaction oc) generated_scores) (Order.heap o))
    (KuantumKitchen.objects k).

Definition meters_clamped (k : KuantumKitchen.t) : Prop :=
  clamped (KuantumKitchen.customer_satisfaction k)
  /\ clamped (KuantumKitchen.reality_stability k).

(** The states a game can be in. *)
Inductive reachable (impl : Py.SumImpl) : KuantumKitchen.t -> Prop :=
| reachable_init : reachable impl KuantumKitchen.init
| reachable_run (op : Operation) (k : KuantumKitchen.t) :
    reachable impl k -> draws_in_range op -> reachable impl (run impl op k).

(** The draws of a Reality Distortion that costs [loss] points. *)
Definition distortion (loss : Z) : KuantumKitchen.EventDraws :=
  KuantumKitchen.mkEventDraws REALITY_DISTORTION QUANTUM_ENERGY 2 (fun _ => 1)
    0%nat loss.

(** ** The timelines index *)

(** Every order the index holds, in dict order. *)
Definition timeline_entries (k : KuantumKitchen.t) : list nat :=
  concat (map snd (KuantumKitchen.timelines k)).

(** The index holds exactly the active orders, each once, and each under
    its own timeline id. *)
Definition timelines_consistent (k : KuantumKitchen.t) : Prop :=
  Permutation (timeline_entries k) (KuantumKitchen.active_orders k)
  /\ NoDup (KuantumKitchen.active_orders k)
  /\ forall tl l a,
       In (tl, l) (KuantumKitchen.timelines k) -> In a l ->
       exists o, KuantumKitchen.objects k !! a = Some o /\ Order.timeline o = tl.

(** The draws of a Timeline Shift that sends every order to [tl]. *)
Definition shift_to (tl : Z) : KuantumKitchen.EventDraws :=
  KuantumKitchen.mkEventDraws TIMELINE_SHIFT QUANTUM_ENERGY 2 (fun _ => tl)
    0%nat 5.

Definition run_all (impl : Py.SumImpl) (ops : list Operation)
    (k : KuantumKitchen.t) : KuantumKitchen.t :=
  fold_left (fun k op => run impl op k) ops k.

(** A first day: three two-outcome burgers are offered (time limit 3,
    timeline 1), the first is accepted. *)
Definition accepted_day : list Operation :=
  [GenerateOrders (fun _ => burger_draws 2); AcceptOrder 0].

(** Time then advances three times without a preparation. *)
Definition expired_day : list Operation :=
  accepted_day ++ [UpdateTime; UpdateTime; UpdateTime].

(** The next event is a Timeline Shift to timeline 2. *)
Definition shifted_day : list Operation :=
  expired_day ++ [TriggerSpecialEvent (shift_to 2)].

(** * Further definitions *)

(** ** The selection of [collapse_state] *)

(** The running totals the selection loop compares the draw with. *)
Fixpoint cumulative (acc : float) (ps : list float) : list float :=
  match ps with
  | [] => []
  | p :: rest => PrimFloat.add acc p :: cumulative (PrimFloat.add acc p) rest
  end.

(** The first address whose running total reaches the draw. *)
Fixpoint first_reached (rand : float) (totals : list float) (refs : list nat)
  : option nat :=
  match totals, refs with
  | c :: totals', a :: refs' =>
      if PrimFloat.leb rand c then Some a else first_reached rand totals' refs'
  | _, _ => None
  end.

(** Every address is one of a dict the heap holds. *)
Definition refs_valid (o : Order.t) : Prop :=
  Forall (fun a => (a < length (Order.heap o))%nat) (Order.possible_outcomes o).

(** The draws of an order of day 12 (difficulty 5) with three outcomes. *)
Definition late_draws : Order.Draws :=
  Order.mkDraws 4321 PROBABILITY_PIE 3 1 0 0 PROBABILITY 3 1.

(** The order [Order(12)] builds from [late_draws] when [sum] adds from
    left to right. *)
Definition late_pie : Order.t :=
  Order.mk 4321 SUPERPOSITION PROBABILITY_PIE 3 3 5 (mkResources 1 0 0) 35
    PROBABILITY [0; 1; 2]%nat None 1
    [mkOutcome "Perfect Probability Pie" 100 1.5%float 0.49999999999999994%float;
     mkOutcome "Good Probability Pie" 80 1%float 0.2857142857142857%float;
     mkOutcome "Mediocre Probability Pie" 50 0.7%float 0.21428571428571425%float].

(** The largest value [random.random()] returns: 1 - 2^-53. *)
Definition largest_draw : float := 0.99999999999999989%float.

(** ** The order collections *)

(** Every order the kitchen holds in one of its four lists. *)
Definition all_orders (k : KuantumKitchen.t) : list nat :=
  KuantumKitchen.available_orders k ++ KuantumKitchen.active_orders k
    ++ KuantumKitchen.completed_orders k ++ KuantumKitchen.failed_orders k.

(** The operations that only move orders between the lists: all but the
    generation of a new batch, a rejection and the forced end of day. *)
Definition moves_orders (op : Operation) : Prop :=
  match op with
  | GenerateOrders _ | RejectOrder _ | EndDay => False
  | _ => True
  end.

(** The cap follows the day and the active orders fit under it. *)
Definition capacity_kept (k : KuantumKitchen.t) : Prop :=
  KuantumKitchen.max_active_orders k = 3 + Z.min (KuantumKitchen.day k / 3) 4
  /\ 0 <= KuantumKitchen.day k
  /\ Z.of_nat (length (KuantumKitchen.active_orders k))
     <= KuantumKitchen.max_active_orders k.

(** The transitions of an order's state: it may stay, leave SUPERPOSITION
    for COLLAPSED or FAILED, or go from COLLAPSED to DELIVERED. *)
Definition state_follows (s s' : OrderState) : Prop :=
  s' = s
  \/ (s = SUPERPOSITION /\ (s' = COLLAPSED \/ s' = FAILED))
  \/ (s = COLLAPSED /\ s' = DELIVERED).

(** The sum of the three balances. *)
Definition total_resources (d : ResourceDict) : Z :=
  quantum_energy d + probability_stabilizer d + timeline_token d.

(** The kitchen of day 1 once three two-outcome burgers are offered. *)
Definition offered_kitchen : KuantumKitchen.t :=
  run_all Py.LeftToRight [GenerateOrders (fun _ => burger_draws 2)]
    KuantumKitchen.init.

(** Every address a list or the index holds is one of an order object. *)
Definition store_valid (k : KuantumKitchen.t) : Prop :=
  Forall (fun a => (a < length (KuantumKitchen.objects k))%nat)
    (all_orders k ++ timeline_entries k).

(** What the outcome records keep for life: all but the probabilities,
    record by record. *)
Definition same_scores (h h' : list Outcome) : Prop :=
  map description h' = map description h
  /\ map satisfaction h' = map satisfaction h
  /\ map reward_multiplier h' = map reward_multiplier h.

(** What an order keeps for life. *)
Definition same_identity (o o' : Order.t) : Prop :=
  Order.id o' = Order.id o
  /\ Order.dish o' = Order.dish o
  /\ Order.time_limit o' = Order.time_limit o
  /\ Order.difficulty o' = Order.difficulty o
  /\ Order.resource_requirements o' = Order.resource_requirements o
  /\ Order.reward o' = Order.reward o
  /\ Order.puzzle o' = Order.puzzle o
  /\ Order.possible_outcomes o' = Order.possible_outcomes o
  /\ same_scores (Order.heap o) (Order.heap o').

(** The order is the same one, its state moved along the state machine,
    and once out of SUPERPOSITION it keeps the outcome it recorded. *)
Definition order_evolves (o o' : Order.t) : Prop :=
  same_identity o o'
  /\ state_follows (Order.state o) (Order.state o')
  /\ (Order.state o <> SUPERPOSITION ->
      Order.actual_outcome o' = Order.actual_outcome o).

(** The order is the same one, in the same state or expired. *)
Definition order_ticks (o o' : Order.t) : Prop :=
  same_identity o o'
  /\ (Order.state o' = Order.state o
      \/ (Order.state o = SUPERPOSITION /\ Order.state o' = FAILED))
  /\ Order.actual_outcome o' = Order.actual_outcome o.

(** The order is the same one, in the same state. *)
Definition order_kept (o o' : Order.t) : Prop :=
  same_identity o o'
  /\ Order.state o' = Order.state o
  /\ Order.actual_outcome o' = Order.actual_outcome o.

(** Every object of the store [h] is still in [h'], at its address, and
    stands in the relation [R] to what it was. *)
Definition related (R : Order.t -> Order.t -> Prop) (h h' : list Order.t) : Prop :=
  forall a o, h !! a = Some o -> exists o', h' !! a = Some o' /\ R o o'.

(** ** A sound index

    The conditions under which the index can be maintained: it is
    consistent with the active orders, no timeline id is listed twice, no
    order is in two lists or twice in one, and every address is valid. *)
Definition keys_unique (k : KuantumKitchen.t) : Prop :=
  NoDup (map fst (KuantumKitchen.timelines k)).

Definition index_sound (k : KuantumKitchen.t) : Prop :=
  timelines_consistent k /\ keys_unique k /\ NoDup (all_orders k) /\ store_valid k.

(** Every timeline draw is in the range of the day. *)
Definition timeline_draws_in_range (d : KuantumKitchen.EventDraws)
    (k : KuantumKitchen.t) : Prop :=
  forall i, 1 <= KuantumKitchen.draw_timelines d i
            <= Z.min (2 + KuantumKitchen.day k / 3) 5.

(** Every entry of the index is an order filed under its own timeline. *)
Definition filed_right (timelines : list (Z * list nat)) (objects : list Order.t)
  : Prop :=
  forall tl l a,
    In (tl, l) timelines -> In a l ->
    exists o, objects !! a = Some o /\ Order.timeline o = tl.


(** The operations that maintain the index: all but the passing of time,
    which moves expired orders out of the active list and leaves them in
    the index. *)
Definition keeps_index (op : Operation) : Prop :=
  match op with
  | UpdateTime => False
  | _ => True
  end.

(** The kitchen of day 1 once the first of three burgers is accepted. *)
Definition accepted_kitchen : KuantumKitchen.t :=
  run_all Py.LeftToRight accepted_day KuantumKitchen.init.

(** ** The fill-in puzzles *)

(** The values blanked out of the solution, in the order of their
    positions. *)
Fixpoint missing (sequence : list (option MiniPuzzle.item))
    (solution : list MiniPuzzle.item) : list MiniPuzzle.item :=
  match sequence, solution with
  | None :: sequence', x :: solution' => x :: missing sequence' solution'
  | Some _ :: sequence', _ :: solution' => missing sequence' solution'
  | _, _ => []
  end.

(** The two puzzle kinds answered by a list of values. *)
Definition fill_in (type : MiniPuzzleType) : Prop :=
  type = SEQUENCE \/ type = PATTERN.

(** [burger3] once collapsed to its Good outcome. *)
Definition collapsed_burger : Order.t :=
  Order.set_state (Order.set_actual_outcome burger3 (Some 1%nat)) COLLAPSED.

(** The Good outcome of [burger3]. *)
Definition good_burger : Outcome :=
  mkOutcome "Good Quantum Burger" 80 1%float 0.4%float.

(** The next tick expires the order: it is in superposition with at most
    one unit of time left. *)
Definition expires (o : Order.t) : bool :=
  bool_decide (Order.state o = SUPERPOSITION) && (Order.time_remaining o - 1 <=? 0).

(** The order at address [a] is one the next tick expires. *)
Definition will_expire (h : list Order.t) (a : nat) : bool :=
  match h !! a with
  | Some o => expires o
  | None => false
  end.

(** What a tick makes of an active order. *)
Definition ticked (o : Order.t) : Order.t :=
  if bool_decide (Order.state o = SUPERPOSITION) then fst (Order.update_time o)
  else o.

(** The kitchen of day 1 with one order accepted and one unit of its time
    left. *)
Definition last_minute_kitchen : KuantumKitchen.t :=
  run_all Py.LeftToRight (accepted_day ++ [UpdateTime; UpdateTime])
    KuantumKitchen.init.

(** The entries a fill-in puzzle of a difficulty shows, and how many of
    them it blanks. *)
Definition shown_entries (type : MiniPuzzleType) (difficulty : Z) : nat :=
  match type with
  | SEQUENCE => Z.to_nat (3 + difficulty)
  | _ => Z.to_nat (4 + difficulty * 2)
  end.

Definition blank_entries (type : MiniPuzzleType) (difficulty : Z) : nat :=
  match type with
  | SEQUENCE => Z.to_nat (difficulty + 1)
  | _ => Z.to_nat (difficulty * 2)
  end.

(** What the redraw loop guarantees of the first [n] indices it lets
    through: each is in range and none was let through before. *)
Definition blanks_accepted (blanks : nat -> nat) (len n : nat) : Prop :=
  (forall i, (i < n)%nat -> (blanks i < len)%nat)
  /\ (forall i j, (i < j < n)%nat -> blanks i <> blanks j).
(** * Properties *)

(** ** Order.update_time *)

(** C6: on an order in SUPERPOSITION, [update_time] takes exactly 1 off
    [time_remaining] and changes nothing else but the state; when the new
    value is at most 0 the order becomes FAILED and the call returns true,
    otherwise it stays in SUPERPOSITION and the call returns false.  So with
    [time_remaining = 1] it fails and returns true, and with
    [time_remaining = 2] it returns false, keeps SUPERPOSITION and leaves 1. *)
Theorem update_time_superposition (o : Order.t) :
  Order.state o = SUPERPOSITION ->
  let '(o', expired) := Order.update_time o in
  Order.time_remaining o' = Order.time_remaining o - 1
  /\ o' = Order.set_state
            (Order.set_time_remaining o (Order.time_remaining o - 1))
            (Order.state o')
  /\ (Order.time_remaining o - 1 <= 0 ->
      Order.state o' = FAILED /\ expired = true)
  /\ (0 < Order.time_remaining o - 1 ->
      Order.state o' = SUPERPOSITION /\ expired = false)
  /\ (Order.time_remaining o = 1 ->
      Order.state o' = FAILED /\ expired = true)
  /\ (Order.time_remaining o = 2 ->
      Order.state o' = SUPERPOSITION /\ expired = false
      /\ Order.time_remaining o' = 1).
Proof.
  intros Hs. unfold Order.update_time. cbn [Order.set_time_remaining Order.time_remaining Order.state].
  rewrite Hs. rewrite bool_decide_eq_true_2 by reflexivity. rewrite andb_true_r.
  destruct (Z.leb_spec (Order.time_remaining o - 1) 0) as [Hle | Hgt]; cbn.
  - repeat split; try reflexivity; intros; lia.
  - rewrite Hs. destruct o; cbn in *. subst. repeat split; try reflexivity; intros; lia.
Qed.

(** The sample orders are what the constructor returns on day 1, under
    either summation. *)
Lemma burger2_generated (impl : Py.SumImpl) :
  Order.init impl 1 (burger_draws 2) = Py.Ret burger2.
Proof. destruct impl; vm_compute; reflexivity. Qed.

Lemma burger3_generated (impl : Py.SumImpl) :
  Order.init impl 1 (burger_draws 3) = Py.Ret burger3.
Proof. destruct impl; vm_compute; reflexivity. Qed.

Lemma update_time_superposition_witness :
  let '(o', expired) := Order.update_time (Order.set_time_remaining burger2 1) in
  Order.time_remaining o' = 1 - 1
  /\ o' = Order.set_state
            (Order.set_time_remaining (Order.set_time_remaining burger2 1) (1 - 1))
            (Order.state o')
  /\ (1 - 1 <= 0 -> Order.state o' = FAILED /\ expired = true)
  /\ (0 < 1 - 1 -> Order.state o' = SUPERPOSITION /\ expired = false)
  /\ (1 = 1 -> Order.state o' = FAILED /\ expired = true)
  /\ (1 = 2 ->
      Order.state o' = SUPERPOSITION /\ expired = false
      /\ Order.time_remaining o' = 1).
Proof.
  exact (update_time_superposition (Order.set_time_remaining burger2 1) eq_refl).
Defined.

(** ** Order.collapse_state outside SUPERPOSITION *)

(** C7: [collapse_state] on an order that is COLLAPSED, FAILED or DELIVERED
    returns at once, for every bonus and every draw: the order (its state,
    [actual_outcome], the outcome records and [time_remaining] among the
    rest) is the one it was. *)
Theorem collapse_state_not_superposition (impl : Py.SumImpl) (o : Order.t)
    (bonus_probability rand : float) :
  Order.state o <> SUPERPOSITION ->
  let '(o', r) := Order.collapse_state impl o bonus_probability rand in
  r = Py.Ret tt /\ o' = o
  /\ Order.state o' = Order.state o
  /\ Order.actual_outcome o' = Order.actual_outcome o
  /\ Order.records (Order.heap o') (Order.possible_outcomes o')
     = Order.records (Order.heap o) (Order.possible_outcomes o)
  /\ Order.time_remaining o' = Order.time_remaining o.
Proof.
  intros Hs. unfold Order.collapse_state.
  rewrite bool_decide_eq_false_2 by exact Hs. cbn. repeat split.
Qed.

Lemma collapse_state_not_superposition_witness :
  let '(o', r) :=
    Order.collapse_state Py.LeftToRight (Order.set_state burger3 FAILED)
      0.2%float 0.5%float in
  r = Py.Ret tt /\ o' = Order.set_state burger3 FAILED
  /\ Order.state o' = Order.state (Order.set_state burger3 FAILED)
  /\ Order.actual_outcome o' = Order.actual_outcome (Order.set_state burger3 FAILED)
  /\ Order.records (Order.heap o') (Order.possible_outcomes o')
     = Order.records (Order.heap (Order.set_state burger3 FAILED))
         (Order.possible_outcomes (Order.set_state burger3 FAILED))
  /\ Order.time_remaining o' = Order.time_remaining (Order.set_state burger3 FAILED).
Proof.
  refine (collapse_state_not_superposition Py.LeftToRight
            (Order.set_state burger3 FAILED) 0.2%float 0.5%float _).
  discriminate.
Defined.

(** ** The Quantum State puzzle *)

Lemma is_space_lower_char (c : ascii) :
  Str.is_space (Str.lower_char c) = Str.is_space c.
Proof. destruct c as [[] [] [] [] [] [] [] []]; reflexivity. Qed.

Lemma is_space2_lower_char (c1 c2 : ascii) :
  Str.is_space2 (Str.lower_char c1) (Str.lower_char c2) = Str.is_space2 c1 c2.
Proof.
  destruct c1 as [[] [] [] [] [] [] [] []]; try reflexivity;
    destruct c2 as [[] [] [] [] [] [] [] []]; reflexivity.
Qed.

Lemma is_space3_lower_char (c1 c2 c3 : ascii) :
  Str.is_space3 (Str.lower_char c1) (Str.lower_char c2) (Str.lower_char c3)
  = Str.is_space3 c1 c2 c3.
Proof.
  destruct c1 as [[] [] [] [] [] [] [] []]; try reflexivity;
    destruct c2 as [[] [] [] [] [] [] [] []]; try reflexivity;
    destruct c3 as [[] [] [] [] [] [] [] []]; reflexivity.
Qed.

Lemma lower_lstrip (s : string) :
  Str.lower (Str.lstrip s) = Str.lstrip (Str.lower s).
Proof.
  remember (String.length s) as n eqn:Hn.
  assert (String.length s <= n)%nat as Hle by lia. clear Hn. revert s Hle.
  induction n as [| n IH]; intros s Hle.
  - destruct s; [reflexivity | cbn in Hle; lia].
  - destruct s as [| c1 r1]; [reflexivity |]. cbn in Hle.
    cbn [Str.lstrip Str.lower]. rewrite is_space_lower_char.
    destruct (Str.is_space c1); [apply IH; lia |].
    destruct r1 as [| c2 r2]; [reflexivity |]. cbn in Hle.
    cbn [Str.lower]. rewrite is_space2_lower_char.
    destruct (Str.is_space2 c1 c2); [apply IH; lia |].
    destruct r2 as [| c3 r3]; [reflexivity |]. cbn in Hle.
    cbn [Str.lower]. rewrite is_space3_lower_char.
    destruct (Str.is_space3 c1 c2 c3); [apply IH; lia | reflexivity].
Qed.

Lemma lower_rstrip (s : string) :
  Str.lower (Str.rstrip s) = Str.rstrip (Str.lower s).
Proof.
  induction s as [| c s IH]; [reflexivity |].
  cbn [Str.rstrip Str.lower].
  change (String (Str.lower_char c) (Str.lower s)) with (Str.lower (String c s)).
  rewrite <- lower_lstrip.
  destruct (Str.lstrip (String c s)); cbn [Str.lower]; [reflexivity |].
  now rewrite IH.
Qed.

Lemma lower_strip (s : string) :
  Str.lower (Str.strip s) = Str.strip (Str.lower s).
Proof. unfold Str.strip. now rewrite lower_rstrip, lower_lstrip. Qed.

(** [lower] changes a string whose lower-cased form holds no letter in
    nothing. *)
Lemma lower_without_letters (s t : string) :
  Str.lower s = t ->
  forallb (fun c => negb ((97 <=? nat_of_ascii c)%nat && (nat_of_ascii c <=? 122)%nat))
    (list_ascii_of_string t) = true ->
  s = t.
Proof.
  revert t. induction s as [| c s IH]; intros t <- Ht; [reflexivity |].
  cbn in Ht. apply andb_true_iff in Ht as [Hc Ht].
  cbn [Str.lower]. rewrite <- (IH _ eq_refl Ht). f_equal.
  revert Hc. clear. destruct c as [[] [] [] [] [] [] [] []]; vm_compute; congruence.
Qed.

(** From [|0⟩] the simulation ends in one of the four states. *)
Lemma final_state_zero (operations : list string) :
  In (MiniPuzzle.final_state "|0⟩" operations)
    ["|0⟩"; "|1⟩"; "|+⟩"; "|-⟩"]%string.
Proof.
  unfold MiniPuzzle.final_state. rewrite String.eqb_refl.
  match goal with
  | |- In (fold_left ?f _ _) _ => set (step := f)
  end.
  assert (forall ops state,
            In state ["|0⟩"; "|1⟩"; "|+⟩"; "|-⟩"]%string ->
            In (fold_left step ops state) ["|0⟩"; "|1⟩"; "|+⟩"; "|-⟩"]%string) as H.
  { induction ops as [| op ops IH]; intros state H; [exact H |].
    cbn [fold_left]. apply IH. subst step. cbn beta.
    destruct (String.eqb op "X"); [| destruct (String.eqb op "H")];
      try exact H; destruct (String.eqb state "|0⟩"); cbn; auto. }
  apply H. left. reflexivity.
Qed.

(** C9: a Quantum State puzzle that starts from [|0⟩] stores the
    operations it drew, [1 + difficulty // 2] of them, and as its solution
    the final state the simulation computes from them: [|1⟩] when the
    draws are the list [X], [|0⟩] when they are [X, X].  [check_solution]
    compares the stripped, lower-cased answer with the lower-cased
    solution, so two answers that differ only in letter case get the same
    verdict; the states holding no letter, the answers accepted are the
    stored state with white space around it. *)
Theorem quantum_state_puzzle (difficulty : Z) (d : MiniPuzzle.Draws) :
  MiniPuzzle.draw_initial_state d = "|0⟩"%string ->
  let p := MiniPuzzle.setup_puzzle QUANTUM_STATE difficulty d in
  MiniPuzzle.initial_state p = "|0⟩"%string
  /\ MiniPuzzle.operations p
     = map (MiniPuzzle.draw_operations d) (seq 0 (Z.to_nat (1 + difficulty / 2)))
  /\ MiniPuzzle.answer p = MiniPuzzle.final_state "|0⟩" (MiniPuzzle.operations p)
  /\ MiniPuzzle.solution p = MiniPuzzle.VStr (MiniPuzzle.answer p)
  /\ (0 <= difficulty <= 1 ->
      MiniPuzzle.draw_operations d 0 = "X"%string ->
      MiniPuzzle.operations p = ["X"%string]
      /\ MiniPuzzle.solution p = MiniPuzzle.VStr "|1⟩")
  /\ (2 <= difficulty <= 3 ->
      MiniPuzzle.draw_operations d 0 = "X"%string ->
      MiniPuzzle.draw_operations d 1 = "X"%string ->
      MiniPuzzle.operations p = ["X"%string; "X"%string]
      /\ MiniPuzzle.solution p = MiniPuzzle.VStr "|0⟩")
  /\ (forall a : string,
        MiniPuzzle.check_solution p (MiniPuzzle.VStr a)
        = Py.Ret (String.eqb (Str.lower (Str.strip a))
                    (Str.lower (MiniPuzzle.answer p))))
  /\ (forall a b : string,
        Str.lower a = Str.lower b ->
        MiniPuzzle.check_solution p (MiniPuzzle.VStr a)
        = MiniPuzzle.check_solution p (MiniPuzzle.VStr b))
  /\ (forall a : string,
        MiniPuzzle.check_solution p (MiniPuzzle.VStr a) = Py.Ret true
        <-> Str.strip a = MiniPuzzle.answer p).
Proof.
  intros H0 p. subst p. unfold MiniPuzzle.setup_puzzle.
  cbn [MiniPuzzle.solution MiniPuzzle.operations MiniPuzzle.answer
       MiniPuzzle.initial_state].
  rewrite H0.
  set (operations := map (MiniPuzzle.draw_operations d)
                       (seq 0 (Z.to_nat (1 + difficulty / 2)))).
  repeat apply conj; try reflexivity.
  - intros Hd HX.
    assert (Z.to_nat (1 + difficulty / 2) = 1%nat) as E.
    { assert (difficulty / 2 = 0) as -> by (apply Z.div_small; lia). reflexivity. }
    subst operations. rewrite E. cbn [seq map]. rewrite HX. split; reflexivity.
  - intros Hd HX0 HX1.
    assert (Z.to_nat (1 + difficulty / 2) = 2%nat) as E.
    { assert (difficulty / 2 = 1) as ->; [| reflexivity].
      symmetry. apply (Z.div_unique difficulty 2 1 (difficulty - 2)); lia. }
    subst operations. rewrite E. cbn [seq map]. rewrite HX0, HX1. split; reflexivity.
  - intros a b Hab. unfold MiniPuzzle.check_solution.
    cbn [MiniPuzzle.type MiniPuzzle.solution].
    now rewrite !lower_strip, Hab.
  - intros a. unfold MiniPuzzle.check_solution.
    cbn [MiniPuzzle.type MiniPuzzle.solution].
    pose proof (final_state_zero operations) as Hin.
    assert (Str.lower (MiniPuzzle.final_state "|0⟩" operations)
            = MiniPuzzle.final_state "|0⟩" operations
            /\ forallb
                 (fun c =>
                    negb ((97 <=? nat_of_ascii c)%nat && (nat_of_ascii c <=? 122)%nat))
                 (list_ascii_of_string (MiniPuzzle.final_state "|0⟩" operations))
               = true) as [Hlow Hplain].
    { destruct Hin as [<- | [<- | [<- | [<- | []]]]]; split; reflexivity. }
    rewrite Hlow. split.
    + intros [= H]. apply String.eqb_eq in H.
      exact (lower_without_letters _ _ H Hplain).
    + intros ->. now rewrite Hlow, String.eqb_refl.
Qed.

Lemma quantum_state_puzzle_witness :
  (MiniPuzzle.operations (MiniPuzzle.setup_puzzle QUANTUM_STATE 1 x_draws)
   = ["X"%string]
   /\ MiniPuzzle.solution (MiniPuzzle.setup_puzzle QUANTUM_STATE 1 x_draws)
      = MiniPuzzle.VStr "|1⟩")
  /\ (MiniPuzzle.operations (MiniPuzzle.setup_puzzle QUANTUM_STATE 2 x_draws)
      = ["X"%string; "X"%string]
      /\ MiniPuzzle.solution (MiniPuzzle.setup_puzzle QUANTUM_STATE 2 x_draws)
         = MiniPuzzle.VStr "|0⟩")
  /\ MiniPuzzle.check_solution (MiniPuzzle.setup_puzzle QUANTUM_STATE 1 x_draws)
       (MiniPuzzle.VStr " |1⟩ ")
     = Py.Ret true.
Proof.
  destruct (quantum_state_puzzle 1 x_draws eq_refl) as (_ & _ & _ & _ & H1 & _ & _ & _ & H3).
  destruct (quantum_state_puzzle 2 x_draws eq_refl) as (_ & _ & _ & _ & _ & H2 & _).
  split; [| split].
  - apply H1; [lia | reflexivity].
  - apply H2; [lia | reflexivity | reflexivity].
  - apply H3. reflexivity.
Defined.

(** The white space [check_solution] strips, evaluated: blanks, a no-break
    space (C2 A0) and an ideographic space (E3 80 80) around the answer go,
    the bracket (E2 9F A9) stays. *)
Example quantum_x_evaluated :
  MiniPuzzle.solution (MiniPuzzle.setup_puzzle QUANTUM_STATE 1 x_draws)
  = MiniPuzzle.VStr "|1⟩"
  /\ MiniPuzzle.solution (MiniPuzzle.setup_puzzle QUANTUM_STATE 2 x_draws)
     = MiniPuzzle.VStr "|0⟩"
  /\ MiniPuzzle.check_solution (MiniPuzzle.setup_puzzle QUANTUM_STATE 1 x_draws)
       (MiniPuzzle.VStr " |1⟩ ") = Py.Ret true
  /\ MiniPuzzle.check_solution (MiniPuzzle.setup_puzzle QUANTUM_STATE 1 x_draws)
       (MiniPuzzle.VStr
          ("|1⟩" ++ String (ascii_of_nat 194) (String (ascii_of_nat 160) "")))
     = Py.Ret true
  /\ Str.strip
       (String (ascii_of_nat 227) (String (ascii_of_nat 128) (String (ascii_of_nat 128)
          (" |1⟩ x " ++ String (ascii_of_nat 194) (String (ascii_of_nat 133) "")))))
     = "|1⟩ x"%string
  /\ MiniPuzzle.check_solution (MiniPuzzle.setup_puzzle QUANTUM_STATE 1 x_draws)
       (MiniPuzzle.VStr "|0⟩") = Py.Ret false.
Proof. vm_compute. repeat split. Qed.

(** ** Order.generate_possible_outcomes *)

Lemma sums_to_oneb_sound (l : list float) :
  sums_to_oneb l = true -> sums_to_one l.
Proof.
  unfold sums_to_oneb, sums_to_one. destruct (exact_sum l) as [q |]; [| discriminate].
  intros H. exists q. split; [reflexivity |]. now apply Qle_bool_iff.
Qed.

Lemma records_seq_app (pre h : list Outcome) :
  Order.records (pre ++ h) (seq (length pre) (length h)) = Py.Ret h.
Proof.
  revert pre. induction h as [| o h IH]; intros pre; cbn; [reflexivity |].
  unfold Order.deref. rewrite lookup_app_r by lia.
  replace (length pre - length pre)%nat with 0%nat by lia. cbn.
  specialize (IH (pre ++ [o])). rewrite <- app_assoc in IH. cbn in IH.
  rewrite length_app in IH. cbn in IH.
  replace (length pre + 1)%nat with (S (length pre)) in IH by lia.
  now rewrite IH.
Qed.

Lemma records_seq (h : list Outcome) :
  Order.records h (seq 0 (length h)) = Py.Ret h.
Proof. exact (records_seq_app [] h). Qed.

(** Every combination of difficulty 1..5 and 2..4 outcomes, by evaluation. *)
Lemma generate_possible_outcomes_cases (impl : Py.SumImpl) (dish : DishType)
    (difficulty num_outcomes : Z) :
  1 <= difficulty <= 5 -> 2 <= num_outcomes <= 4 ->
  exists outcomes,
    Order.generate_possible_outcomes impl dish difficulty num_outcomes
    = Py.Ret outcomes
    /\ Z.of_nat (length outcomes) = num_outcomes
    /\ map probability outcomes
       = map (fun b =>
                PrimFloat.div b
                  (Py.sum impl (base_probabilities difficulty num_outcomes)))
           (base_probabilities difficulty num_outcomes)
    /\ sums_to_oneb (map probability outcomes) = true
    /\ float_sums_to_one Py.LeftToRight (map probability outcomes) = true
    /\ float_sums_to_one Py.Compensated (map probability outcomes) = true.
Proof.
  intros Hd Hn.
  assert (difficulty = 1 \/ difficulty = 2 \/ difficulty = 3 \/ difficulty = 4
          \/ difficulty = 5) as Hd' by lia.
  assert (num_outcomes = 2 \/ num_outcomes = 3 \/ num_outcomes = 4) as Hn' by lia.
  clear Hd Hn.
  destruct impl;
    destruct Hd' as [-> | [-> | [-> | [-> | ->]]]];
    destruct Hn' as [-> | [-> | ->]];
    (eexists; split; [vm_compute; reflexivity | repeat split; vm_compute; reflexivity]).
Qed.

(** C4: for every day from 0 on and every draw of 2 to 4 outcomes, the
    constructor returns an order whose outcome probabilities are the
    assigned ones divided by their total, and their sum is 1 within 1e-9:
    as an exact sum of the floats and as Python's own [sum], left to right
    or compensated. *)
Theorem generated_probabilities_sum_to_one (impl : Py.SumImpl) (day : Z)
    (d : Order.Draws) :
  0 <= day -> 2 <= Order.draw_num_outcomes d <= 4 ->
  exists o outcomes,
    Order.init impl day d = Py.Ret o
    /\ Order.records (Order.heap o) (Order.possible_outcomes o) = Py.Ret outcomes
    /\ Z.of_nat (length outcomes) = Order.draw_num_outcomes d
    /\ map probability outcomes
       = map (fun b =>
                PrimFloat.div b
                  (Py.sum impl
                     (base_probabilities (Order.difficulty o)
                        (Order.draw_num_outcomes d))))
           (base_probabilities (Order.difficulty o) (Order.draw_num_outcomes d))
    /\ sums_to_one (map probability outcomes)
    /\ (forall impl', float_sums_to_one impl' (map probability outcomes) = true).
Proof.
  intros Hday Hn.
  assert (1 <= Z.min (1 + day / 3) 5 <= 5) as Hd.
  { pose proof (Z.div_pos day 3 Hday ltac:(lia)). lia. }
  destruct (generate_possible_outcomes_cases impl (Order.draw_dish d) _ _ Hd Hn)
    as (outcomes & Hgen & Hlen & Hdiv & Hq & Hl & Hc).
  unfold Order.init. rewrite Hgen. cbn [Py.bind].
  eexists; exists outcomes. split; [reflexivity |].
  cbn [Order.heap Order.possible_outcomes Order.difficulty].
  repeat split.
  - apply records_seq.
  - exact Hlen.
  - exact Hdiv.
  - now apply sums_to_oneb_sound.
  - intros []; assumption.
Qed.

Lemma generated_probabilities_sum_to_one_witness :
  exists o outcomes,
    Order.init Py.LeftToRight 1 (burger_draws 3) = Py.Ret o
    /\ Order.records (Order.heap o) (Order.possible_outcomes o) = Py.Ret outcomes
    /\ Z.of_nat (length outcomes) = Order.draw_num_outcomes (burger_draws 3)
    /\ map probability outcomes
       = map (fun b =>
                PrimFloat.div b
                  (Py.sum Py.LeftToRight
                     (base_probabilities (Order.difficulty o)
                        (Order.draw_num_outcomes (burger_draws 3)))))
           (base_probabilities (Order.difficulty o)
              (Order.draw_num_outcomes (burger_draws 3)))
    /\ sums_to_one (map probability outcomes)
    /\ (forall impl', float_sums_to_one impl' (map probability outcomes) = true).
Proof.
  refine (generated_probabilities_sum_to_one Py.LeftToRight 1 (burger_draws 3) _ _);
    cbn; lia.
Defined.

(** ** Order.collapse_state in SUPERPOSITION *)


(** Without a positive bonus the copied list is only read: the records
    are the ones the order had. *)
Lemma collapse_state_no_bonus_heap (impl : Py.SumImpl) (o : Order.t)
    (bonus_probability rand : float) :
  PrimFloat.ltb 0%float bonus_probability = false ->
  Order.heap (fst (Order.collapse_state impl o bonus_probability rand))
  = Order.heap o.
Proof.
  intros Hb. unfold Order.collapse_state.
  destruct (negb (bool_decide (Order.state o = SUPERPOSITION))); [reflexivity |].
  rewrite Hb.
  destruct (Order.select_loop rand 0%float (Order.possible_outcomes o) (Order.heap o))
    as [[a |] | e]; reflexivity.
Qed.

(** C3, evaluated on the day-1 order with three outcomes: the call with the
    bonus 0.2 returns normally and leaves [possible_outcomes] referring to
    the same dicts, whose probabilities are now the biased, re-normalized
    ones.  The shallow copy shares the records with the order. *)
Theorem collapse_state_writes_shared_records (impl : Py.SumImpl) :
  let '(o', r) := Order.collapse_state impl burger3 0.2%float 0.5%float in
  r = Py.Ret tt
  /\ Order.possible_outcomes o' = Order.possible_outcomes burger3
  /\ (try! before := Order.records (Order.heap burger3)
                       (Order.possible_outcomes burger3) in
      Py.Ret (map probability before))
     = Py.Ret [0.30000000000000004%float; 0.4%float; 0.3%float]
  /\ (try! after := Order.records (Order.heap o') (Order.possible_outcomes o') in
      Py.Ret (map probability after))
     = Py.Ret [0.41666666666666663%float; 0.5%float; 0.083333333333333301%float]
  /\ Order.records (Order.heap o') (Order.possible_outcomes o')
     <> Order.records (Order.heap burger3) (Order.possible_outcomes burger3).
Proof.
  destruct impl; vm_compute; repeat split; discriminate.
Qed.




(** ** KuantumKitchen.prepare_order *)

Lemma first_shortage_some (resources requirements : ResourceDict) (r : ResourceType) :
  KuantumKitchen.first_shortage resources (res_items requirements) = Some r ->
  res_get resources r < res_get requirements r.
Proof.
  unfold res_items. cbn.
  repeat match goal with
         | |- context [?a <? ?b] => destruct (Z.ltb_spec a b)
         end; intros [= <-]; assumption.
Qed.

Lemma first_shortage_none (resources requirements : ResourceDict) :
  KuantumKitchen.first_shortage resources (res_items requirements) = None <->
  (forall r, res_get requirements r <= res_get resources r).
Proof.
  unfold res_items. cbn. split.
  - intros H r.
    repeat match type of H with
           | context [?a <? ?b] => destruct (Z.ltb_spec a b); try discriminate
           end.
    destruct r; cbn; lia.
  - intros H.
    pose proof (H QUANTUM_ENERGY). pose proof (H PROBABILITY_STABILIZER).
    pose proof (H TIMELINE_TOKEN). cbn in *.
    repeat match goal with
           | |- context [?a <? ?b] => destruct (Z.ltb_spec a b); try lia
           end.
    reflexivity.
Qed.

Lemma consume_items (resources requirements : ResourceDict) (r : ResourceType) :
  res_get (KuantumKitchen.consume resources (res_items requirements)) r
  = res_get resources r - res_get requirements r.
Proof. destruct r; reflexivity. Qed.

Lemma res_get_set (d : ResourceDict) (r r' : ResourceType) (v : Z) :
  res_get (res_set d r v) r' = if bool_decide (r' = r) then v else res_get d r'.
Proof. destruct r, r'; reflexivity. Qed.

(** C5: for an active order in SUPERPOSITION, [prepare_order] first checks
    every resource kind.  If some balance is below the requirement it
    returns [(False, "Not enough ...")] for such a kind and the world (the
    balances, the order, the score, both meters) is the one it was.  If
    every balance meets its requirement, then however the call ends every
    balance has lost exactly its requirement; the only other change to the
    ledger is the refund of 1 or 2 units to the drawn kind that a good
    outcome earns. *)
Theorem prepare_order_all_or_nothing (impl : Py.SumImpl) (order_idx : Z)
    (puzzle_draws : MiniPuzzle.Draws) (inputs : nat -> option MiniPuzzle.value)
    (rand : float) (refund_resource : ResourceType) (k : KuantumKitchen.t)
    (a : nat) (order : Order.t) :
  0 <= order_idx ->
  KuantumKitchen.active_orders k !! Z.to_nat order_idx = Some a ->
  KuantumKitchen.objects k !! a = Some order ->
  Order.state order = SUPERPOSITION ->
  let requirements := Order.resource_requirements order in
  let '(k', r) :=
    KuantumKitchen.prepare_order impl order_idx puzzle_draws inputs rand
      refund_resource k in
  ((exists resource,
      res_get (KuantumKitchen.resources k) resource < res_get requirements resource) ->
   k' = k
   /\ exists resource,
        res_get (KuantumKitchen.resources k) resource < res_get requirements resource
        /\ r = Py.Ret (false, ("Not enough " ++ ResourceType_value resource)%string))
  /\ ((forall resource,
         res_get requirements resource <= res_get (KuantumKitchen.resources k) resource) ->
      exists refund_amount,
        0 <= refund_amount <= 2
        /\ forall resource,
             res_get (KuantumKitchen.resources k') resource
             = res_get (KuantumKitchen.resources k) resource
               - res_get requirements resource
               + (if bool_decide (resource = refund_resource)
                  then refund_amount else 0)).
Proof.
  intros Hidx Ha Ho Hs requirements.
  unfold KuantumKitchen.prepare_order.
  assert (KuantumKitchen.valid_index order_idx (KuantumKitchen.active_orders k) = true)
    as ->.
  { apply lookup_lt_Some in Ha. unfold KuantumKitchen.valid_index.
    apply negb_true_iff, orb_false_iff. split; [apply Z.ltb_ge | apply Z.leb_gt]; lia. }
  cbn [negb]. rewrite Ha. unfold KuantumKitchen.get_order at 1. rewrite Ho.
  rewrite Hs. rewrite bool_decide_eq_true_2 by reflexivity. cbn [negb].
  fold requirements.
  destruct (KuantumKitchen.first_shortage (KuantumKitchen.resources k)
              (res_items requirements)) as [short |] eqn:Hshort.
  - split.
    + intros _. split; [reflexivity |]. exists short. split; [| reflexivity].
      now apply first_shortage_some.
    + intros Hall. apply first_shortage_some in Hshort. specialize (Hall short). lia.
  - assert (~ exists resource,
               res_get (KuantumKitchen.resources k) resource
               < res_get requirements resource) as Hno.
    { intros [res Hres]. pose proof (proj1 (first_shortage_none _ _) Hshort res). lia. }
    destruct (Order.collapse_state impl order _ rand) as [order1 [[] | e]];
      repeat case_match; simplify_eq;
      (split; [intros Hex; destruct (Hno Hex) | intros _]).
    all: first
      [ exists 0; split; [lia |]; intros res; cbn;
        destruct (bool_decide (res = refund_resource)); destruct res; cbn; lia
      | eexists;
        (split;
         [| intros res; cbn; rewrite res_get_set;
            destruct (bool_decide_reflect (res = refund_resource));
            [subst res; destruct refund_resource; cbn; reflexivity
            | destruct res; cbn; lia]]);
        lia ].
Qed.

Lemma prepare_order_all_or_nothing_witness :
  let requirements := Order.resource_requirements burger3 in
  let '(k', r) :=
    KuantumKitchen.prepare_order Py.LeftToRight 0 x_draws no_answers 0.5%float
      QUANTUM_ENERGY (kitchen_of burger3) in
  ((exists resource,
      res_get (KuantumKitchen.resources (kitchen_of burger3)) resource
      < res_get requirements resource) ->
   k' = kitchen_of burger3
   /\ exists resource,
        res_get (KuantumKitchen.resources (kitchen_of burger3)) resource
        < res_get requirements resource
        /\ r = Py.Ret (false, ("Not enough " ++ ResourceType_value resource)%string))
  /\ ((forall resource,
         res_get requirements resource
         <= res_get (KuantumKitchen.resources (kitchen_of burger3)) resource) ->
      exists refund_amount,
        0 <= refund_amount <= 2
        /\ forall resource,
             res_get (KuantumKitchen.resources k') resource
             = res_get (KuantumKitchen.resources (kitchen_of burger3)) resource
               - res_get requirements resource
               + (if bool_decide (resource = QUANTUM_ENERGY)
                  then refund_amount else 0)).
Proof.
  refine (prepare_order_all_or_nothing Py.LeftToRight 0 x_draws no_answers
            0.5%float QUANTUM_ENERGY (kitchen_of burger3) 0%nat burger3 _ _ _ _).
  - lia.
  - reflexivity.
  - reflexivity.
  - reflexivity.
Defined.

(** The run of the specification: one unit of Quantum Energy against a
    requirement of two. *)
Example prepare_order_insufficient_evaluated :
  let o := Order.mk 1234 SUPERPOSITION QUANTUM_BURGER 3 3 1 (mkResources 2 0 0) 25
             QUANTUM_STATE [0; 1]%nat None 1 (Order.heap burger2) in
  let k := KuantumKitchen.set_resources (kitchen_of o) (mkResources 1 5 2) in
  KuantumKitchen.prepare_order Py.LeftToRight 0 x_draws no_answers 0.5%float
    QUANTUM_ENERGY k
  = (k, Py.Ret (false, "Not enough Quantum Energy"%string)).
Proof. reflexivity. Qed.

(** ** The two meters *)

Lemma meter_isb_sound (x : Py.number) (n : Z) :
  meter_isb x n = true -> meter_is x n.
Proof.
  destruct x as [z | f]; cbn; intros H.
  - left. f_equal. lia.
  - right. f_equal. now apply FloatAxioms.Leibniz.eqb_spec.
Qed.

Lemma meter_is_carrier (x : Py.number) (n : Z) :
  meter_is x n -> In x (carriers n).
Proof. intros [-> | ->]; cbn; auto. Qed.

Lemma forallb_range (P : Z -> bool) (lo len n : Z) :
  forallb P (seqZ lo len) = true -> lo <= n < lo + len -> P n = true.
Proof.
  intros H Hn. rewrite forallb_forall in H. apply H.
  apply list_elem_of_In, elem_of_seqZ. lia.
Qed.

Lemma lose_table :
  forallb (fun n =>
    forallb (fun c =>
      forallb (fun x => meter_isb (lose x c) (Z.max 0 (n - c))) (carriers n))
      (seqZ 0 16))
    (seqZ 0 101) = true.
Proof. vm_compute. reflexivity. Qed.

Lemma lose_meter (x : Py.number) (n c : Z) :
  0 <= n <= 100 -> 0 <= c <= 15 -> meter_is x n ->
  meter_is (lose x c) (Z.max 0 (n - c)).
Proof.
  intros Hn Hc Hx. apply meter_isb_sound.
  pose proof (forallb_range _ 0 101 n lose_table ltac:(lia)) as H1. cbn beta in H1.
  pose proof (forallb_range _ 0 16 c H1 ltac:(lia)) as H2. cbn beta in H2.
  rewrite forallb_forall in H2. apply H2. now apply meter_is_carrier.
Qed.

Lemma shift_table :
  forallb (fun n =>
    forallb (fun s =>
      match Py.int_truediv (s - 50) 10 with
      | Py.Ret delta =>
          forallb (fun x =>
            meter_isb (shift_satisfaction x delta)
              (Z.min 100 (Z.max 0 (n + (s - 50) / 10)))) (carriers n)
      | Py.Raise _ => false
      end) generated_scores)
    (seqZ 0 101) = true.
Proof. vm_compute. reflexivity. Qed.

Lemma stability_table :
  forallb (fun n =>
    forallb (fun s =>
      match Py.int_truediv (50 - s) 10 with
      | Py.Ret loss =>
          forallb (fun x =>
            meter_isb (lose_stability x loss)
              (Z.max 0 (n - (50 - s) / 10))) (carriers n)
      | Py.Raise _ => false
      end) generated_scores)
    (seqZ 0 101) = true.
Proof. vm_compute. reflexivity. Qed.

Lemma regenerate_table :
  forallb (fun n =>
    forallb (fun m =>
      forallb (fun cs =>
        match Py.floordiv cs 20 with
        | Py.Ret q =>
            forallb (fun rs =>
              meter_isb (regenerate rs q) (Z.min 100 (m + (5 + n / 20))))
              (carriers m)
        | Py.Raise _ => false
        end) (carriers n))
      (seqZ 0 101))
    (seqZ 0 101) = true.
Proof. vm_compute. reflexivity. Qed.

Lemma shift_meter (x : Py.number) (n s : Z) (delta : float) :
  0 <= n <= 100 -> In s generated_scores -> meter_is x n ->
  Py.int_truediv (s - 50) 10 = Py.Ret delta ->
  meter_is (shift_satisfaction x delta) (Z.min 100 (Z.max 0 (n + (s - 50) / 10))).
Proof.
  intros Hn Hs Hx Hd. apply meter_isb_sound.
  pose proof (forallb_range _ 0 101 n shift_table ltac:(lia)) as H1. cbn beta in H1.
  rewrite forallb_forall in H1. specialize (H1 s Hs). rewrite Hd in H1.
  rewrite forallb_forall in H1. apply H1. now apply meter_is_carrier.
Qed.

Lemma stability_meter (x : Py.number) (n s : Z) (loss : float) :
  0 <= n <= 100 -> In s generated_scores -> meter_is x n ->
  Py.int_truediv (50 - s) 10 = Py.Ret loss ->
  meter_is (lose_stability x loss) (Z.max 0 (n - (50 - s) / 10)).
Proof.
  intros Hn Hs Hx Hd. apply meter_isb_sound.
  pose proof (forallb_range _ 0 101 n stability_table ltac:(lia)) as H1. cbn beta in H1.
  rewrite forallb_forall in H1. specialize (H1 s Hs). rewrite Hd in H1.
  rewrite forallb_forall in H1. apply H1. now apply meter_is_carrier.
Qed.

Lemma regenerate_meter (cs rs : Py.number) (n m : Z) :
  0 <= n <= 100 -> 0 <= m <= 100 -> meter_is cs n -> meter_is rs m ->
  exists q, Py.floordiv cs 20 = Py.Ret q
            /\ meter_is (regenerate rs q) (Z.min 100 (m + (5 + n / 20))).
Proof.
  intros Hn Hm Hcs Hrs.
  pose proof (forallb_range _ 0 101 n regenerate_table ltac:(lia)) as H1. cbn beta in H1.
  pose proof (forallb_range _ 0 101 m H1 ltac:(lia)) as H2. cbn beta in H2.
  rewrite forallb_forall in H2. specialize (H2 cs (meter_is_carrier _ _ Hcs)).
  destruct (Py.floordiv cs 20) as [q | e]; [| discriminate].
  exists q. split; [reflexivity |]. apply meter_isb_sound.
  rewrite forallb_forall in H2. apply H2. now apply meter_is_carrier.
Qed.

Lemma collapse_state_returns_collapsed (impl : Py.SumImpl) (o o' : Order.t)
    (bonus_probability rand : float) :
  Order.state o = SUPERPOSITION ->
  Order.collapse_state impl o bonus_probability rand = (o', Py.Ret tt) ->
  Order.state o' = COLLAPSED.
Proof.
  intros Hs. unfold Order.collapse_state. rewrite Hs.
  rewrite bool_decide_eq_true_2 by reflexivity. cbn [negb].
  intros H. repeat case_match; simplify_eq; reflexivity.
Qed.

(** C10: a [prepare_order] call that succeeds has collapsed the order and
    moved customer satisfaction by the true quotient
    [(satisfaction - 50) / 10] of the outcome it collapsed to, clamped to
    [0, 100]: [min(100, max(0, cs + delta))].  The quotient is 5.0 for a
    Perfect outcome (score 100) and -3.0 for a Poor one (score 20); on a
    meter holding the integer [n] and a generated score the result holds
    the integer [min(100, max(0, n + (score - 50) / 10))]. *)
Theorem prepare_order_shifts_satisfaction (impl : Py.SumImpl) (order_idx : Z)
    (puzzle_draws : MiniPuzzle.Draws) (inputs : nat -> option MiniPuzzle.value)
    (rand : float) (refund_resource : ResourceType) (k k' : KuantumKitchen.t)
    (message : string) :
  KuantumKitchen.prepare_order impl order_idx puzzle_draws inputs rand
    refund_resource k = (k', Py.Ret (true, message)) ->
  exists a order' ref outcome satisfaction_delta,
    KuantumKitchen.active_orders k !! Z.to_nat order_idx = Some a
    /\ KuantumKitchen.objects k' !! a = Some order'
    /\ Order.state order' = COLLAPSED
    /\ Order.actual_outcome order' = Some ref
    /\ Order.heap order' !! ref = Some outcome
    /\ Py.int_truediv (satisfaction outcome - 50) 10 = Py.Ret satisfaction_delta
    /\ KuantumKitchen.customer_satisfaction k'
       = Py.min (Py.Int 100)
           (Py.max (Py.Int 0)
              (Py.add (KuantumKitchen.customer_satisfaction k)
                 (Py.Float satisfaction_delta)))
    /\ (forall n,
          0 <= n <= 100 ->
          meter_is (KuantumKitchen.customer_satisfaction k) n ->
          In (satisfaction outcome) generated_scores ->
          meter_is (KuantumKitchen.customer_satisfaction k')
            (Z.min 100 (Z.max 0 (n + (satisfaction outcome - 50) / 10))))
    /\ (satisfaction outcome = 100 -> satisfaction_delta = 5%float)
    /\ (satisfaction outcome = 20 -> satisfaction_delta = (-3)%float).
Proof.
  unfold KuantumKitchen.prepare_order. intros H.
  destruct (negb (KuantumKitchen.valid_index order_idx (KuantumKitchen.active_orders k)));
    [discriminate |].
  destruct (KuantumKitchen.active_orders k !! Z.to_nat order_idx) as [a |] eqn:Ha;
    [| discriminate].
  unfold KuantumKitchen.get_order in H.
  destruct (KuantumKitchen.objects k !! a) as [order |] eqn:Ho; [| discriminate].
  destruct (bool_decide_reflect (Order.state order = SUPERPOSITION)) as [Hs | Hs];
    cbn [negb] in H; [| discriminate].
  destruct (KuantumKitchen.first_shortage _ _); [discriminate |].
  destruct (Order.collapse_state impl order _ rand) as [order1 [[] | e]] eqn:Hc;
    [| discriminate].
  apply collapse_state_returns_collapsed in Hc; [| exact Hs].
  destruct (Order.actual_outcome order1) as [ref |] eqn:Hact; [| discriminate].
  unfold Order.deref in H.
  destruct (Order.heap order1 !! ref) as [outcome |] eqn:Hout; [| discriminate].
  destruct (Py.int_truediv (satisfaction outcome - 50) 10) as [delta | e] eqn:Hdelta;
    [| discriminate].
  exists a, order1, ref, outcome, delta.
  assert (KuantumKitchen.objects k' !! a = Some order1
          /\ KuantumKitchen.customer_satisfaction k'
             = shift_satisfaction (KuantumKitchen.customer_satisfaction k) delta)
    as [Hobj Hcs].
  { apply lookup_lt_Some in Ho.
    repeat case_match; simplify_eq; cbn;
      (split; [now apply list_lookup_insert_eq | reflexivity]). }
  repeat split; try assumption.
  - intros n Hn Hm Hin. rewrite Hcs. now apply (shift_meter _ n (satisfaction outcome)).
  - intros E. rewrite E in Hdelta. vm_compute in Hdelta. congruence.
  - intros E. rewrite E in Hdelta. vm_compute in Hdelta. congruence.
Qed.

Lemma prepare_order_shifts_satisfaction_witness :
  exists a order' ref outcome satisfaction_delta,
    KuantumKitchen.active_orders (kitchen_of burger3) !! Z.to_nat 0 = Some a
    /\ KuantumKitchen.objects prepared_kitchen !! a = Some order'
    /\ Order.state order' = COLLAPSED
    /\ Order.actual_outcome order' = Some ref
    /\ Order.heap order' !! ref = Some outcome
    /\ Py.int_truediv (satisfaction outcome - 50) 10 = Py.Ret satisfaction_delta
    /\ KuantumKitchen.customer_satisfaction prepared_kitchen
       = Py.min (Py.Int 100)
           (Py.max (Py.Int 0)
              (Py.add (KuantumKitchen.customer_satisfaction (kitchen_of burger3))
                 (Py.Float satisfaction_delta)))
    /\ (forall n,
          0 <= n <= 100 ->
          meter_is (KuantumKitchen.customer_satisfaction (kitchen_of burger3)) n ->
          In (satisfaction outcome) generated_scores ->
          meter_is (KuantumKitchen.customer_satisfaction prepared_kitchen)
            (Z.min 100 (Z.max 0 (n + (satisfaction outcome - 50) / 10))))
    /\ (satisfaction outcome = 100 -> satisfaction_delta = 5%float)
    /\ (satisfaction outcome = 20 -> satisfaction_delta = (-3)%float).
Proof.
  refine (prepare_order_shifts_satisfaction Py.LeftToRight 0 x_draws no_answers
            0.5%float QUANTUM_ENERGY (kitchen_of burger3) prepared_kitchen
            "Prepared order #1234 (Good Quantum Burger). Earned 15 points. Gained 1 Quantum Energy!"
            _).
  vm_compute. reflexivity.
Defined.

(** ** The meters under each operation *)

Lemma clamped_lose (x : Py.number) (c : Z) :
  0 <= c <= 15 -> clamped x -> clamped (lose x c).
Proof.
  intros Hc (n & Hn & Hx). exists (Z.max 0 (n - c)). split; [lia |].
  now apply lose_meter.
Qed.

Lemma satisfaction_bias_loop (bonus : float) (count : Z) (refs : list nat)
    (h : list Outcome) :
  map satisfaction (fst (Order.bias_loop bonus count refs h)) = map satisfaction h.
Proof.
  revert h. induction refs as [| a refs IH]; intros h; cbn; [reflexivity |].
  unfold Order.deref. destruct (h !! a) as [o |] eqn:Ha; [| reflexivity].
  assert (forall p, map satisfaction (<[a := set_probability o p]> h) = map satisfaction h)
    as Hins.
  { intros p. rewrite list_fmap_insert. apply list_insert_id.
    rewrite list_lookup_fmap, Ha. reflexivity. }
  destruct (80 <=? satisfaction o).
  - rewrite IH. apply Hins.
  - destruct (Py.float_truediv _ _); [| reflexivity]. rewrite IH. apply Hins.
Qed.

Lemma satisfaction_renormalize_loop (total : float) (refs : list nat)
    (h : list Outcome) :
  map satisfaction (fst (Order.renormalize_loop total refs h)) = map satisfaction h.
Proof.
  revert h. induction refs as [| a refs IH]; intros h; cbn; [reflexivity |].
  unfold Order.deref. destruct (h !! a) as [o |] eqn:Ha; [| reflexivity].
  destruct (Py.float_truediv _ _); [| reflexivity]. rewrite IH.
  rewrite list_fmap_insert. apply list_insert_id.
  rewrite list_lookup_fmap, Ha. reflexivity.
Qed.

Lemma satisfaction_collapse_state (impl : Py.SumImpl) (o : Order.t)
    (bonus rand : float) :
  map satisfaction (Order.heap (fst (Order.collapse_state impl o bonus rand)))
  = map satisfaction (Order.heap o).
Proof.
  unfold Order.collapse_state.
  destruct (negb (bool_decide (Order.state o = SUPERPOSITION))); [reflexivity |].
  destruct (PrimFloat.ltb 0 bonus).
  - pose proof (satisfaction_bias_loop bonus
                  (Z.of_nat (length (Order.possible_outcomes o)))
                  (Order.possible_outcomes o) (Order.heap o)) as Hb.
    destruct (Order.bias_loop _ _ _ _) as [h1 [[] | e]]; cbn in Hb; [| exact Hb].
    destruct (Order.records h1 (Order.possible_outcomes o)) as [os | e]; cbn.
    + pose proof (satisfaction_renormalize_loop (Py.sum impl (map probability os))
                    (Order.possible_outcomes o) h1) as Hr.
      destruct (Order.renormalize_loop _ _ _) as [h2 [[] | e]]; cbn in Hr |- *.
      * destruct (Order.select_loop _ _ _ _) as [[a |] | e]; cbn; congruence.
      * congruence.
    + exact Hb.
  - destruct (Order.select_loop _ _ _ _) as [[a |] | e]; reflexivity.
Qed.

Lemma scored_map (h h' : list Outcome) :
  map satisfaction h' = map satisfaction h ->
  Forall (fun oc => In (satisfaction oc) generated_scores) h ->
  Forall (fun oc => In (satisfaction oc) generated_scores) h'.
Proof.
  intros Hm H.
  rewrite Forall_forall in H |- *. intros oc Hoc.
  assert (In (satisfaction oc) (map satisfaction h')) as Hin.
  { apply in_map. now apply list_elem_of_In. }
  rewrite Hm in Hin. apply in_map_iff in Hin as (oc' & <- & Hin').
  apply H. now apply list_elem_of_In.
Qed.

Lemma clamped_shift (x : Py.number) (s : Z) (delta : float) :
  In s generated_scores -> clamped x ->
  Py.int_truediv (s - 50) 10 = Py.Ret delta ->
  clamped (shift_satisfaction x delta).
Proof.
  intros Hs (n & Hn & Hx) Hd.
  exists (Z.min 100 (Z.max 0 (n + (s - 50) / 10))). split; [lia |].
  now apply shift_meter.
Qed.

Lemma clamped_lose_stability (x : Py.number) (s : Z) (loss : float) :
  In s generated_scores -> s < 50 -> clamped x ->
  Py.int_truediv (50 - s) 10 = Py.Ret loss ->
  clamped (lose_stability x loss).
Proof.
  intros Hs Hlt (n & Hn & Hx) Hd.
  exists (Z.max 0 (n - (50 - s) / 10)). split.
  - assert (0 <= (50 - s) / 10) by (apply Z.div_pos; lia). lia.
  - now apply stability_meter.
Qed.

Lemma clamped_regenerate (cs rs : Py.number) :
  clamped cs -> clamped rs ->
  exists q, Py.floordiv cs 20 = Py.Ret q /\ clamped (regenerate rs q).
Proof.
  intros (n & Hn & Hcs) (m & Hm & Hrs).
  destruct (regenerate_meter cs rs n m Hn Hm Hcs Hrs) as (q & Hq & Hr).
  exists q. split; [exact Hq |].
  exists (Z.min 100 (m + (5 + n / 20))). split; [| exact Hr].
  assert (0 <= n / 20) by (apply Z.div_pos; lia). lia.
Qed.

Lemma meters_generate_loop (impl : Py.SumImpl) (draws : nat -> Order.Draws)
    (i n : nat) (k : KuantumKitchen.t) :
  let k' := fst (KuantumKitchen.generate_loop impl draws i n k) in
  KuantumKitchen.customer_satisfaction k' = KuantumKitchen.customer_satisfaction k
  /\ KuantumKitchen.reality_stability k' = KuantumKitchen.reality_stability k.
Proof.
  revert i k. induction n as [| n IH]; intros i k; cbn; [split; reflexivity |].
  destruct (Order.init impl (KuantumKitchen.day k) (draws i)); [| split; reflexivity].
  destruct (IH (S i)
              (KuantumKitchen.set_available_orders
                 (KuantumKitchen.set_objects k (KuantumKitchen.objects k ++ [a]))
                 (KuantumKitchen.available_orders k ++ [length (KuantumKitchen.objects k)])))
    as [H1 H2].
  cbn in H1, H2 |- *. split; assumption.
Qed.

Lemma meters_tick_loop (orders expired : list nat) (k : KuantumKitchen.t) :
  let k' := fst (KuantumKitchen.tick_loop orders expired k) in
  KuantumKitchen.customer_satisfaction k' = KuantumKitchen.customer_satisfaction k
  /\ KuantumKitchen.reality_stability k' = KuantumKitchen.reality_stability k.
Proof.
  revert expired k. induction orders as [| a orders IH]; intros expired k; cbn;
    [split; reflexivity |].
  destruct (KuantumKitchen.get_order k a) as [order | e]; [| split; reflexivity].
  destruct (bool_decide (Order.state order = SUPERPOSITION)); [| apply IH].
  destruct (Order.update_time order) as [order1 b].
  destruct (IH (if b then expired ++ [a] else expired)
              (KuantumKitchen.put_order k a order1)) as [H1 H2].
  split; assumption.
Qed.

Lemma meters_expire_loop (expired : list nat) (k : KuantumKitchen.t) :
  meters_clamped k -> meters_clamped (fst (KuantumKitchen.expire_loop expired k)).
Proof.
  revert k. induction expired as [| a expired IH]; intros k Hk; cbn; [exact Hk |].
  destruct (KuantumKitchen.remove_first a (KuantumKitchen.active_orders k));
    [| exact Hk].
  apply IH. destruct Hk as [Hc Hr]. split; cbn.
  - apply (clamped_lose _ 5); [lia | exact Hc].
  - apply (clamped_lose _ 5); [lia | exact Hr].
Qed.

Lemma meters_shift_loop (draws : nat -> Z) (i : nat) (all_orders : list nat)
    (k : KuantumKitchen.t) :
  let k' := fst (KuantumKitchen.shift_loop draws i all_orders k) in
  KuantumKitchen.customer_satisfaction k' = KuantumKitchen.customer_satisfaction k
  /\ KuantumKitchen.reality_stability k' = KuantumKitchen.reality_stability k.
Proof.
  revert i k. induction all_orders as [| a l IH]; intros i k; cbn;
    [split; reflexivity |].
  destruct (KuantumKitchen.get_order k a) as [order | e]; [| split; reflexivity].
  match goal with
  | |- context [KuantumKitchen.shift_loop draws (S i) l ?k1] =>
      destruct (IH (S i) k1) as [H1 H2]
  end.
  split; assumption.
Qed.

Lemma meters_trigger_special_event (d : KuantumKitchen.EventDraws)
    (k : KuantumKitchen.t) :
  5 <= KuantumKitchen.draw_stability_loss d <= 15 ->
  meters_clamped k ->
  meters_clamped (fst (KuantumKitchen.trigger_special_event d k)).
Proof.
  intros Hd [Hc Hr]. unfold KuantumKitchen.trigger_special_event.
  destruct (KuantumKitchen.draw_event d).
  - split; assumption.
  - match goal with
    | |- context [KuantumKitchen.shift_loop ?f ?i ?l ?k1] =>
        destruct (meters_shift_loop f i l k1) as [H1 H2]
    end.
    split; [rewrite H1 | rewrite H2]; assumption.
  - cbn [KuantumKitchen.active_orders KuantumKitchen.set_special_events].
    repeat case_match; split; assumption.
  - split; [exact Hc |]. cbn. apply clamped_lose; [lia | exact Hr].
Qed.

Lemma meters_end_day (k : KuantumKitchen.t) :
  meters_clamped k -> meters_clamped (KuantumKitchen.end_day k).
Proof.
  intros [Hc Hr]. unfold KuantumKitchen.end_day. split; [| exact Hr]. cbn.
  revert Hc. generalize (KuantumKitchen.customer_satisfaction k).
  induction (KuantumKitchen.active_orders k) as [| a l IH]; intros cs Hc; cbn;
    [exact Hc |].
  apply IH. apply (clamped_lose _ 3); [lia | exact Hc].
Qed.

Lemma meters_advance_day (rand : float) (d : KuantumKitchen.EventDraws)
    (k : KuantumKitchen.t) :
  5 <= KuantumKitchen.draw_stability_loss d <= 15 ->
  meters_clamped k ->
  meters_clamped (fst (KuantumKitchen.advance_day rand d k)).
Proof.
  intros Hd Hk. unfold KuantumKitchen.advance_day.
  assert (meters_clamped
            (fst (if PrimFloat.ltb rand 0.3
                  then KuantumKitchen.trigger_special_event d k
                  else (k, Py.Ret tt)))) as Hk1.
  { destruct (PrimFloat.ltb rand 0.3); [now apply meters_trigger_special_event | exact Hk]. }
  destruct (if PrimFloat.ltb rand 0.3
            then KuantumKitchen.trigger_special_event d k
            else (k, Py.Ret tt)) as [k1 [[] | e]]; cbn in Hk1; [| exact Hk1].
  destruct Hk1 as [Hc Hr].
  destruct (clamped_regenerate _ _ Hc Hr) as (q & Hq & Hreg).
  cbn [KuantumKitchen.customer_satisfaction KuantumKitchen.set_resources].
  rewrite Hq. split; [exact Hc | exact Hreg].
Qed.

Lemma scores_lookup (k : KuantumKitchen.t) (a : nat) (o : Order.t) :
  scores_generated k -> KuantumKitchen.objects k !! a = Some o ->
  Forall (fun oc => In (satisfaction oc) generated_scores) (Order.heap o).
Proof.
  intros H Ha. unfold scores_generated in H. rewrite Forall_forall in H.
  apply H. eapply list_elem_of_lookup_2. exact Ha.
Qed.

Lemma meters_prepare_order (impl : Py.SumImpl) (order_idx : Z)
    (puzzle_draws : MiniPuzzle.Draws) (inputs : nat -> option MiniPuzzle.value)
    (rand : float) (refund_resource : ResourceType) (k : KuantumKitchen.t) :
  scores_generated k -> meters_clamped k ->
  meters_clamped
    (fst (KuantumKitchen.prepare_order impl order_idx puzzle_draws inputs rand
            refund_resource k)).
Proof.
  intros Hsc Hk. pose proof Hk as [Hc Hr]. unfold KuantumKitchen.prepare_order.
  destruct (negb (KuantumKitchen.valid_index order_idx (KuantumKitchen.active_orders k)));
    [exact Hk |].
  destruct (KuantumKitchen.active_orders k !! Z.to_nat order_idx) as [a |];
    [| exact Hk].
  unfold KuantumKitchen.get_order.
  destruct (KuantumKitchen.objects k !! a) as [order |] eqn:Ho; [| exact Hk].
  destruct (negb (bool_decide (Order.state order = SUPERPOSITION))); [exact Hk |].
  destruct (KuantumKitchen.first_shortage _ _); [exact Hk |].
  pose proof (satisfaction_collapse_state impl order
                (if KuantumKitchen.solve_puzzle
                      (MiniPuzzle.setup_puzzle (Order.puzzle order)
                         (Order.difficulty order) puzzle_draws) inputs
                 then 0.2%float else 0%float) rand) as Hsat.
  destruct (Order.collapse_state impl order _ rand) as [order1 [[] | e]];
    cbn [fst] in Hsat; [| exact Hk].
  destruct (Order.actual_outcome order1) as [ref |]; [| exact Hk].
  unfold Order.deref.
  destruct (Order.heap order1 !! ref) as [outcome |] eqn:Hout; [| exact Hk].
  assert (In (satisfaction outcome) generated_scores) as Hin.
  { pose proof (scored_map _ _ Hsat (scores_lookup _ _ _ Hsc Ho)) as Hall.
    rewrite Forall_forall in Hall. apply Hall.
    eapply list_elem_of_lookup_2. exact Hout. }
  destruct (Py.int_truediv (satisfaction outcome - 50) 10) as [delta | e] eqn:Hdelta;
    [| exact Hk].
  pose proof (clamped_shift _ _ _ Hin Hc Hdelta) as Hc'.
  destruct (Py.int_of_float _) as [final_reward | e]; [| split; [exact Hc' | exact Hr]].
  destruct (Z.ltb_spec (satisfaction outcome) 50) as [Hlt | Hge].
  - destruct (Py.int_truediv (50 - satisfaction outcome) 10) as [loss | e] eqn:Hloss;
      [| split; [exact Hc' | exact Hr]].
    pose proof (clamped_lose_stability _ _ _ Hin Hlt Hr Hloss) as Hr'.
    destruct (80 <=? satisfaction outcome); split; assumption.
  - destruct (80 <=? satisfaction outcome); split; assumption.
Qed.

Lemma meters_accept_order (order_idx : Z) (k : KuantumKitchen.t) :
  meters_clamped k -> meters_clamped (fst (KuantumKitchen.accept_order order_idx k)).
Proof.
  intros Hk. unfold KuantumKitchen.accept_order.
  repeat case_match; exact Hk.
Qed.

Lemma meters_reject_order (order_idx : Z) (k : KuantumKitchen.t) :
  meters_clamped k -> meters_clamped (fst (KuantumKitchen.reject_order order_idx k)).
Proof.
  intros [Hc Hr]. unfold KuantumKitchen.reject_order.
  case_match; [split; assumption |]. split; [| exact Hr]. cbn.
  apply (clamped_lose _ 2); [lia | exact Hc].
Qed.

Lemma meters_deliver_order (order_idx : Z) (choices : nat -> ResourceType)
    (k : KuantumKitchen.t) :
  meters_clamped k ->
  meters_clamped (fst (KuantumKitchen.deliver_order order_idx choices k)).
Proof.
  intros [Hc Hr]. unfold KuantumKitchen.deliver_order.
  repeat case_match; split; assumption.
Qed.

Lemma meters_update_time (k : KuantumKitchen.t) :
  meters_clamped k -> meters_clamped (fst (KuantumKitchen.update_time k)).
Proof.
  intros [Hc Hr]. unfold KuantumKitchen.update_time.
  destruct (meters_tick_loop (KuantumKitchen.active_orders k) [] k) as [H1 H2].
  destruct (KuantumKitchen.tick_loop _ _ _) as [k1 [expired | e]]; cbn in H1, H2.
  - assert (meters_clamped k1) as Hk1 by (split; [rewrite H1 | rewrite H2]; assumption).
    pose proof (meters_expire_loop expired k1 Hk1) as Hk2.
    destruct (KuantumKitchen.expire_loop expired k1) as [k2 [[] | e]]; exact Hk2.
  - split; cbn; [rewrite H1 | rewrite H2]; assumption.
Qed.

Lemma meters_generate_orders (impl : Py.SumImpl) (draws : nat -> Order.Draws)
    (k : KuantumKitchen.t) :
  meters_clamped k ->
  meters_clamped (fst (KuantumKitchen.generate_orders impl draws k)).
Proof.
  intros [Hc Hr]. unfold KuantumKitchen.generate_orders.
  match goal with
  | |- context [KuantumKitchen.generate_loop impl draws ?i ?n ?k1] =>
      destruct (meters_generate_loop impl draws i n k1) as [H1 H2]
  end.
  split; [rewrite H1 | rewrite H2]; assumption.
Qed.

(** C8: every operation on the world state (generating, accepting,
    rejecting, preparing, delivering, the time update with its expiries,
    the day advance with its regeneration, every special event, the forced
    end of day) leaves customer satisfaction and reality stability integers
    between 0 and 100, when they were so before, the Reality Distortion
    draw is in its range 5..15 and the outcome records carry the generated
    scores.  After a preparation the integer may be carried by a float. *)
Theorem meters_stay_clamped (impl : Py.SumImpl) (op : Operation)
    (k : KuantumKitchen.t) :
  draws_in_range op -> scores_generated k -> meters_clamped k ->
  meters_clamped (run impl op k).
Proof.
  intros Hd Hs Hk. destruct op; cbn [run draws_in_range] in *.
  - now apply meters_generate_orders.
  - now apply meters_accept_order.
  - now apply meters_reject_order.
  - now apply meters_prepare_order.
  - now apply meters_deliver_order.
  - now apply meters_update_time.
  - now apply meters_advance_day.
  - now apply meters_trigger_special_event.
  - now apply meters_end_day.
Qed.

Lemma scores_put_order (k : KuantumKitchen.t) (a : nat) (o o' : Order.t) :
  scores_generated k -> KuantumKitchen.objects k !! a = Some o ->
  map satisfaction (Order.heap o') = map satisfaction (Order.heap o) ->
  scores_generated (KuantumKitchen.put_order k a o').
Proof.
  intros Hk Ha Hm. unfold scores_generated, KuantumKitchen.put_order. cbn.
  apply Forall_insert; [exact Hk |].
  exact (scored_map _ _ Hm (scores_lookup _ _ _ Hk Ha)).
Qed.

Lemma satisfaction_normalize (total : float) (l l' : list Outcome) :
  Order.normalize total l = Py.Ret l' -> map satisfaction l' = map satisfaction l.
Proof.
  revert l'. induction l as [| o l IH]; intros l'; cbn.
  - intros [= <-]. reflexivity.
  - destruct (Py.float_truediv _ _); [| discriminate]. cbn.
    destruct (Order.normalize total l) as [r |]; [| discriminate]. cbn.
    intros [= <-]. cbn. f_equal. now apply IH.
Qed.

Lemma scores_init (impl : Py.SumImpl) (day : Z) (d : Order.Draws) (o : Order.t) :
  Order.init impl day d = Py.Ret o ->
  Forall (fun oc => In (satisfaction oc) generated_scores) (Order.heap o).
Proof.
  unfold Order.init.
  destruct (Order.generate_possible_outcomes impl _ _ _) as [outcomes |] eqn:Hg;
    [| discriminate].
  cbn. intros [= <-]. cbn.
  unfold Order.generate_possible_outcomes in Hg.
  apply satisfaction_normalize in Hg.
  eapply scored_map; [exact Hg |].
  destruct (2 <? Order.draw_num_outcomes d), (3 <? Order.draw_num_outcomes d);
    cbn; repeat (apply List.Forall_cons; [cbn; lia |]); apply List.Forall_nil.
Qed.

Lemma scores_generate_loop (impl : Py.SumImpl) (draws : nat -> Order.Draws)
    (i n : nat) (k : KuantumKitchen.t) :
  scores_generated k ->
  scores_generated (fst (KuantumKitchen.generate_loop impl draws i n k)).
Proof.
  revert i k. induction n as [| n IH]; intros i k Hk; cbn; [exact Hk |].
  destruct (Order.init impl (KuantumKitchen.day k) (draws i)) as [o |] eqn:Ho;
    [| exact Hk].
  apply IH. unfold scores_generated. cbn. apply Forall_app. split; [exact Hk |].
  constructor; [| constructor]. now apply scores_init in Ho.
Qed.

Lemma scores_tick_loop (orders expired : list nat) (k : KuantumKitchen.t) :
  scores_generated k ->
  scores_generated (fst (KuantumKitchen.tick_loop orders expired k)).
Proof.
  revert expired k. induction orders as [| a orders IH]; intros expired k Hk; cbn;
    [exact Hk |].
  unfold KuantumKitchen.get_order.
  destruct (KuantumKitchen.objects k !! a) as [order |] eqn:Ho; [| exact Hk].
  destruct (bool_decide (Order.state order = SUPERPOSITION)); [| now apply IH].
  destruct (Order.update_time order) as [order1 b] eqn:Hu.
  apply IH. apply (scores_put_order k a order order1 Hk Ho).
  unfold Order.update_time in Hu. destruct (_ && _); injection Hu as <- _; reflexivity.
Qed.

Lemma objects_expire_loop (expired : list nat) (k : KuantumKitchen.t) :
  KuantumKitchen.objects (fst (KuantumKitchen.expire_loop expired k))
  = KuantumKitchen.objects k.
Proof.
  revert k. induction expired as [| a expired IH]; intros k; cbn; [reflexivity |].
  destruct (KuantumKitchen.remove_first a (KuantumKitchen.active_orders k));
    [| reflexivity].
  rewrite IH. reflexivity.
Qed.

Lemma scores_shift_loop (draws : nat -> Z) (i : nat) (all_orders : list nat)
    (k : KuantumKitchen.t) :
  scores_generated k ->
  scores_generated (fst (KuantumKitchen.shift_loop draws i all_orders k)).
Proof.
  revert i k. induction all_orders as [| a l IH]; intros i k Hk; cbn; [exact Hk |].
  unfold KuantumKitchen.get_order.
  destruct (KuantumKitchen.objects k !! a) as [order |] eqn:Ho; [| exact Hk].
  apply IH.
  exact (scores_put_order k a order (Order.set_timeline order (draws i)) Hk Ho eq_refl).
Qed.

Lemma scores_trigger_special_event (d : KuantumKitchen.EventDraws)
    (k : KuantumKitchen.t) :
  scores_generated k ->
  scores_generated (fst (KuantumKitchen.trigger_special_event d k)).
Proof.
  intros Hk. unfold KuantumKitchen.trigger_special_event.
  destruct (KuantumKitchen.draw_event d).
  - exact Hk.
  - now apply scores_shift_loop.
  - set (k1 := KuantumKitchen.set_special_events k _).
    assert (scores_generated k1) as Hk1 by exact Hk. clearbody k1.
    destruct (KuantumKitchen.active_orders k1) as [| a0 l]; [exact Hk1 |].
    destruct ((a0 :: l) !! _) as [a |]; [| exact Hk1].
    unfold KuantumKitchen.get_order.
    destruct (KuantumKitchen.objects k1 !! a) as [order |] eqn:Ho; [| exact Hk1].
    destruct (bool_decide (Order.state order = SUPERPOSITION)); [| exact Hk1].
    cbn [fst]. now apply (scores_put_order k1 a order).
  - exact Hk.
Qed.

(** The generated scores are an invariant: no operation writes a
    satisfaction score. *)
Theorem scores_stay_generated (impl : Py.SumImpl) (op : Operation)
    (k : KuantumKitchen.t) :
  scores_generated k -> scores_generated (run impl op k).
Proof.
  intros Hk. destruct op; cbn [run].
  - unfold KuantumKitchen.generate_orders. now apply scores_generate_loop.
  - unfold KuantumKitchen.accept_order. repeat case_match; exact Hk.
  - unfold KuantumKitchen.reject_order. case_match; exact Hk.
  - unfold KuantumKitchen.prepare_order.
    destruct (negb (KuantumKitchen.valid_index _ _)); [exact Hk |].
    destruct (KuantumKitchen.active_orders k !! Z.to_nat order_idx) as [a |];
      [| exact Hk].
    unfold KuantumKitchen.get_order.
    destruct (KuantumKitchen.objects k !! a) as [order |] eqn:Ho; [| exact Hk].
    destruct (negb (bool_decide (Order.state order = SUPERPOSITION))); [exact Hk |].
    destruct (KuantumKitchen.first_shortage _ _); [exact Hk |].
    match goal with
    | |- context [Order.collapse_state impl order ?b rand] =>
        pose proof (satisfaction_collapse_state impl order b rand) as Hsat;
        destruct (Order.collapse_state impl order b rand) as [order1 r]
    end.
    cbn [fst] in Hsat.
    pose proof (scores_put_order k a order order1 Hk Ho Hsat) as Hk1.
    repeat case_match; simplify_eq; exact Hk1.
  - unfold KuantumKitchen.deliver_order.
    destruct (negb (KuantumKitchen.valid_index _ _)); [exact Hk |].
    destruct (KuantumKitchen.active_orders k !! Z.to_nat order_idx) as [a |];
      [| exact Hk].
    unfold KuantumKitchen.get_order.
    destruct (KuantumKitchen.objects k !! a) as [order |] eqn:Ho; [| exact Hk].
    destruct (negb (bool_decide (Order.state order = COLLAPSED))); [exact Hk |].
    pose proof (scores_put_order k a order (Order.set_state order DELIVERED) Hk Ho
                  eq_refl) as Hk1.
    repeat case_match; simplify_eq; exact Hk1.
  - unfold KuantumKitchen.update_time.
    pose proof (scores_tick_loop (KuantumKitchen.active_orders k) [] k Hk) as H1.
    destruct (KuantumKitchen.tick_loop _ _ _) as [k1 [expired | e]]; [| exact H1].
    pose proof (objects_expire_loop expired k1) as H2.
    destruct (KuantumKitchen.expire_loop expired k1) as [k2 [[] | e]];
      unfold scores_generated; cbn in H2 |- *; rewrite H2; exact H1.
  - unfold KuantumKitchen.advance_day.
    assert (scores_generated
              (fst (if PrimFloat.ltb rand 0.3
                    then KuantumKitchen.trigger_special_event d k
                    else (k, Py.Ret tt)))) as Hk1.
    { destruct (PrimFloat.ltb rand 0.3); [now apply scores_trigger_special_event | exact Hk]. }
    destruct (if PrimFloat.ltb rand 0.3
              then KuantumKitchen.trigger_special_event d k
              else (k, Py.Ret tt)) as [k1 [[] | e]]; cbn [fst] in Hk1; [| exact Hk1].
    destruct (Py.floordiv _ _); exact Hk1.
  - now apply scores_trigger_special_event.
  - exact Hk.
Qed.

(** So both meters are clamped integers in every state a game reaches. *)
Theorem reachable_meters_clamped (impl : Py.SumImpl) (k : KuantumKitchen.t) :
  reachable impl k -> scores_generated k /\ meters_clamped k.
Proof.
  induction 1 as [| op k Hreach [Hs Hm] Hd].
  - split; [constructor |].
    split; [exists 50 | exists 100]; (split; [lia | left; reflexivity]).
  - split; [now apply scores_stay_generated |].
    destruct op; cbn [run draws_in_range] in *.
    + now apply meters_generate_orders.
    + now apply meters_accept_order.
    + now apply meters_reject_order.
    + now apply meters_prepare_order.
    + now apply meters_deliver_order.
    + now apply meters_update_time.
    + now apply meters_advance_day.
    + now apply meters_trigger_special_event.
    + now apply meters_end_day.
Qed.

Lemma meters_stay_clamped_witness :
  meters_clamped
    (run Py.LeftToRight (TriggerSpecialEvent (distortion 10))
       (KuantumKitchen.set_reality_stability KuantumKitchen.init (Py.Int 3))).
Proof.
  refine (meters_stay_clamped Py.LeftToRight (TriggerSpecialEvent (distortion 10))
            (KuantumKitchen.set_reality_stability KuantumKitchen.init (Py.Int 3))
            _ _ _).
  - cbn. lia.
  - constructor.
  - split; [exists 50 | exists 3]; (split; [lia | left; reflexivity]).
Defined.

(** The end-to-end run of the specification: stability 3, a Reality
    Distortion that rolls 10, and the game is over. *)
Example reality_distortion_ends_the_run :
  let k := run Py.LeftToRight (TriggerSpecialEvent (distortion 10))
             (KuantumKitchen.set_reality_stability KuantumKitchen.init (Py.Int 3)) in
  KuantumKitchen.reality_stability k = Py.Int 0
  /\ KuantumKitchen.check_game_over k
     = (true, "GAME OVER: Reality has completely collapsed!"%string).
Proof. split; reflexivity. Qed.

(** ** The timelines index against the active orders *)

(** C1, evaluated.  After the acceptance the index and the active orders
    agree.  The three time updates expire the order: it moves from
    [active_orders] to [failed_orders] but stays in the index, which
    [update_time] never touches (the delivery path does remove its order).
    The Timeline Shift then collects the orders from the stale index, so
    after it fires the index holds the FAILED order, under a fresh id,
    while no order is active. *)
Theorem timeline_shift_keeps_expired_order (impl : Py.SumImpl) :
  let accepted := run_all impl accepted_day KuantumKitchen.init in
  let expired := run_all impl expired_day KuantumKitchen.init in
  let shifted := run_all impl shifted_day KuantumKitchen.init in
  timelines_consistent accepted
  /\ KuantumKitchen.active_orders expired = []
  /\ KuantumKitchen.failed_orders expired = [0%nat]
  /\ KuantumKitchen.timelines expired = [(1, [0%nat])]
  /\ ~ timelines_consistent expired
  /\ KuantumKitchen.active_orders shifted = []
  /\ KuantumKitchen.timelines shifted = [(2, [0%nat])]
  /\ (exists o, KuantumKitchen.objects shifted !! 0%nat = Some o
                /\ Order.state o = FAILED /\ Order.timeline o = 2)
  /\ ~ timelines_consistent shifted.
Proof.
  assert (forall k, timeline_entries k = [0%nat] ->
                    KuantumKitchen.active_orders k = [] ->
                    ~ timelines_consistent k) as Hstale.
  { intros k He Ha [Hp _]. rewrite He, Ha in Hp.
    apply Permutation_length in Hp. discriminate. }
  destruct impl; cbv zeta.
  all: repeat split;
    try (vm_compute; reflexivity);
    try (apply Hstale; vm_compute; reflexivity).
  all: try (vm_compute; constructor; [intros Hin; inversion Hin | constructor]).
  all: try (eexists; split; [vm_compute; reflexivity | split; reflexivity]).
  all: intros tl l a Hin Hal; vm_compute in Hin;
    destruct Hin as [[= <- <-] | []];
    destruct Hal as [<- | []];
    eexists; split; [vm_compute; reflexivity | reflexivity].
Qed.

(** * Further properties *)

(** ** The selection of collapse_state *)

Lemma late_pie_generated :
  Order.init Py.LeftToRight 12 late_draws = Py.Ret late_pie.
Proof. vm_compute. reflexivity. Qed.

Lemma set_heap_same (o : Order.t) : Order.set_heap o (Order.heap o) = o.
Proof. destruct o; reflexivity. Qed.

Lemma records_valid (h : list Outcome) (refs : list nat) :
  Forall (fun a => (a < length h)%nat) refs ->
  exists os, Order.records h refs = Py.Ret os /\ length os = length refs.
Proof.
  induction 1 as [| a refs Ha _ IH]; cbn.
  - exists []. split; reflexivity.
  - destruct IH as (os & Hos & Hlen). unfold Order.deref.
    destruct (lookup_lt_is_Some_2 h a Ha) as [o Ho]. rewrite Ho. cbn.
    rewrite Hos. cbn. exists (o :: os). split; [reflexivity | cbn; lia].
Qed.

Lemma select_loop_first_reached (rand acc : float) (refs : list nat)
    (h os : list Outcome) :
  Order.records h refs = Py.Ret os ->
  Order.select_loop rand acc refs h
  = Py.Ret (first_reached rand (cumulative acc (map probability os)) refs).
Proof.
  revert acc os. induction refs as [| a refs IH]; intros acc os; cbn.
  - intros [= <-]. reflexivity.
  - destruct (Order.deref h a) as [o |]; cbn; [| discriminate].
    destruct (Order.records h refs) as [os' |] eqn:Hr; cbn; [| discriminate].
    intros [= <-]. cbn.
    destruct (PrimFloat.leb rand (acc + probability o)); [reflexivity |].
    now apply IH.
Qed.

Lemma first_reached_in (rand : float) (totals : list float) (refs : list nat)
    (a : nat) :
  first_reached rand totals refs = Some a -> In a refs.
Proof.
  revert refs. induction totals as [| c totals IH]; intros [| b refs]; cbn;
    try discriminate.
  destruct (PrimFloat.leb rand c).
  - intros [= <-]. now left.
  - intros H. right. now apply IH.
Qed.

Lemma first_reached_none (rand : float) (totals : list float) (refs : list nat) :
  length totals = length refs ->
  (first_reached rand totals refs = None
   <-> Forall (fun c => PrimFloat.leb rand c = false) totals).
Proof.
  revert refs. induction totals as [| c totals IH]; intros [| b refs]; cbn;
    try discriminate.
  - intros _. split; [constructor | reflexivity].
  - intros [= Hlen]. destruct (PrimFloat.leb rand c) eqn:Hc.
    + split; [discriminate |]. intros H. inversion H; congruence.
    + rewrite (IH refs Hlen). split.
      * intros H. now constructor.
      * intros H. now inversion H.
Qed.

Lemma cumulative_length (acc : float) (ps : list float) :
  length (cumulative acc ps) = length ps.
Proof. revert acc. induction ps as [| p ps IH]; intros acc; cbn; [| rewrite IH]; reflexivity. Qed.

(** X1: on an order in SUPERPOSITION, [collapse_state] with a bonus that is
    not positive writes no record.  It returns normally with the order
    COLLAPSED and [actual_outcome] set to the first outcome whose running
    total of probabilities reaches the draw, an element of
    [possible_outcomes]; when the draw exceeds every running total no
    outcome is selected and [actual_outcome] stays as it was. *)
Theorem collapse_state_without_bonus (impl : Py.SumImpl) (o : Order.t)
    (bonus_probability rand : float) :
  Order.state o = SUPERPOSITION ->
  PrimFloat.ltb 0%float bonus_probability = false ->
  refs_valid o ->
  exists os,
    Order.records (Order.heap o) (Order.possible_outcomes o) = Py.Ret os
    /\ let picked :=
         first_reached rand (cumulative 0%float (map probability os))
           (Order.possible_outcomes o) in
       Order.collapse_state impl o bonus_probability rand
       = (Order.set_state
            (match picked with
             | Some a => Order.set_actual_outcome o (Some a)
             | None => o
             end) COLLAPSED,
          Py.Ret tt)
       /\ (forall a, picked = Some a -> In a (Order.possible_outcomes o))
       /\ (picked = None
           <-> Forall (fun c => PrimFloat.leb rand c = false)
                 (cumulative 0%float (map probability os))).
Proof.
  intros Hs Hb Hv.
  destruct (records_valid _ _ Hv) as (os & Hos & Hlen).
  exists os. split; [exact Hos |]. cbv zeta. repeat split.
  - unfold Order.collapse_state. rewrite Hs.
    rewrite bool_decide_eq_true_2 by reflexivity. cbn [negb]. rewrite Hb.
    rewrite (select_loop_first_reached _ _ _ _ _ Hos). rewrite set_heap_same.
    destruct (first_reached _ _ _); reflexivity.
  - intros a. apply first_reached_in.
  - apply first_reached_none. now rewrite cumulative_length, length_map.
  - apply first_reached_none. now rewrite cumulative_length, length_map.
Qed.

Lemma collapse_state_without_bonus_witness :
  exists os,
    Order.records (Order.heap late_pie) (Order.possible_outcomes late_pie) = Py.Ret os
    /\ let picked :=
         first_reached largest_draw (cumulative 0%float (map probability os))
           (Order.possible_outcomes late_pie) in
       Order.collapse_state Py.LeftToRight late_pie 0%float largest_draw
       = (Order.set_state
            (match picked with
             | Some a => Order.set_actual_outcome late_pie (Some a)
             | None => late_pie
             end) COLLAPSED,
          Py.Ret tt)
       /\ (forall a, picked = Some a -> In a (Order.possible_outcomes late_pie))
       /\ (picked = None
           <-> Forall (fun c => PrimFloat.leb largest_draw c = false)
                 (cumulative 0%float (map probability os))).
Proof.
  refine (collapse_state_without_bonus Py.LeftToRight late_pie 0%float
            largest_draw _ _ _).
  - reflexivity.
  - reflexivity.
  - repeat constructor.
Defined.

(** X2: when the puzzle fails and the draw exceeds every running total of
    the order's probabilities, [prepare_order] raises [TypeError] at
    [order.actual_outcome["satisfaction"]]: the resources are already
    debited and the order is left COLLAPSED with no outcome, in
    [active_orders]; score and meters are untouched.  The witness is the
    order of day 12 with three outcomes, whose probabilities add up to
    1 - 2^-52 from left to right, and the draw 1 - 2^-53. *)
Theorem prepare_order_without_selection (impl : Py.SumImpl) (order_idx : Z)
    (puzzle_draws : MiniPuzzle.Draws) (inputs : nat -> option MiniPuzzle.value)
    (rand : float) (refund_resource : ResourceType) (k : KuantumKitchen.t)
    (a : nat) (order : Order.t) (os : list Outcome) :
  0 <= order_idx ->
  KuantumKitchen.active_orders k !! Z.to_nat order_idx = Some a ->
  KuantumKitchen.objects k !! a = Some order ->
  Order.state order = SUPERPOSITION ->
  Order.actual_outcome order = None ->
  Order.records (Order.heap order) (Order.possible_outcomes order) = Py.Ret os ->
  (forall resource,
     res_get (Order.resource_requirements order) resource
     <= res_get (KuantumKitchen.resources k) resource) ->
  KuantumKitchen.solve_puzzle
    (MiniPuzzle.setup_puzzle (Order.puzzle order) (Order.difficulty order)
       puzzle_draws) inputs = false ->
  Forall (fun c => PrimFloat.leb rand c = false)
    (cumulative 0%float (map probability os)) ->
  KuantumKitchen.prepare_order impl order_idx puzzle_draws inputs rand
    refund_resource k
  = (KuantumKitchen.put_order
       (KuantumKitchen.set_resources k
          (KuantumKitchen.consume (KuantumKitchen.resources k)
             (res_items (Order.resource_requirements order))))
       a (Order.set_state order COLLAPSED),
     Py.Raise Py.TypeError).
Proof.
  intros Hidx Ha Ho Hs Hnone Hos Hres Hpuzzle Hmiss.
  unfold KuantumKitchen.prepare_order.
  assert (KuantumKitchen.valid_index order_idx (KuantumKitchen.active_orders k) = true)
    as ->.
  { apply lookup_lt_Some in Ha. unfold KuantumKitchen.valid_index.
    apply negb_true_iff, orb_false_iff. split; [apply Z.ltb_ge | apply Z.leb_gt]; lia. }
  cbn [negb]. rewrite Ha. unfold KuantumKitchen.get_order at 1. rewrite Ho.
  rewrite Hs. rewrite bool_decide_eq_true_2 by reflexivity. cbn [negb].
  rewrite (proj2 (first_shortage_none _ _) Hres). rewrite Hpuzzle.
  assert (Order.collapse_state impl order 0%float rand
          = (Order.set_state order COLLAPSED, Py.Ret tt)) as ->.
  { unfold Order.collapse_state. rewrite Hs.
    rewrite bool_decide_eq_true_2 by reflexivity. cbn [negb].
    replace (PrimFloat.ltb 0 0) with false by reflexivity.
    rewrite (select_loop_first_reached _ _ _ _ _ Hos).
    assert (first_reached rand (cumulative 0%float (map probability os))
              (Order.possible_outcomes order) = None) as ->.
    { apply first_reached_none; [| exact Hmiss].
      rewrite cumulative_length, length_map.
      clear -Hos. revert os Hos.
      induction (Order.possible_outcomes order) as [| b refs IH]; intros os; cbn.
      - intros [= <-]. reflexivity.
      - destruct (Order.deref _ b); cbn; [| discriminate].
        destruct (Order.records _ refs) as [os' |]; cbn; [| discriminate].
        intros [= <-]. cbn. f_equal. now apply IH. }
    now rewrite set_heap_same. }
  cbn [Order.actual_outcome Order.set_state]. rewrite Hnone. reflexivity.
Qed.

Lemma prepare_order_without_selection_witness :
  KuantumKitchen.prepare_order Py.LeftToRight 0 x_draws no_answers largest_draw
    QUANTUM_ENERGY (kitchen_of late_pie)
  = (KuantumKitchen.put_order
       (KuantumKitchen.set_resources (kitchen_of late_pie)
          (KuantumKitchen.consume (KuantumKitchen.resources (kitchen_of late_pie))
             (res_items (Order.resource_requirements late_pie))))
       0%nat (Order.set_state late_pie COLLAPSED),
     Py.Raise Py.TypeError).
Proof.
  refine (prepare_order_without_selection Py.LeftToRight 0 x_draws no_answers
            largest_draw QUANTUM_ENERGY (kitchen_of late_pie) 0%nat late_pie
            (Order.heap late_pie) _ _ _ _ _ _ _ _ _).
  - lia.
  - reflexivity.
  - reflexivity.
  - reflexivity.
  - reflexivity.
  - reflexivity.
  - intros []; cbn; lia.
  - reflexivity.
  - repeat constructor.
Defined.

(** ** The order collections *)

Lemma remove_first_permutation (x : nat) (l l' : list nat) :
  KuantumKitchen.remove_first x l = Some l' -> Permutation l (x :: l').
Proof.
  revert l'. induction l as [| y l IH]; intros l'; cbn; [discriminate |].
  destruct (Nat.eqb_spec x y) as [-> | Hne].
  - intros [= <-]. reflexivity.
  - destruct (KuantumKitchen.remove_first x l) as [r |]; [| discriminate].
    intros [= <-]. rewrite (IH r eq_refl). apply perm_swap.
Qed.

Lemma lists_tick_loop (orders expired : list nat) (k : KuantumKitchen.t) :
  let k' := fst (KuantumKitchen.tick_loop orders expired k) in
  KuantumKitchen.available_orders k' = KuantumKitchen.available_orders k
  /\ KuantumKitchen.active_orders k' = KuantumKitchen.active_orders k
  /\ KuantumKitchen.completed_orders k' = KuantumKitchen.completed_orders k
  /\ KuantumKitchen.failed_orders k' = KuantumKitchen.failed_orders k
  /\ KuantumKitchen.timelines k' = KuantumKitchen.timelines k
  /\ KuantumKitchen.max_active_orders k' = KuantumKitchen.max_active_orders k
  /\ KuantumKitchen.day k' = KuantumKitchen.day k.
Proof.
  revert expired k. induction orders as [| a orders IH]; intros expired k; cbn;
    [repeat split |].
  destruct (KuantumKitchen.get_order k a) as [order | e]; [| repeat split].
  destruct (bool_decide (Order.state order = SUPERPOSITION)); [| apply IH].
  destruct (Order.update_time order) as [order1 b].
  exact (IH (if b then expired ++ [a] else expired)
           (KuantumKitchen.put_order k a order1)).
Qed.

Lemma lists_expire_loop (expired : list nat) (k : KuantumKitchen.t) :
  let k' := fst (KuantumKitchen.expire_loop expired k) in
  KuantumKitchen.available_orders k' = KuantumKitchen.available_orders k
  /\ KuantumKitchen.completed_orders k' = KuantumKitchen.completed_orders k
  /\ KuantumKitchen.timelines k' = KuantumKitchen.timelines k
  /\ KuantumKitchen.max_active_orders k' = KuantumKitchen.max_active_orders k
  /\ KuantumKitchen.day k' = KuantumKitchen.day k
  /\ Permutation
       (KuantumKitchen.active_orders k' ++ KuantumKitchen.failed_orders k')
       (KuantumKitchen.active_orders k ++ KuantumKitchen.failed_orders k)
  /\ (length (KuantumKitchen.active_orders k')
      <= length (KuantumKitchen.active_orders k))%nat.
Proof.
  revert k. induction expired as [| a expired IH]; intros k; cbn;
    [repeat split; reflexivity |].
  destruct (KuantumKitchen.remove_first a (KuantumKitchen.active_orders k))
    as [l |] eqn:Hr; [| repeat split; reflexivity].
  match goal with
  | |- context [KuantumKitchen.expire_loop expired ?k1] =>
      destruct (IH k1) as (H1 & H2 & H3 & H4 & H5 & H6 & H7)
  end.
  cbn in H1, H2, H3, H4, H5, H6, H7. repeat split; try assumption.
  - rewrite H6. apply remove_first_permutation in Hr. rewrite Hr.
    cbn. rewrite app_assoc. rewrite <- Permutation_cons_append. reflexivity.
  - apply remove_first_permutation, Permutation_length in Hr. cbn in Hr. lia.
Qed.

Lemma lists_shift_loop (draws : nat -> Z) (i : nat) (orders : list nat)
    (k : KuantumKitchen.t) :
  let k' := fst (KuantumKitchen.shift_loop draws i orders k) in
  KuantumKitchen.available_orders k' = KuantumKitchen.available_orders k
  /\ KuantumKitchen.active_orders k' = KuantumKitchen.active_orders k
  /\ KuantumKitchen.completed_orders k' = KuantumKitchen.completed_orders k
  /\ KuantumKitchen.failed_orders k' = KuantumKitchen.failed_orders k
  /\ KuantumKitchen.max_active_orders k' = KuantumKitchen.max_active_orders k
  /\ KuantumKitchen.day k' = KuantumKitchen.day k.
Proof.
  revert i k. induction orders as [| a l IH]; intros i k; cbn; [repeat split |].
  destruct (KuantumKitchen.get_order k a) as [order | e]; [| repeat split].
  match goal with
  | |- context [KuantumKitchen.shift_loop draws (S i) l ?k1] => exact (IH (S i) k1)
  end.
Qed.

Lemma lists_trigger_special_event (d : KuantumKitchen.EventDraws)
    (k : KuantumKitchen.t) :
  let k' := fst (KuantumKitchen.trigger_special_event d k) in
  KuantumKitchen.available_orders k' = KuantumKitchen.available_orders k
  /\ KuantumKitchen.active_orders k' = KuantumKitchen.active_orders k
  /\ KuantumKitchen.completed_orders k' = KuantumKitchen.completed_orders k
  /\ KuantumKitchen.failed_orders k' = KuantumKitchen.failed_orders k
  /\ KuantumKitchen.max_active_orders k' = KuantumKitchen.max_active_orders k
  /\ KuantumKitchen.day k' = KuantumKitchen.day k.
Proof.
  unfold KuantumKitchen.trigger_special_event.
  destruct (KuantumKitchen.draw_event d).
  - repeat split.
  - match goal with
    | |- context [KuantumKitchen.shift_loop ?f ?i ?l ?k1] =>
        exact (lists_shift_loop f i l k1)
    end.
  - set (k1 := KuantumKitchen.set_special_events k _).
    change (KuantumKitchen.available_orders k) with (KuantumKitchen.available_orders k1).
    change (KuantumKitchen.active_orders k) with (KuantumKitchen.active_orders k1).
    change (KuantumKitchen.completed_orders k) with (KuantumKitchen.completed_orders k1).
    change (KuantumKitchen.failed_orders k) with (KuantumKitchen.failed_orders k1).
    change (KuantumKitchen.max_active_orders k) with (KuantumKitchen.max_active_orders k1).
    change (KuantumKitchen.day k) with (KuantumKitchen.day k1).
    clearbody k1.
    destruct (KuantumKitchen.active_orders k1) as [| a0 l] eqn:E;
      [cbn; rewrite E; repeat split |].
    destruct ((a0 :: l) !! _) as [a |]; [| cbn; rewrite E; repeat split].
    destruct (KuantumKitchen.get_order k1 a) as [order | e];
      [| cbn; rewrite E; repeat split].
    destruct (bool_decide (Order.state order = SUPERPOSITION));
      cbn; rewrite E; repeat split.
  - repeat split.
Qed.

Lemma lists_advance_day (rand : float) (d : KuantumKitchen.EventDraws)
    (k : KuantumKitchen.t) :
  let k' := fst (KuantumKitchen.advance_day rand d k) in
  KuantumKitchen.available_orders k' = KuantumKitchen.available_orders k
  /\ KuantumKitchen.active_orders k' = KuantumKitchen.active_orders k
  /\ KuantumKitchen.completed_orders k' = KuantumKitchen.completed_orders k
  /\ KuantumKitchen.failed_orders k' = KuantumKitchen.failed_orders k.
Proof.
  unfold KuantumKitchen.advance_day.
  assert (let k1 := fst (if PrimFloat.ltb rand 0.3
                         then KuantumKitchen.trigger_special_event d k
                         else (k, Py.Ret tt)) in
          KuantumKitchen.available_orders k1 = KuantumKitchen.available_orders k
          /\ KuantumKitchen.active_orders k1 = KuantumKitchen.active_orders k
          /\ KuantumKitchen.completed_orders k1 = KuantumKitchen.completed_orders k
          /\ KuantumKitchen.failed_orders k1 = KuantumKitchen.failed_orders k) as H.
  { destruct (PrimFloat.ltb rand 0.3); [| repeat split].
    destruct (lists_trigger_special_event d k) as (H1 & H2 & H3 & H4 & _).
    repeat split; assumption. }
  destruct (if PrimFloat.ltb rand 0.3
            then KuantumKitchen.trigger_special_event d k
            else (k, Py.Ret tt)) as [k1 [[] | e]]; cbn [fst] in H; [| exact H].
  destruct (Py.floordiv _ _); exact H.
Qed.

Lemma perm_moved (D A R : list nat) (a : nat) :
  Permutation (D ++ (A ++ [a]) ++ R) (a :: D ++ A ++ R).
Proof.
  rewrite <- app_assoc. cbn. rewrite <- !Permutation_middle. reflexivity.
Qed.

Lemma perm_around (A A' C F F' : list nat) :
  Permutation (A' ++ F') (A ++ F) -> Permutation (A' ++ C ++ F') (A ++ C ++ F).
Proof.
  intros H. rewrite (Permutation_app_comm C F'), (Permutation_app_comm C F).
  rewrite !app_assoc. now rewrite H.
Qed.

(** X3: an operation other than the generation of a batch, a rejection and
    the forced end of day only moves orders between the four lists
    (available, active, completed, failed): taken together the lists hold
    the same orders as before, each as often as before. *)
Theorem orders_conserved (impl : Py.SumImpl) (op : Operation)
    (k : KuantumKitchen.t) :
  moves_orders op -> Permutation (all_orders (run impl op k)) (all_orders k).
Proof.
  intros Hop. unfold all_orders. destruct op; cbn [moves_orders run] in *;
    try contradiction.
  - unfold KuantumKitchen.accept_order.
    destruct (negb (KuantumKitchen.valid_index _ _)); [reflexivity |].
    destruct (KuantumKitchen.available_orders k !! Z.to_nat order_idx) as [a |] eqn:Ha;
      [| reflexivity].
    destruct (KuantumKitchen.get_order k a); [| reflexivity].
    destruct (_ <=? _); [reflexivity |]. cbn.
    rewrite (delete_Permutation _ _ _ Ha) at 2. cbn. apply perm_moved.
  - unfold KuantumKitchen.prepare_order.
    repeat case_match; simplify_eq; cbn; reflexivity.
  - unfold KuantumKitchen.deliver_order.
    destruct (negb (KuantumKitchen.valid_index _ _)); [reflexivity |].
    destruct (KuantumKitchen.active_orders k !! Z.to_nat order_idx) as [a |] eqn:Ha;
      [| reflexivity].
    destruct (KuantumKitchen.get_order k a); [| reflexivity].
    destruct (negb (bool_decide _)); [reflexivity |].
    assert (Permutation
              (KuantumKitchen.available_orders k
                 ++ delete (Z.to_nat order_idx) (KuantumKitchen.active_orders k)
                 ++ (KuantumKitchen.completed_orders k ++ [a])
                 ++ KuantumKitchen.failed_orders k)
              (KuantumKitchen.available_orders k ++ KuantumKitchen.active_orders k
                 ++ KuantumKitchen.completed_orders k
                 ++ KuantumKitchen.failed_orders k)) as Hperm.
    { apply Permutation_app_head.
      rewrite (delete_Permutation _ _ _ Ha) at 2. cbn.
      apply perm_moved. }
    repeat case_match; exact Hperm.
  - unfold KuantumKitchen.update_time.
    destruct (lists_tick_loop (KuantumKitchen.active_orders k) [] k)
      as (H1 & H2 & H3 & H4 & _).
    destruct (KuantumKitchen.tick_loop _ _ _) as [k1 [expired | e]];
      cbn [fst] in H1, H2, H3, H4.
    + destruct (lists_expire_loop expired k1) as (G1 & G2 & _ & _ & _ & G3 & _).
      destruct (KuantumKitchen.expire_loop expired k1) as [k2 [[] | e]];
        cbn [fst] in G1, G2, G3 |- *;
        rewrite G1, G2, H1, H3, <- H2, <- H4;
        apply Permutation_app_head, perm_around; exact G3.
    + cbn [fst]. now rewrite H1, H2, H3, H4.
  - destruct (lists_advance_day rand d k) as (H1 & H2 & H3 & H4).
    now rewrite H1, H2, H3, H4.
  - destruct (lists_trigger_special_event d k) as (H1 & H2 & H3 & H4 & _).
    now rewrite H1, H2, H3, H4.
Qed.

Lemma orders_conserved_witness :
  Permutation (all_orders (run Py.LeftToRight (AcceptOrder 0) offered_kitchen))
    (all_orders offered_kitchen).
Proof. exact (orders_conserved Py.LeftToRight (AcceptOrder 0) offered_kitchen I). Defined.

Lemma lists_generate_loop (impl : Py.SumImpl) (draws : nat -> Order.Draws)
    (i n : nat) (k : KuantumKitchen.t) :
  let k' := fst (KuantumKitchen.generate_loop impl draws i n k) in
  KuantumKitchen.active_orders k' = KuantumKitchen.active_orders k
  /\ KuantumKitchen.completed_orders k' = KuantumKitchen.completed_orders k
  /\ KuantumKitchen.failed_orders k' = KuantumKitchen.failed_orders k
  /\ KuantumKitchen.timelines k' = KuantumKitchen.timelines k
  /\ KuantumKitchen.max_active_orders k' = KuantumKitchen.max_active_orders k
  /\ KuantumKitchen.day k' = KuantumKitchen.day k.
Proof.
  revert i k. induction n as [| n IH]; intros i k; cbn; [repeat split |].
  destruct (Order.init impl (KuantumKitchen.day k) (draws i)); [| repeat split].
  match goal with
  | |- context [KuantumKitchen.generate_loop impl draws (S i) n ?k1] =>
      exact (IH (S i) k1)
  end.
Qed.

Lemma calendar_advance_day (rand : float) (d : KuantumKitchen.EventDraws)
    (k : KuantumKitchen.t) :
  let k' := fst (KuantumKitchen.advance_day rand d k) in
  (KuantumKitchen.day k' = KuantumKitchen.day k + 1
   /\ KuantumKitchen.max_active_orders k'
      = 3 + Z.min (KuantumKitchen.day k' / 3) 4)
  \/ (KuantumKitchen.day k' = KuantumKitchen.day k
      /\ KuantumKitchen.max_active_orders k' = KuantumKitchen.max_active_orders k).
Proof.
  unfold KuantumKitchen.advance_day.
  assert (let k1 := fst (if PrimFloat.ltb rand 0.3
                         then KuantumKitchen.trigger_special_event d k
                         else (k, Py.Ret tt)) in
          KuantumKitchen.max_active_orders k1 = KuantumKitchen.max_active_orders k
          /\ KuantumKitchen.day k1 = KuantumKitchen.day k) as H.
  { destruct (PrimFloat.ltb rand 0.3); [| repeat split].
    destruct (lists_trigger_special_event d k) as (_ & _ & _ & _ & H5 & H6).
    split; assumption. }
  destruct (if PrimFloat.ltb rand 0.3
            then KuantumKitchen.trigger_special_event d k
            else (k, Py.Ret tt)) as [k1 [[] | e]]; cbn [fst] in H;
    destruct H as [Hm Hd]; [| right; split; assumption].
  destruct (Py.floordiv _ _); cbn; [left | right]; split; try assumption.
  - now rewrite Hd.
  - now rewrite Hd.
Qed.

(** X4: the cap on active orders is an invariant of every operation.  When
    [max_active_orders] is [3 + min(day // 3, 4)] for a day from 0 on and
    no more orders are active than it allows, the same holds after the
    operation: [accept_order] refuses at the cap and [advance_day] only
    raises it. *)
Theorem capacity_is_kept (impl : Py.SumImpl) (op : Operation)
    (k : KuantumKitchen.t) :
  capacity_kept k -> capacity_kept (run impl op k).
Proof.
  intros (Hmax & Hday & Hlen). unfold capacity_kept.
  destruct op; cbn [run].
  - unfold KuantumKitchen.generate_orders.
    match goal with
    | |- context [KuantumKitchen.generate_loop impl draws ?i ?n ?k1] =>
        destruct (lists_generate_loop impl draws i n k1) as (H1 & _ & _ & _ & H5 & H6)
    end.
    cbn in H1, H5, H6. rewrite H1, H5, H6. repeat split; assumption.
  - unfold KuantumKitchen.accept_order.
    destruct (negb (KuantumKitchen.valid_index _ _)); [repeat split; assumption |].
    destruct (KuantumKitchen.available_orders k !! Z.to_nat order_idx);
      [| repeat split; assumption].
    destruct (KuantumKitchen.get_order k n); [| repeat split; assumption].
    destruct (Z.leb_spec (KuantumKitchen.max_active_orders k)
                (Z.of_nat (length (KuantumKitchen.active_orders k))));
      [repeat split; assumption |].
    cbn. repeat split; try assumption. rewrite length_app. cbn. lia.
  - unfold KuantumKitchen.reject_order. case_match; repeat split; assumption.
  - assert (let k' := fst (KuantumKitchen.prepare_order impl order_idx puzzle_draws
                             inputs rand refund_resource k) in
            KuantumKitchen.active_orders k' = KuantumKitchen.active_orders k
            /\ KuantumKitchen.max_active_orders k' = KuantumKitchen.max_active_orders k
            /\ KuantumKitchen.day k' = KuantumKitchen.day k) as (H1 & H2 & H3).
    { unfold KuantumKitchen.prepare_order.
      repeat case_match; simplify_eq; cbn; repeat split. }
    rewrite H1, H2, H3. repeat split; assumption.
  - unfold KuantumKitchen.deliver_order.
    destruct (negb (KuantumKitchen.valid_index _ _)); [repeat split; assumption |].
    destruct (KuantumKitchen.active_orders k !! Z.to_nat order_idx) eqn:Ha;
      [| repeat split; assumption].
    destruct (KuantumKitchen.get_order k n); [| repeat split; assumption].
    destruct (negb (bool_decide _)); [repeat split; assumption |].
    assert (Z.of_nat (length (delete (Z.to_nat order_idx)
                                (KuantumKitchen.active_orders k)))
            <= KuantumKitchen.max_active_orders k) as Hdel.
    { pose proof (lookup_lt_Some _ _ _ Ha). rewrite length_delete by eauto. lia. }
    repeat case_match; cbn; repeat split; assumption.
  - unfold KuantumKitchen.update_time.
    destruct (lists_tick_loop (KuantumKitchen.active_orders k) [] k)
      as (_ & H2 & _ & _ & _ & H6 & H7).
    destruct (KuantumKitchen.tick_loop _ _ _) as [k1 [expired | e]];
      cbn [fst] in H2, H6, H7.
    + destruct (lists_expire_loop expired k1) as (_ & _ & _ & G4 & G5 & _ & G7).
      destruct (KuantumKitchen.expire_loop expired k1) as [k2 [[] | e]];
        cbn [fst] in G4, G5, G7 |- *; rewrite G4, G5, H6, H7; rewrite H2 in G7;
        repeat split; try assumption; lia.
    + cbn [fst]. rewrite H2, H6, H7. repeat split; assumption.
  - destruct (lists_advance_day rand d k) as (_ & H2 & _).
    rewrite H2.
    destruct (calendar_advance_day rand d k) as [[Hd Hm] | [Hd Hm]];
      rewrite Hm, Hd.
    + repeat split; [lia |].
      assert (KuantumKitchen.day k / 3 <= (KuantumKitchen.day k + 1) / 3)
        by (apply Z.div_le_mono; lia).
      lia.
    + repeat split; assumption.
  - destruct (lists_trigger_special_event d k) as (_ & H2 & _ & _ & H5 & H6).
    rewrite H2, H5, H6. repeat split; assumption.
  - cbn. repeat split; try assumption.
    assert (0 <= KuantumKitchen.day k / 3) by (apply Z.div_pos; lia). lia.
Qed.

Lemma capacity_is_kept_witness :
  capacity_kept (run Py.LeftToRight (AcceptOrder 0) offered_kitchen).
Proof.
  refine (capacity_is_kept Py.LeftToRight (AcceptOrder 0) offered_kitchen _).
  repeat split; try (vm_compute; reflexivity); vm_compute; discriminate.
Defined.

(** ** The life of an order *)

Lemma same_identity_refl (o : Order.t) : same_identity o o.
Proof. repeat split. Qed.

Lemma same_identity_trans (o1 o2 o3 : Order.t) :
  same_identity o1 o2 -> same_identity o2 o3 -> same_identity o1 o3.
Proof. unfold same_identity, same_scores. intuition congruence. Qed.

Lemma order_evolves_refl (o : Order.t) : order_evolves o o.
Proof. split; [apply same_identity_refl |]. split; [now left | reflexivity]. Qed.

(** The loops of [collapse_state] write probabilities only: every other
    field of every record is as it was. *)
Section Fields.
Context {A : Type} (f : Outcome -> A).
Hypothesis f_kept : forall oc p, f (set_probability oc p) = f oc.

Lemma field_insert (h : list Outcome) (a : nat) (oc : Outcome) (p : float) :
  h !! a = Some oc -> map f (<[a := set_probability oc p]> h) = map f h.
Proof.
  intros Ha. rewrite list_fmap_insert, f_kept. apply list_insert_id.
  now rewrite list_lookup_fmap, Ha.
Qed.

Lemma field_bias_loop (bonus : float) (count : Z) (refs : list nat)
    (h : list Outcome) :
  map f (fst (Order.bias_loop bonus count refs h)) = map f h.
Proof.
  revert h. induction refs as [| a refs IH]; intros h; cbn; [reflexivity |].
  unfold Order.deref. destruct (h !! a) as [oc |] eqn:Ha; [| reflexivity].
  destruct (80 <=? satisfaction oc).
  - rewrite IH. now apply field_insert.
  - destruct (Py.float_truediv _ _); [| reflexivity]. rewrite IH.
    now apply field_insert.
Qed.

Lemma field_renormalize_loop (total : float) (refs : list nat) (h : list Outcome) :
  map f (fst (Order.renormalize_loop total refs h)) = map f h.
Proof.
  revert h. induction refs as [| a refs IH]; intros h; cbn; [reflexivity |].
  unfold Order.deref. destruct (h !! a) as [oc |] eqn:Ha; [| reflexivity].
  destruct (Py.float_truediv _ _); [| reflexivity]. rewrite IH.
  now apply field_insert.
Qed.

Lemma field_collapse_state (impl : Py.SumImpl) (o : Order.t) (bonus rand : float) :
  map f (Order.heap (fst (Order.collapse_state impl o bonus rand)))
  = map f (Order.heap o).
Proof.
  unfold Order.collapse_state.
  destruct (negb (bool_decide (Order.state o = SUPERPOSITION))); [reflexivity |].
  destruct (PrimFloat.ltb 0 bonus).
  - pose proof (field_bias_loop bonus
                  (Z.of_nat (length (Order.possible_outcomes o)))
                  (Order.possible_outcomes o) (Order.heap o)) as Hb.
    destruct (Order.bias_loop _ _ _ _) as [h1 [[] | e]]; cbn in Hb; [| exact Hb].
    destruct (Order.records h1 (Order.possible_outcomes o)) as [os | e]; cbn.
    + pose proof (field_renormalize_loop (Py.sum impl (map probability os))
                    (Order.possible_outcomes o) h1) as Hr.
      destruct (Order.renormalize_loop _ _ _) as [h2 [[] | e]]; cbn in Hr |- *.
      * destruct (Order.select_loop _ _ _ _) as [[a |] | e]; cbn; congruence.
      * congruence.
    + exact Hb.
  - destruct (Order.select_loop _ _ _ _) as [[a |] | e]; reflexivity.
Qed.
End Fields.

Lemma collapse_state_scores (impl : Py.SumImpl) (o : Order.t) (bonus rand : float) :
  same_scores (Order.heap o)
    (Order.heap (fst (Order.collapse_state impl o bonus rand))).
Proof. repeat split; now apply field_collapse_state. Qed.

Lemma collapse_state_evolves (impl : Py.SumImpl) (o : Order.t)
    (bonus rand : float) :
  order_evolves o (fst (Order.collapse_state impl o bonus rand)).
Proof.
  pose proof (collapse_state_scores impl o bonus rand) as Hsc. revert Hsc.
  unfold Order.collapse_state.
  destruct (bool_decide_reflect (Order.state o = SUPERPOSITION)) as [Hs | Hs];
    cbn [negb]; [| intros _; apply order_evolves_refl].
  intros Hsc. split; [| split; [| intros Hn; contradiction]].
  - revert Hsc. repeat case_match; simplify_eq; cbn; intros Hsc;
      repeat split; apply Hsc.
  - clear Hsc. repeat case_match; simplify_eq; cbn;
      first [now left | right; left; split; [exact Hs | now left]].
Qed.

Lemma update_time_ticks (o : Order.t) : order_ticks o (fst (Order.update_time o)).
Proof.
  unfold Order.update_time.
  cbn [Order.time_remaining Order.state Order.set_time_remaining].
  destruct (Order.time_remaining o - 1 <=? 0); cbn [andb];
    [destruct (bool_decide_reflect (Order.state o = SUPERPOSITION)) as [Hs | Hs] |];
    cbn; repeat split;
    first [now left | right; split; [exact Hs | reflexivity]].
Qed.

(** A relation on orders that every object satisfies against itself and
    that composes survives a loop over addresses. *)
Section Histories.
Variable R : Order.t -> Order.t -> Prop.
Hypothesis R_refl : forall o, R o o.
Hypothesis R_trans : forall o1 o2 o3, R o1 o2 -> R o2 o3 -> R o1 o3.

Lemma related_refl (h : list Order.t) : related R h h.
Proof. intros a o Ha. eauto. Qed.

Lemma related_trans (h1 h2 h3 : list Order.t) :
  related R h1 h2 -> related R h2 h3 -> related R h1 h3.
Proof.
  intros H12 H23 a o Ha. destruct (H12 a o Ha) as (o2 & Ha2 & Ho2).
  destruct (H23 a o2 Ha2) as (o3 & Ha3 & Ho3). eauto.
Qed.

Lemma related_insert (h : list Order.t) (a : nat) (o x : Order.t) :
  h !! a = Some o -> R o x -> related R h (<[a := x]> h).
Proof.
  intros Ha Hx b ob Hb. destruct (decide (a = b)) as [<- | Hne].
  - exists x. split; [| congruence].
    apply list_lookup_insert_eq. now apply lookup_lt_Some in Ha.
  - exists ob. split; [| apply R_refl]. now rewrite list_lookup_insert_ne.
Qed.

Lemma related_app (h extra : list Order.t) : related R h (h ++ extra).
Proof.
  intros a o Ha. exists o. split; [| apply R_refl].
  rewrite lookup_app_l; [exact Ha |]. now apply lookup_lt_Some in Ha.
Qed.
End Histories.

Lemma order_ticks_refl (o : Order.t) : order_ticks o o.
Proof. split; [apply same_identity_refl |]. split; [now left | reflexivity]. Qed.

Lemma order_ticks_trans (o1 o2 o3 : Order.t) :
  order_ticks o1 o2 -> order_ticks o2 o3 -> order_ticks o1 o3.
Proof.
  intros (I12 & S12 & A12) (I23 & S23 & A23).
  split; [exact (same_identity_trans _ _ _ I12 I23) |]. split; [| congruence].
  destruct S12 as [E | [E1 E2]], S23 as [F | [F1 F2]];
    first [left; congruence | right; split; congruence].
Qed.

Lemma order_kept_refl (o : Order.t) : order_kept o o.
Proof. split; [apply same_identity_refl |]. split; reflexivity. Qed.

Lemma order_kept_trans (o1 o2 o3 : Order.t) :
  order_kept o1 o2 -> order_kept o2 o3 -> order_kept o1 o3.
Proof.
  intros (I12 & S12 & A12) (I23 & S23 & A23).
  split; [exact (same_identity_trans _ _ _ I12 I23) |]. split; congruence.
Qed.

Lemma order_ticks_evolves (o o' : Order.t) : order_ticks o o' -> order_evolves o o'.
Proof.
  intros (I & [E | [E1 E2]] & Ha); (split; [exact I |]);
    (split; [| intros _; exact Ha]); [now left |].
  right. left. split; [exact E1 | now right].
Qed.

Lemma order_kept_evolves (o o' : Order.t) : order_kept o o' -> order_evolves o o'.
Proof.
  intros (I & E & Ha). split; [exact I |]. split; [now left | intros _; exact Ha].
Qed.

Lemma related_weaken (R R' : Order.t -> Order.t -> Prop) (h h' : list Order.t) :
  (forall o o', R o o' -> R' o o') -> related R h h' -> related R' h h'.
Proof.
  intros HR H a o Ha. destruct (H a o Ha) as (o' & Ha' & Ho'). eauto.
Qed.

Lemma tick_loop_related (orders expired : list nat) (k : KuantumKitchen.t) :
  related order_ticks (KuantumKitchen.objects k)
    (KuantumKitchen.objects (fst (KuantumKitchen.tick_loop orders expired k))).
Proof.
  revert expired k. induction orders as [| a orders IH]; intros expired k; cbn;
    [apply related_refl, order_ticks_refl |].
  unfold KuantumKitchen.get_order.
  destruct (KuantumKitchen.objects k !! a) as [order |] eqn:Ho;
    [| apply related_refl, order_ticks_refl].
  destruct (bool_decide (Order.state order = SUPERPOSITION)); [| apply IH].
  pose proof (update_time_ticks order) as Ht.
  destruct (Order.update_time order) as [order1 b]. cbn [fst] in Ht.
  eapply related_trans; [exact order_ticks_trans | | apply IH].
  cbn. now apply (related_insert _ order_ticks_refl _ _ order).
Qed.

Lemma shift_loop_related (draws : nat -> Z) (i : nat) (orders : list nat)
    (k : KuantumKitchen.t) :
  related order_kept (KuantumKitchen.objects k)
    (KuantumKitchen.objects (fst (KuantumKitchen.shift_loop draws i orders k))).
Proof.
  revert i k. induction orders as [| a orders IH]; intros i k; cbn;
    [apply related_refl, order_kept_refl |].
  unfold KuantumKitchen.get_order.
  destruct (KuantumKitchen.objects k !! a) as [order |] eqn:Ho;
    [| apply related_refl, order_kept_refl].
  eapply related_trans; [exact order_kept_trans | | apply IH].
  cbn. apply (related_insert _ order_kept_refl _ _ order); [exact Ho |].
  repeat split.
Qed.

Lemma trigger_special_event_related (d : KuantumKitchen.EventDraws)
    (k : KuantumKitchen.t) :
  related order_kept (KuantumKitchen.objects k)
    (KuantumKitchen.objects (fst (KuantumKitchen.trigger_special_event d k))).
Proof.
  unfold KuantumKitchen.trigger_special_event.
  destruct (KuantumKitchen.draw_event d).
  - apply related_refl, order_kept_refl.
  - match goal with
    | |- context [KuantumKitchen.shift_loop ?f ?i ?l ?k1] =>
        exact (shift_loop_related f i l k1)
    end.
  - set (k1 := KuantumKitchen.set_special_events k _).
    change (KuantumKitchen.objects k) with (KuantumKitchen.objects k1).
    clearbody k1.
    destruct (KuantumKitchen.active_orders k1) as [| a0 l];
      [apply related_refl, order_kept_refl |].
    destruct ((a0 :: l) !! _) as [a |]; [| apply related_refl, order_kept_refl].
    unfold KuantumKitchen.get_order.
    destruct (KuantumKitchen.objects k1 !! a) as [order |] eqn:Ho;
      [| apply related_refl, order_kept_refl].
    destruct (bool_decide (Order.state order = SUPERPOSITION));
      [| apply related_refl, order_kept_refl].
    cbn. apply (related_insert _ order_kept_refl _ _ order); [exact Ho |].
    repeat split.
  - apply related_refl, order_kept_refl.
Qed.

Lemma objects_generate_loop (impl : Py.SumImpl) (draws : nat -> Order.Draws)
    (i n : nat) (k : KuantumKitchen.t) :
  exists extra,
    KuantumKitchen.objects (fst (KuantumKitchen.generate_loop impl draws i n k))
    = KuantumKitchen.objects k ++ extra.
Proof.
  revert i k. induction n as [| n IH]; intros i k; cbn.
  - exists []. now rewrite app_nil_r.
  - destruct (Order.init impl (KuantumKitchen.day k) (draws i)) as [o |].
    + match goal with
      | |- context [KuantumKitchen.generate_loop impl draws (S i) n ?k1] =>
          destruct (IH (S i) k1) as (extra & He)
      end.
      exists (o :: extra). rewrite He. cbn. now rewrite <- app_assoc.
    + exists []. now rewrite app_nil_r.
Qed.

(** X5: what an operation can do to an order.  Whatever the operation, an
    order that existed before it has afterwards the id, dish, time limit,
    difficulty, requirements, reward, puzzle kind and list of outcomes it
    had, and every outcome record its description, satisfaction score and
    reward multiplier: of a record only the probability is ever rewritten.
    Its state has stayed or moved along SUPERPOSITION -> COLLAPSED,
    SUPERPOSITION -> FAILED or COLLAPSED -> DELIVERED, so no order returns
    to SUPERPOSITION and FAILED and DELIVERED are final; and an order that
    was out of SUPERPOSITION keeps the outcome it recorded. *)
Theorem orders_evolve (impl : Py.SumImpl) (op : Operation) (k : KuantumKitchen.t) :
  related order_evolves (KuantumKitchen.objects k)
    (KuantumKitchen.objects (run impl op k)).
Proof.
  pose proof (related_refl order_evolves order_evolves_refl (KuantumKitchen.objects k))
    as Hsame.
  destruct op; cbn [run].
  - unfold KuantumKitchen.generate_orders.
    match goal with
    | |- context [KuantumKitchen.generate_loop impl draws ?i ?n ?k1] =>
        destruct (objects_generate_loop impl draws i n k1) as (extra & ->)
    end.
    cbn. apply related_app, order_evolves_refl.
  - unfold KuantumKitchen.accept_order. repeat case_match; exact Hsame.
  - unfold KuantumKitchen.reject_order. case_match; exact Hsame.
  - unfold KuantumKitchen.prepare_order.
    destruct (negb (KuantumKitchen.valid_index _ _)); [exact Hsame |].
    destruct (KuantumKitchen.active_orders k !! Z.to_nat order_idx) as [a |];
      [| exact Hsame].
    unfold KuantumKitchen.get_order.
    destruct (KuantumKitchen.objects k !! a) as [order |] eqn:Ho; [| exact Hsame].
    destruct (negb (bool_decide (Order.state order = SUPERPOSITION))); [exact Hsame |].
    destruct (KuantumKitchen.first_shortage _ _); [exact Hsame |].
    match goal with
    | |- context [Order.collapse_state impl order ?b rand] =>
        pose proof (collapse_state_evolves impl order b rand) as Hev;
        destruct (Order.collapse_state impl order b rand) as [order1 r]
    end.
    cbn [fst] in Hev.
    pose proof (related_insert order_evolves order_evolves_refl _ a order order1
                  Ho Hev) as Hput.
    repeat case_match; simplify_eq; exact Hput.
  - unfold KuantumKitchen.deliver_order.
    destruct (negb (KuantumKitchen.valid_index _ _)); [exact Hsame |].
    destruct (KuantumKitchen.active_orders k !! Z.to_nat order_idx) as [a |];
      [| exact Hsame].
    unfold KuantumKitchen.get_order.
    destruct (KuantumKitchen.objects k !! a) as [order |] eqn:Ho; [| exact Hsame].
    destruct (bool_decide_reflect (Order.state order = COLLAPSED)) as [Hs | Hs];
      cbn [negb]; [| exact Hsame].
    assert (order_evolves order (Order.set_state order DELIVERED)) as Hev.
    { split; [repeat split |]. split; [| intros _; reflexivity].
      right. right. split; [exact Hs | reflexivity]. }
    pose proof (related_insert order_evolves order_evolves_refl _ a order _ Ho Hev)
      as Hput.
    repeat case_match; exact Hput.
  - unfold KuantumKitchen.update_time.
    pose proof (tick_loop_related (KuantumKitchen.active_orders k) [] k) as Ht.
    apply (related_weaken _ _ _ _ order_ticks_evolves) in Ht.
    destruct (KuantumKitchen.tick_loop _ _ _) as [k1 [expired | e]]; [| exact Ht].
    pose proof (objects_expire_loop expired k1) as He.
    destruct (KuantumKitchen.expire_loop expired k1) as [k2 [[] | e]];
      cbn [fst] in He |- *; rewrite He; exact Ht.
  - unfold KuantumKitchen.advance_day.
    assert (related order_evolves (KuantumKitchen.objects k)
              (KuantumKitchen.objects
                 (fst (if PrimFloat.ltb rand 0.3
                       then KuantumKitchen.trigger_special_event d k
                       else (k, Py.Ret tt))))) as Hk1.
    { destruct (PrimFloat.ltb rand 0.3); [| exact Hsame].
      exact (related_weaken _ _ _ _ order_kept_evolves
               (trigger_special_event_related d k)). }
    destruct (if PrimFloat.ltb rand 0.3
              then KuantumKitchen.trigger_special_event d k
              else (k, Py.Ret tt)) as [k1 [[] | e]]; cbn [fst] in Hk1; [| exact Hk1].
    destruct (Py.floordiv _ _); exact Hk1.
  - exact (related_weaken _ _ _ _ order_kept_evolves
             (trigger_special_event_related d k)).
  - exact Hsame.
Qed.

(** ** Maintaining the index *)

Lemma dd_alter_append_entries (a : nat) (key : Z) (d : list (Z * list nat)) :
  Permutation
    (concat (map snd (KuantumKitchen.dd_alter (fun l => l ++ [a]) key d)))
    (concat (map snd d) ++ [a]).
Proof.
  induction d as [| [k' l] d IH]; cbn; [reflexivity |].
  destruct (key =? k'); cbn.
  - rewrite <- !app_assoc. apply Permutation_app_head. apply Permutation_app_comm.
  - rewrite IH. now rewrite app_assoc.
Qed.

Lemma dd_alter_in (f : list nat -> list nat) (key : Z) (d : list (Z * list nat))
    (t : Z) (l : list nat) :
  In (t, l) (KuantumKitchen.dd_alter f key d) ->
  In (t, l) d
  \/ (t = key /\ exists l0, l = f l0 /\ (In (key, l0) d \/ l0 = [])).
Proof.
  induction d as [| [k' l'] d IH]; cbn.
  - intros [[= <- <-] | []]. right. split; [reflexivity |]. exists []. auto.
  - destruct (Z.eqb_spec key k') as [<- | Hne]; cbn.
    + intros [[= <- <-] | Hin]; [| auto].
      right. split; [reflexivity |]. exists l'. auto.
    + intros [[= <- <-] | Hin]; [auto |].
      destruct (IH Hin) as [H | (Ht & l0 & Hl & [H | H])]; [auto | |].
      * right. split; [exact Ht |]. exists l0. auto.
      * right. split; [exact Ht |]. exists l0. auto.
Qed.

Lemma dd_alter_keys (f : list nat -> list nat) (key : Z) (d : list (Z * list nat)) :
  NoDup (map fst d) -> NoDup (map fst (KuantumKitchen.dd_alter f key d)).
Proof.
  intros Hd.
  assert (map fst (KuantumKitchen.dd_alter f key d) = map fst d
          \/ (~ In key (map fst d)
              /\ map fst (KuantumKitchen.dd_alter f key d) = map fst d ++ [key]))
    as [-> | [Hnot ->]].
  { clear Hd. induction d as [| [k' l'] d IH]; cbn.
    - right. split; [tauto | reflexivity].
    - destruct (Z.eqb_spec key k') as [<- | Hne]; cbn; [now left |].
      destruct IH as [-> | [Hnot ->]]; [now left |].
      right. split; [| reflexivity]. intros [E | Hin]; [congruence | tauto]. }
  - exact Hd.
  - apply NoDup_app. split; [exact Hd |]. split.
    + intros x Hx [-> | []]%list_elem_of_In. apply Hnot. now apply list_elem_of_In.
    + apply NoDup_singleton.
Qed.

Lemma discard_in (a b : nat) (l : list nat) :
  In b (KuantumKitchen.discard a l) -> In b l.
Proof.
  unfold KuantumKitchen.discard.
  destruct (KuantumKitchen.remove_first a l) as [l' |] eqn:Hr; [| auto].
  apply remove_first_permutation in Hr. intros Hb.
  apply (Permutation_in _ (Permutation_sym Hr)). now right.
Qed.

Lemma discard_permutation (a : nat) (l : list nat) :
  In a l -> Permutation l (a :: KuantumKitchen.discard a l).
Proof.
  intros Ha. unfold KuantumKitchen.discard.
  destruct (KuantumKitchen.remove_first a l) as [l' |] eqn:Hr.
  - now apply remove_first_permutation.
  - exfalso. clear -Ha Hr. induction l as [| y l IH]; cbn in *; [tauto |].
    destruct (Nat.eqb_spec a y); [discriminate |].
    destruct (KuantumKitchen.remove_first a l); [discriminate |].
    destruct Ha as [-> | Ha]; [congruence | auto].
Qed.

Lemma dd_alter_discard_entries (a : nat) (key : Z) (d : list (Z * list nat))
    (l : list nat) :
  NoDup (map fst d) -> In (key, l) d -> In a l ->
  Permutation (concat (map snd d))
    (a :: concat (map snd (KuantumKitchen.dd_alter (KuantumKitchen.discard a) key d))).
Proof.
  induction d as [| [k' l'] d IH]; cbn; [tauto |].
  intros Hd Hin Ha. inversion Hd as [| ? ? Hk Hd']; subst.
  destruct (Z.eqb_spec key k') as [<- | Hne]; cbn.
  - destruct Hin as [[= <-] | Hin].
    + rewrite (discard_permutation a l' Ha) at 1. reflexivity.
    + exfalso. apply Hk. apply list_elem_of_In.
      change key with (fst (key, l)). now apply in_map.
  - destruct Hin as [[= E _] | Hin]; [congruence |].
    rewrite (IH Hd' Hin Ha). now rewrite Permutation_middle.
Qed.

Lemma lists_accept_order (order_idx : Z) (k : KuantumKitchen.t) :
  Permutation (all_orders (fst (KuantumKitchen.accept_order order_idx k)))
    (all_orders k).
Proof.
  unfold all_orders, KuantumKitchen.accept_order.
  destruct (negb (KuantumKitchen.valid_index _ _)); [reflexivity |].
  destruct (KuantumKitchen.available_orders k !! Z.to_nat order_idx) as [a |] eqn:Ha;
    [| reflexivity].
  destruct (KuantumKitchen.get_order k a); [| reflexivity].
  destruct (_ <=? _); [reflexivity |]. cbn.
  rewrite (delete_Permutation _ _ _ Ha) at 2. cbn. apply perm_moved.
Qed.

Lemma lists_deliver_order (order_idx : Z) (choices : nat -> ResourceType)
    (k : KuantumKitchen.t) :
  Permutation (all_orders (fst (KuantumKitchen.deliver_order order_idx choices k)))
    (all_orders k).
Proof.
  unfold all_orders, KuantumKitchen.deliver_order.
  destruct (negb (KuantumKitchen.valid_index _ _)); [reflexivity |].
  destruct (KuantumKitchen.active_orders k !! Z.to_nat order_idx) as [a |] eqn:Ha;
    [| reflexivity].
  destruct (KuantumKitchen.get_order k a); [| reflexivity].
  destruct (negb (bool_decide _)); [reflexivity |].
  assert (Permutation
            (KuantumKitchen.available_orders k
               ++ delete (Z.to_nat order_idx) (KuantumKitchen.active_orders k)
               ++ (KuantumKitchen.completed_orders k ++ [a])
               ++ KuantumKitchen.failed_orders k)
            (KuantumKitchen.available_orders k ++ KuantumKitchen.active_orders k
               ++ KuantumKitchen.completed_orders k
               ++ KuantumKitchen.failed_orders k)) as Hperm.
  { apply Permutation_app_head.
    rewrite (delete_Permutation _ _ _ Ha) at 2. cbn.
    apply perm_moved. }
  repeat case_match; exact Hperm.
Qed.

Lemma accept_order_sound (order_idx : Z) (k : KuantumKitchen.t) :
  index_sound k -> index_sound (fst (KuantumKitchen.accept_order order_idx k)).
Proof.
  intros Hk. pose proof Hk as ((P1 & P2 & P3) & Hkeys & Hnd & Hval).
  pose proof (lists_accept_order order_idx k) as Hcons. revert Hcons.
  unfold KuantumKitchen.accept_order.
  destruct (negb (KuantumKitchen.valid_index _ _)); [intros _; exact Hk |].
  destruct (KuantumKitchen.available_orders k !! Z.to_nat order_idx) as [a |] eqn:Ha;
    [| intros _; exact Hk].
  unfold KuantumKitchen.get_order.
  destruct (KuantumKitchen.objects k !! a) as [order |] eqn:Ho; [| intros _; exact Hk].
  destruct (_ <=? _); [intros _; exact Hk |].
  cbn [fst]. intros Hcons.
  assert (In a (KuantumKitchen.available_orders k)) as Hin.
  { apply list_elem_of_In. eapply list_elem_of_lookup_2. exact Ha. }
  assert (~ In a (KuantumKitchen.active_orders k)) as Hfresh.
  { unfold all_orders in Hnd. apply NoDup_app in Hnd as (_ & Hdis & _).
    intros Hact. apply (Hdis a); [now apply list_elem_of_In |].
    apply list_elem_of_In, in_or_app. now left. }
  assert (Permutation
            (concat (map snd
               (KuantumKitchen.dd_alter (fun l => l ++ [a]) (Order.timeline order)
                  (KuantumKitchen.timelines k))))
            (KuantumKitchen.active_orders k ++ [a])) as Hent.
  { rewrite dd_alter_append_entries. unfold timeline_entries in P1. now rewrite P1. }
  unfold index_sound, timelines_consistent, keys_unique, store_valid, timeline_entries.
  cbn. repeat split.
  - exact Hent.
  - apply NoDup_app. split; [exact P2 |]. split; [| apply NoDup_singleton].
    intros x Hx [-> | []]%list_elem_of_In. apply Hfresh. now apply list_elem_of_In.
  - intros t l b Htl Hb. apply dd_alter_in in Htl as [Hold | (-> & l0 & -> & Hl0)].
    + exact (P3 t l b Hold Hb).
    + apply in_app_or in Hb as [Hb | [<- | []]]; [| eauto].
      destruct Hl0 as [Hl0 | ->]; [| destruct Hb]. exact (P3 _ l0 b Hl0 Hb).
  - now apply dd_alter_keys.
  - unfold all_orders in Hcons. cbn in Hcons. now rewrite Hcons.
  - unfold all_orders in Hcons. cbn in Hcons. rewrite Hent.
    unfold store_valid, all_orders, timeline_entries in Hval.
    rewrite Forall_app in Hval |- *. destruct Hval as [Hv1 Hv2].
    split; [now rewrite Hcons |].
    rewrite <- P1. apply Forall_app. split; [exact Hv2 |].
    constructor; [| constructor]. now apply lookup_lt_Some in Ho.
Qed.

Lemma index_sound_ext (k k' : KuantumKitchen.t) :
  KuantumKitchen.timelines k' = KuantumKitchen.timelines k ->
  KuantumKitchen.available_orders k' = KuantumKitchen.available_orders k ->
  KuantumKitchen.active_orders k' = KuantumKitchen.active_orders k ->
  KuantumKitchen.completed_orders k' = KuantumKitchen.completed_orders k ->
  KuantumKitchen.failed_orders k' = KuantumKitchen.failed_orders k ->
  KuantumKitchen.objects k' = KuantumKitchen.objects k ->
  index_sound k -> index_sound k'.
Proof.
  unfold index_sound, timelines_consistent, keys_unique, store_valid, all_orders,
    timeline_entries.
  intros -> -> -> -> -> ->. trivial.
Qed.

Lemma filed_right_insert (tls : list (Z * list nat)) (h : list Order.t) (a : nat)
    (o x : Order.t) :
  filed_right tls h -> h !! a = Some o -> Order.timeline x = Order.timeline o ->
  filed_right tls (<[a := x]> h).
Proof.
  intros Hf Ha Hx t l b Htl Hb. destruct (Hf t l b Htl Hb) as (ob & Hob & Ht).
  destruct (decide (a = b)) as [<- | Hne].
  - exists x. split; [| congruence].
    apply list_lookup_insert_eq. now apply lookup_lt_Some in Ha.
  - exists ob. split; [| exact Ht]. now rewrite list_lookup_insert_ne.
Qed.

Lemma entry_of_active (k : KuantumKitchen.t) (a : nat) (order : Order.t) :
  timelines_consistent k ->
  In a (KuantumKitchen.active_orders k) ->
  KuantumKitchen.objects k !! a = Some order ->
  exists l, In (Order.timeline order, l) (KuantumKitchen.timelines k) /\ In a l.
Proof.
  intros (P1 & _ & P3) Hact Ho.
  apply (Permutation_in _ (Permutation_sym P1)) in Hact.
  unfold timeline_entries in Hact. apply in_concat in Hact as (l & Hl & Hal).
  apply in_map_iff in Hl as ([t l'] & <- & Htl). cbn in Hal.
  destruct (P3 t l' a Htl Hal) as (o & Ho' & Ht).
  exists l'. split; [| exact Hal]. congruence.
Qed.

Lemma deliver_order_sound (order_idx : Z) (choices : nat -> ResourceType)
    (k : KuantumKitchen.t) :
  index_sound k ->
  index_sound (fst (KuantumKitchen.deliver_order order_idx choices k)).
Proof.
  intros Hk. pose proof Hk as (Hc & Hkeys & Hnd & Hval).
  pose proof Hc as (P1 & P2 & P3).
  pose proof (lists_deliver_order order_idx choices k) as Hcons. revert Hcons.
  unfold KuantumKitchen.deliver_order.
  destruct (negb (KuantumKitchen.valid_index _ _)); [intros _; exact Hk |].
  destruct (KuantumKitchen.active_orders k !! Z.to_nat order_idx) as [a |] eqn:Ha;
    [| intros _; exact Hk].
  unfold KuantumKitchen.get_order.
  destruct (KuantumKitchen.objects k !! a) as [order |] eqn:Ho; [| intros _; exact Hk].
  destruct (negb (bool_decide _)); [intros _; exact Hk |].
  set (k4 := KuantumKitchen.put_order _ a (Order.set_state order DELIVERED)).
  intros Hcons.
  assert (Permutation (all_orders k4) (all_orders k)) as Hcons4.
  { revert Hcons. repeat case_match; intros Hcons; exact Hcons. }
  clear Hcons.
  assert (index_sound k4) as H4.
  { assert (In a (KuantumKitchen.active_orders k)) as Hact.
    { apply list_elem_of_In. eapply list_elem_of_lookup_2. exact Ha. }
    destruct (entry_of_active k a order Hc Hact Ho) as (l & Hl & Hal).
    pose proof (dd_alter_discard_entries a _ _ l Hkeys Hl Hal) as Hent.
    pose proof (delete_Permutation _ _ _ Ha) as Hdel.
    assert (Permutation
              (concat (map snd
                 (KuantumKitchen.dd_alter (KuantumKitchen.discard a)
                    (Order.timeline order) (KuantumKitchen.timelines k))))
              (delete (Z.to_nat order_idx) (KuantumKitchen.active_orders k)))
      as Hnew.
    { apply (Permutation_cons_inv (a := a)). rewrite <- Hent, <- Hdel. exact P1. }
    unfold index_sound, timelines_consistent, keys_unique, store_valid,
      timeline_entries.
    subst k4. cbn. repeat split.
    - exact Hnew.
    - rewrite Hdel in P2. now inversion P2.
    - apply (filed_right_insert _ _ a order); [| exact Ho | reflexivity].
      intros t l' b Htl Hb.
      apply dd_alter_in in Htl as [Hold | (-> & l0 & -> & Hl0)].
      + exact (P3 t l' b Hold Hb).
      + apply discard_in in Hb. destruct Hl0 as [Hl0 | ->]; [| destruct Hb].
        exact (P3 _ l0 b Hl0 Hb).
    - now apply dd_alter_keys.
    - unfold all_orders in Hcons4. cbn in Hcons4. now rewrite Hcons4.
    - unfold all_orders in Hcons4. cbn in Hcons4.
      unfold store_valid, all_orders, timeline_entries in Hval.
      rewrite Forall_app in Hval |- *. destruct Hval as [Hv1 Hv2].
      rewrite length_insert. split; [now rewrite Hcons4 |].
      rewrite Hent in Hv2. now inversion Hv2. }
  repeat case_match;
    (eapply index_sound_ext; [.. | exact H4]; reflexivity).
Qed.

Lemma dd_alter_keys_kept (P : Z -> Prop) (f : list nat -> list nat) (key : Z)
    (d : list (Z * list nat)) :
  P key -> Forall P (map fst d) ->
  Forall P (map fst (KuantumKitchen.dd_alter f key d)).
Proof.
  intros Hkey. induction d as [| [k' l'] d IH]; cbn; intros Hd.
  - constructor; [exact Hkey | constructor].
  - inversion Hd as [| ? ? Hk Hd']; subst.
    destruct (key =? k'); cbn; constructor; auto.
Qed.

(** The reassignment loop rebuilds a sound index: started with the orders
    still to file in [rest], it ends with every order filed once, under
    the timeline it has just been given. *)
Lemma shift_loop_sound (P : Z -> Prop) (draws : nat -> Z) (E : list nat)
    (rest : list nat) (i : nat) (k : KuantumKitchen.t) :
  (forall j, P (draws j)) ->
  NoDup E ->
  Permutation (timeline_entries k ++ rest) E ->
  keys_unique k ->
  filed_right (KuantumKitchen.timelines k) (KuantumKitchen.objects k) ->
  Forall (fun a => (a < length (KuantumKitchen.objects k))%nat) rest ->
  Forall P (map fst (KuantumKitchen.timelines k)) ->
  let k' := fst (KuantumKitchen.shift_loop draws i rest k) in
  Permutation (timeline_entries k') E
  /\ keys_unique k'
  /\ filed_right (KuantumKitchen.timelines k') (KuantumKitchen.objects k')
  /\ length (KuantumKitchen.objects k') = length (KuantumKitchen.objects k)
  /\ Forall P (map fst (KuantumKitchen.timelines k')).
Proof.
  intros Hdraws HE. revert i k.
  induction rest as [| a rest IH]; intros i k Hperm Hkeys Hfiled Hvalid HP; cbn.
  - rewrite app_nil_r in Hperm. auto.
  - inversion Hvalid as [| ? ? Ha Hrest]; subst.
    unfold KuantumKitchen.get_order.
    destruct (KuantumKitchen.objects k !! a) as [order |] eqn:Ho;
      [| apply lookup_ge_None in Ho; lia].
    match goal with
    | |- context [KuantumKitchen.shift_loop draws (S i) rest ?x] =>
        set (k1 := x)
    end.
    assert (length (KuantumKitchen.objects k1) = length (KuantumKitchen.objects k))
      as Hlen by (subst k1; cbn; apply length_insert).
    destruct (IH (S i) k1) as (H1 & H2 & H3 & H4 & H5).
    + subst k1. unfold timeline_entries. cbn.
      rewrite dd_alter_append_entries, <- app_assoc. exact Hperm.
    + subst k1. unfold keys_unique. cbn. now apply dd_alter_keys.
    + assert (~ In a (timeline_entries k)) as Hfresh.
      { rewrite <- Hperm in HE. apply NoDup_app in HE as (_ & Hdis & _).
        intros Hin. apply (Hdis a); [now apply list_elem_of_In | left]. }
      subst k1. cbn. intros t l b Htl Hb.
      apply dd_alter_in in Htl as [Hold | (-> & l0 & -> & Hl0)].
      * destruct (Hfiled t l b Hold Hb) as (o & Hob & Ht).
        exists o. split; [| exact Ht]. rewrite list_lookup_insert_ne; [exact Hob |].
        intros <-. apply Hfresh. unfold timeline_entries.
        apply in_concat. exists l. split; [| exact Hb].
        change l with (snd (t, l)). now apply in_map.
      * apply in_app_or in Hb as [Hb | [<- | []]].
        -- destruct Hl0 as [Hl0 | ->]; [| destruct Hb].
           destruct (Hfiled _ l0 b Hl0 Hb) as (o & Hob & Ht).
           exists o. split; [| exact Ht].
           rewrite list_lookup_insert_ne; [exact Hob |].
           intros <-. apply Hfresh. unfold timeline_entries.
           apply in_concat. exists l0. split; [| exact Hb].
           change l0 with (snd (Order.timeline (Order.set_timeline order (draws i)), l0)).
           now apply in_map.
        -- eexists. split; [apply list_lookup_insert_eq; lia | reflexivity].
    + rewrite Hlen. exact Hrest.
    + subst k1. cbn. apply dd_alter_keys_kept; [apply Hdraws | exact HP].
    + repeat split; try assumption. now rewrite H4.
Qed.

Lemma put_order_sound (k : KuantumKitchen.t) (a : nat) (o x : Order.t) :
  index_sound k -> KuantumKitchen.objects k !! a = Some o ->
  Order.timeline x = Order.timeline o ->
  index_sound (KuantumKitchen.put_order k a x).
Proof.
  intros ((P1 & P2 & P3) & Hkeys & Hnd & Hval) Ho Hx.
  unfold index_sound, timelines_consistent, keys_unique, store_valid, all_orders,
    timeline_entries in *.
  cbn. repeat split; try assumption.
  - exact (filed_right_insert _ _ a o x P3 Ho Hx).
  - now rewrite length_insert.
Qed.

Lemma collapse_state_timeline (impl : Py.SumImpl) (o : Order.t)
    (bonus rand : float) :
  Order.timeline (fst (Order.collapse_state impl o bonus rand)) = Order.timeline o.
Proof.
  unfold Order.collapse_state.
  repeat case_match; simplify_eq; reflexivity.
Qed.

Lemma trigger_special_event_sound (P : Z -> Prop) (d : KuantumKitchen.EventDraws)
    (k : KuantumKitchen.t) :
  (forall j, P (KuantumKitchen.draw_timelines d j)) ->
  index_sound k ->
  let k' := fst (KuantumKitchen.trigger_special_event d k) in
  index_sound k'
  /\ (KuantumKitchen.draw_event d = TIMELINE_SHIFT ->
      Forall P (map fst (KuantumKitchen.timelines k'))).
Proof.
  intros Hdraws Hk. pose proof Hk as ((P1 & P2 & P3) & Hkeys & Hnd & Hval).
  pose proof (lists_trigger_special_event d k) as Hlists. revert Hlists.
  unfold KuantumKitchen.trigger_special_event.
  destruct (KuantumKitchen.draw_event d); cbn zeta; intros Hlists.
  - split; [| discriminate].
    eapply index_sound_ext; [.. | exact Hk]; reflexivity.
  - destruct Hlists as (L1 & L2 & L3 & L4 & _).
    match goal with
    | |- context [KuantumKitchen.shift_loop ?f ?i ?l ?x] =>
        destruct (shift_loop_sound P f (timeline_entries k) l i x)
          as (H1 & H2 & H3 & H4 & H5);
        [exact Hdraws | | | | | | |]
    end.
    + unfold timeline_entries. rewrite P1. exact P2.
    + reflexivity.
    + unfold keys_unique. cbn. constructor.
    + intros t l a [].
    + cbn. unfold store_valid in Hval. rewrite Forall_app in Hval. apply Hval.
    + constructor.
    + cbn [fst] in *. split; [| intros _; exact H5].
      change (length (KuantumKitchen.objects (KuantumKitchen.set_timelines _ _)))
        with (length (KuantumKitchen.objects k)) in H4.
      unfold index_sound, timelines_consistent, store_valid, all_orders.
      rewrite L1, L2, L3, L4, H4. repeat split; try assumption.
      * now rewrite H1.
      * unfold store_valid, all_orders in Hval.
        rewrite Forall_app in Hval |- *. destruct Hval as [Hv1 Hv2].
        split; [exact Hv1 |]. now rewrite H1.
  - split; [| discriminate]. clear Hlists.
    set (k1 := KuantumKitchen.set_special_events k _).
    assert (index_sound k1) as Hk1
      by (eapply index_sound_ext; [.. | exact Hk]; reflexivity).
    clearbody k1.
    destruct (KuantumKitchen.active_orders k1) as [| a0 l]; [exact Hk1 |].
    destruct ((a0 :: l) !! _) as [a |]; [| exact Hk1].
    unfold KuantumKitchen.get_order.
    destruct (KuantumKitchen.objects k1 !! a) as [order |] eqn:Ho; [| exact Hk1].
    destruct (bool_decide (Order.state order = SUPERPOSITION)); [| exact Hk1].
    cbn [fst]. now apply (put_order_sound k1 a order).
  - split; [| discriminate].
    eapply index_sound_ext; [.. | exact Hk]; reflexivity.
Qed.

Lemma advance_day_sound (rand : float) (d : KuantumKitchen.EventDraws)
    (k : KuantumKitchen.t) :
  index_sound k -> index_sound (fst (KuantumKitchen.advance_day rand d k)).
Proof.
  intros Hk. unfold KuantumKitchen.advance_day.
  assert (index_sound (fst (if PrimFloat.ltb rand 0.3
                            then KuantumKitchen.trigger_special_event d k
                            else (k, Py.Ret tt)))) as H.
  { destruct (PrimFloat.ltb rand 0.3); [| exact Hk].
    now apply (trigger_special_event_sound (fun _ => True)). }
  destruct (if PrimFloat.ltb rand 0.3
            then KuantumKitchen.trigger_special_event d k
            else (k, Py.Ret tt)) as [k1 [[] | e]]; cbn [fst] in H; [| exact H].
  destruct (Py.floordiv _ _); cbn [fst];
    (eapply index_sound_ext; [.. | exact H]; reflexivity).
Qed.

Lemma prepare_order_sound (impl : Py.SumImpl) (order_idx : Z)
    (puzzle_draws : MiniPuzzle.Draws) (inputs : nat -> option MiniPuzzle.value)
    (rand : float) (refund_resource : ResourceType) (k : KuantumKitchen.t) :
  index_sound k ->
  index_sound
    (fst (KuantumKitchen.prepare_order impl order_idx puzzle_draws inputs rand
            refund_resource k)).
Proof.
  intros Hk. unfold KuantumKitchen.prepare_order.
  destruct (negb (KuantumKitchen.valid_index _ _)); [exact Hk |].
  destruct (KuantumKitchen.active_orders k !! Z.to_nat order_idx) as [a |];
    [| exact Hk].
  unfold KuantumKitchen.get_order.
  destruct (KuantumKitchen.objects k !! a) as [order |] eqn:Ho; [| exact Hk].
  destruct (negb (bool_decide _)); [exact Hk |].
  destruct (KuantumKitchen.first_shortage _ _); [exact Hk |].
  cbn zeta.
  match goal with
  | |- context [Order.collapse_state impl order ?b rand] =>
      pose proof (collapse_state_timeline impl order b rand) as Ht;
      destruct (Order.collapse_state impl order b rand) as [order1 collapsed]
  end.
  cbn [fst] in Ht.
  pose proof (put_order_sound k a order order1 Hk Ho Ht) as H2.
  repeat case_match; simplify_eq; cbn [fst];
    (eapply index_sound_ext; [.. | exact H2]; reflexivity).
Qed.

Lemma sublist_sound (k k' : KuantumKitchen.t) :
  KuantumKitchen.timelines k' = KuantumKitchen.timelines k ->
  KuantumKitchen.active_orders k' = KuantumKitchen.active_orders k ->
  KuantumKitchen.completed_orders k' = KuantumKitchen.completed_orders k ->
  KuantumKitchen.failed_orders k' = KuantumKitchen.failed_orders k ->
  KuantumKitchen.objects k' = KuantumKitchen.objects k ->
  sublist (KuantumKitchen.available_orders k') (KuantumKitchen.available_orders k) ->
  index_sound k -> index_sound k'.
Proof.
  intros Ht Ha Hc Hf Ho Hsub (Hcons & Hkeys & Hnd & Hval).
  assert (sublist (all_orders k') (all_orders k)) as Hall.
  { unfold all_orders. rewrite Ha, Hc, Hf. now apply sublist_app. }
  unfold index_sound, timelines_consistent, keys_unique, store_valid,
    timeline_entries in *.
  rewrite Ht, Ha, Ho. repeat split; try apply Hcons; try assumption.
  - eapply sublist_NoDup; eassumption.
  - rewrite Forall_app in Hval |- *. destruct Hval as [Hv1 Hv2].
    split; [| exact Hv2]. rewrite Forall_forall in Hv1 |- *.
    intros x Hx. apply Hv1. eapply elem_of_sublist; eassumption.
Qed.

Lemma reject_order_sound (order_idx : Z) (k : KuantumKitchen.t) :
  index_sound k -> index_sound (fst (KuantumKitchen.reject_order order_idx k)).
Proof.
  intros Hk. unfold KuantumKitchen.reject_order.
  destruct (negb (KuantumKitchen.valid_index _ _)); [exact Hk |].
  cbn [fst]. eapply sublist_sound; [.. | exact Hk]; try reflexivity.
  cbn. apply sublist_delete.
Qed.

Lemma end_day_sound (k : KuantumKitchen.t) :
  index_sound k -> index_sound (KuantumKitchen.end_day k).
Proof.
  intros (_ & _ & Hnd & Hval).
  assert (sublist (all_orders (KuantumKitchen.end_day k)) (all_orders k)) as Hall.
  { unfold all_orders. cbn. apply sublist_app; [reflexivity |].
    apply sublist_inserts_l. reflexivity. }
  unfold index_sound, timelines_consistent, keys_unique, store_valid,
    timeline_entries in *.
  cbn [KuantumKitchen.end_day KuantumKitchen.timelines KuantumKitchen.active_orders
       KuantumKitchen.set_timelines KuantumKitchen.set_active_orders map concat].
  rewrite app_nil_r. repeat split; try constructor.
  - intros t l a [].
  - eapply sublist_NoDup; eassumption.
  - rewrite Forall_app in Hval. destruct Hval as [Hv _].
    rewrite Forall_forall in Hv |- *.
    intros x Hx. apply Hv. eapply elem_of_sublist; eassumption.
Qed.

Lemma generate_loop_sound (impl : Py.SumImpl) (draws : nat -> Order.Draws)
    (i n : nat) (k : KuantumKitchen.t) :
  index_sound k ->
  index_sound (fst (KuantumKitchen.generate_loop impl draws i n k)).
Proof.
  revert i k. induction n as [| n IH]; intros i k Hk; cbn; [exact Hk |].
  destruct (Order.init impl (KuantumKitchen.day k) (draws i)) as [o |]; [| exact Hk].
  apply IH. clear IH. destruct Hk as ((P1 & P2 & P3) & Hkeys & Hnd & Hval).
  unfold index_sound, timelines_consistent, keys_unique, store_valid, all_orders,
    timeline_entries in *.
  cbn. repeat split; try assumption.
  - intros t l a Htl Ha. destruct (P3 t l a Htl Ha) as (x & Hx & Hxt).
    exists x. split; [| exact Hxt]. now apply lookup_app_l_Some.
  - rewrite <- app_assoc. cbn. apply NoDup_app in Hnd as (N1 & N2 & N3).
    apply NoDup_app. split; [exact N1 |]. split.
    + intros x Hx [-> | Hin]%elem_of_cons; [| now apply (N2 x)].
      rewrite Forall_app in Hval. destruct Hval as [Hv _].
      rewrite Forall_forall in Hv. specialize (Hv _ (proj2 (elem_of_app _ _ _) (or_introl Hx))).
      lia.
    + constructor; [| exact N3]. intros Hin.
      rewrite Forall_app in Hval. destruct Hval as [Hv _].
      rewrite Forall_forall in Hv. specialize (Hv _ (proj2 (elem_of_app _ _ _) (or_intror Hin))).
      lia.
  - rewrite Forall_forall in Hval |- *. intros x Hx.
    rewrite length_app. cbn. specialize (Hval x).
    rewrite !elem_of_app in Hval. rewrite !elem_of_app, elem_of_cons, elem_of_nil in Hx.
    intuition lia.
Qed.

Lemma generate_orders_sound (impl : Py.SumImpl) (draws : nat -> Order.Draws)
    (k : KuantumKitchen.t) :
  index_sound k ->
  index_sound (fst (KuantumKitchen.generate_orders impl draws k)).
Proof.
  intros Hk. unfold KuantumKitchen.generate_orders. cbn zeta.
  apply generate_loop_sound.
  eapply sublist_sound; [.. | exact Hk]; try reflexivity.
  cbn. apply sublist_nil_l.
Qed.

Lemma init_sound : index_sound KuantumKitchen.init.
Proof.
  unfold index_sound, timelines_consistent, keys_unique, store_valid, all_orders,
    timeline_entries.
  cbn. repeat split; try constructor. intros tl l a [].
Qed.

Lemma accepted_kitchen_sound : index_sound accepted_kitchen.
Proof.
  apply (accept_order_sound 0), (generate_orders_sound Py.LeftToRight), init_sound.
Qed.

(** X6: as long as time does not pass, the index of timelines is
    maintained.  If the index lists exactly the active orders, each once
    and under its own timeline id, no timeline id is a key twice, no order
    is in two of the four lists or twice in one, and every reference is to
    an order of the store, then the same holds after any operation other
    than [update_time], whether the operation returned or raised. *)
Theorem index_stays_sound (impl : Py.SumImpl) (op : Operation)
    (k : KuantumKitchen.t) :
  keeps_index op -> index_sound k -> index_sound (run impl op k).
Proof.
  intros Hop Hk. destruct op; cbn [keeps_index run] in *; try contradiction.
  - now apply generate_orders_sound.
  - now apply accept_order_sound.
  - now apply reject_order_sound.
  - now apply prepare_order_sound.
  - now apply deliver_order_sound.
  - now apply advance_day_sound.
  - now apply (trigger_special_event_sound (fun _ => True)).
  - now apply end_day_sound.
Qed.

Lemma index_stays_sound_witness :
  index_sound (run Py.LeftToRight (TriggerSpecialEvent (shift_to 2)) accepted_kitchen).
Proof.
  exact (index_stays_sound Py.LeftToRight (TriggerSpecialEvent (shift_to 2))
           accepted_kitchen I accepted_kitchen_sound).
Defined.

Lemma shift_loop_returns (draws : nat -> Z) (i : nat) (orders : list nat)
    (k : KuantumKitchen.t) :
  Forall (fun a => (a < length (KuantumKitchen.objects k))%nat) orders ->
  snd (KuantumKitchen.shift_loop draws i orders k) = Py.Ret tt.
Proof.
  revert i k. induction orders as [| a orders IH]; intros i k Hval; cbn;
    [reflexivity |].
  inversion Hval as [| ? ? Ha Hrest]; subst.
  unfold KuantumKitchen.get_order.
  destruct (KuantumKitchen.objects k !! a) as [order |] eqn:Ho;
    [| apply lookup_ge_None in Ho; lia].
  apply IH. cbn. now rewrite length_insert.
Qed.

(** X7: a Timeline Shift on a maintained index, with every draw
    [randint(1, min(2 + day // 3, 5))] in its range, returns, and afterwards
    every active order carries a timeline id between 1 and
    [min(2 + day // 3, 5)] and is listed in the index under that id. *)
Theorem timeline_shift_files_in_range (d : KuantumKitchen.EventDraws)
    (k : KuantumKitchen.t) :
  KuantumKitchen.draw_event d = TIMELINE_SHIFT ->
  timeline_draws_in_range d k ->
  index_sound k ->
  snd (KuantumKitchen.trigger_special_event d k) = Py.Ret tt
  /\ forall a,
       In a (KuantumKitchen.active_orders
               (fst (KuantumKitchen.trigger_special_event d k))) ->
       exists o l,
         KuantumKitchen.objects (fst (KuantumKitchen.trigger_special_event d k)) !! a
         = Some o
         /\ 1 <= Order.timeline o <= Z.min (2 + KuantumKitchen.day k / 3) 5
         /\ In (Order.timeline o, l)
              (KuantumKitchen.timelines
                 (fst (KuantumKitchen.trigger_special_event d k)))
         /\ In a l.
Proof.
  intros Hev Hdraws Hk. split.
  - destruct Hk as (_ & _ & _ & Hval).
    unfold store_valid in Hval. rewrite Forall_app in Hval. destruct Hval as [_ Hval].
    unfold KuantumKitchen.trigger_special_event. rewrite Hev. cbn zeta.
    apply shift_loop_returns. exact Hval.
  - destruct (trigger_special_event_sound
                (fun tl => 1 <= tl <= Z.min (2 + KuantumKitchen.day k / 3) 5) d k
                Hdraws Hk) as (((P1 & _ & P3) & _) & Hkeys).
    specialize (Hkeys Hev). intros a Ha.
    apply (Permutation_in _ (Permutation_sym P1)) in Ha.
    unfold timeline_entries in Ha. apply in_concat in Ha as (l & Hl & Hal).
    apply in_map_iff in Hl as ([t l'] & <- & Htl). cbn in Hal.
    destruct (P3 t l' a Htl Hal) as (o & Ho & Ht).
    exists o, l'. subst t. repeat split; try assumption;
      rewrite Forall_forall in Hkeys;
      apply (Hkeys (Order.timeline o)), list_elem_of_In;
      change (Order.timeline o) with (fst (Order.timeline o, l'));
      now apply in_map.
Qed.

Lemma timeline_shift_files_in_range_witness :
  snd (KuantumKitchen.trigger_special_event (shift_to 2) accepted_kitchen) = Py.Ret tt
  /\ forall a,
       In a (KuantumKitchen.active_orders
               (fst (KuantumKitchen.trigger_special_event (shift_to 2)
                       accepted_kitchen))) ->
       exists o l,
         KuantumKitchen.objects
           (fst (KuantumKitchen.trigger_special_event (shift_to 2) accepted_kitchen))
         !! a = Some o
         /\ 1 <= Order.timeline o
            <= Z.min (2 + KuantumKitchen.day accepted_kitchen / 3) 5
         /\ In (Order.timeline o, l)
              (KuantumKitchen.timelines
                 (fst (KuantumKitchen.trigger_special_event (shift_to 2)
                         accepted_kitchen)))
         /\ In a l.
Proof.
  refine (timeline_shift_files_in_range (shift_to 2) accepted_kitchen _ _
            accepted_kitchen_sound).
  - reflexivity.
  - intros i. vm_compute. split; discriminate.
Defined.

(** ** The fill-in puzzles *)

Lemma masked_blank_out (blanks : nat -> nat) (n round : nat)
    (sequence : list (option MiniPuzzle.item)) (solution : list MiniPuzzle.item) :
  Forall2 (fun s x => s = None \/ s = Some x) sequence solution ->
  Forall2 (fun s x => s = None \/ s = Some x)
    (MiniPuzzle.blank_out blanks round n sequence) solution.
Proof.
  revert round sequence. induction n as [| n IH]; intros round sequence H; cbn;
    [exact H |].
  apply IH. clear IH. generalize (blanks round) as i.
  induction H as [| s x l k Hs H IH]; intros i; [constructor |].
  destruct i; cbn; constructor; auto.
Qed.

Lemma masked_solution (solution : list MiniPuzzle.item) :
  Forall2 (fun s x => s = None \/ s = Some x) (map Some solution) solution.
Proof. induction solution; cbn; constructor; auto. Qed.

Lemma missing_length (sequence : list (option MiniPuzzle.item))
    (solution : list MiniPuzzle.item) :
  Forall2 (fun s x => s = None \/ s = Some x) sequence solution ->
  length (missing sequence solution) = MiniPuzzle.count_none sequence.
Proof.
  unfold MiniPuzzle.count_none.
  induction 1 as [| s x l k [-> | ->] H IH]; cbn [missing]; [reflexivity | |].
  - rewrite filter_cons_True by reflexivity. cbn [length]. now rewrite IH.
  - rewrite filter_cons_False by discriminate. exact IH.
Qed.

Lemma fill_missing (sequence : list (option MiniPuzzle.item))
    (solution answer : list MiniPuzzle.item) :
  Forall2 (fun s x => s = None \/ s = Some x) sequence solution ->
  length answer = MiniPuzzle.count_none sequence ->
  MiniPuzzle.fill sequence answer = map Some solution <->
  answer = missing sequence solution.
Proof.
  unfold MiniPuzzle.count_none. intros H. revert answer.
  induction H as [| s x l k [-> | ->] H IH]; intros answer;
    cbn [missing MiniPuzzle.fill map].
  - destruct answer; [tauto | discriminate].
  - rewrite filter_cons_True by reflexivity. cbn [length].
    destruct answer as [| a answer]; [discriminate |]. intros [= Hlen].
    specialize (IH answer Hlen). split.
    + intros [= -> Hf]. f_equal. now apply IH.
    + intros [= -> ->]. f_equal. now apply IH.
  - rewrite filter_cons_False by discriminate. intros Hlen.
    specialize (IH answer Hlen). split.
    + intros [= Hf]. now apply IH.
    + intros ->. f_equal. now apply IH.
Qed.

(** X8: a Sequence or Pattern puzzle accepts one answer only.  Whatever the
    draws, [check_solution] returns [True] on a list exactly when the list
    is the values that were blanked out of the solution, in the order of
    their positions; a list of any other length or content is rejected. *)
Theorem fill_in_puzzle_accepts_missing (type : MiniPuzzleType) (difficulty : Z)
    (d : MiniPuzzle.Draws) (answer : list MiniPuzzle.item) :
  fill_in type ->
  exists solution,
    MiniPuzzle.solution (MiniPuzzle.setup_puzzle type difficulty d)
    = MiniPuzzle.VList solution
    /\ MiniPuzzle.check_solution (MiniPuzzle.setup_puzzle type difficulty d)
         (MiniPuzzle.VList answer)
       = Py.Ret
           (bool_decide
              (answer
               = missing
                   (MiniPuzzle.sequence (MiniPuzzle.setup_puzzle type difficulty d))
                   solution)).
Proof.
  intros Htype.
  assert (exists solution n,
            MiniPuzzle.solution (MiniPuzzle.setup_puzzle type difficulty d)
            = MiniPuzzle.VList solution
            /\ MiniPuzzle.sequence (MiniPuzzle.setup_puzzle type difficulty d)
               = MiniPuzzle.blank_out (MiniPuzzle.draw_blanks d) 0 n
                   (map Some solution)
            /\ (MiniPuzzle.type (MiniPuzzle.setup_puzzle type difficulty d) = SEQUENCE
                \/ MiniPuzzle.type (MiniPuzzle.setup_puzzle type difficulty d)
                   = PATTERN))
    as (solution & n & Hsol & Hseq & Hty).
  { destruct Htype as [-> | ->]; cbn; eauto 6. }
  exists solution. split; [exact Hsol |].
  pose proof (masked_blank_out (MiniPuzzle.draw_blanks d) n 0 _ _
                (masked_solution solution)) as Hmask.
  rewrite <- Hseq in Hmask.
  unfold MiniPuzzle.check_solution. rewrite Hsol.
  assert ((if negb (length answer
                    =? MiniPuzzle.count_none
                         (MiniPuzzle.sequence
                            (MiniPuzzle.setup_puzzle type difficulty d)))%nat
           then Py.Ret false
           else Py.Ret
                  (bool_decide
                     (MiniPuzzle.fill
                        (MiniPuzzle.sequence
                           (MiniPuzzle.setup_puzzle type difficulty d)) answer
                      = map Some solution)))
          = Py.Ret
              (bool_decide
                 (answer
                  = missing
                      (MiniPuzzle.sequence
                         (MiniPuzzle.setup_puzzle type difficulty d))
                      solution))) as Hres.
  { destruct (Nat.eqb_spec (length answer)
                (MiniPuzzle.count_none
                   (MiniPuzzle.sequence (MiniPuzzle.setup_puzzle type difficulty d))))
      as [Hlen | Hlen]; cbn [negb]; f_equal.
    - apply bool_decide_ext. now apply fill_missing.
    - symmetry. apply bool_decide_eq_false. intros ->.
      apply Hlen. now apply missing_length. }
  destruct Hty as [-> | ->]; exact Hres.
Qed.

Lemma fill_in_puzzle_accepts_missing_witness :
  exists solution,
    MiniPuzzle.solution (MiniPuzzle.setup_puzzle SEQUENCE 1 x_draws)
    = MiniPuzzle.VList solution
    /\ MiniPuzzle.check_solution (MiniPuzzle.setup_puzzle SEQUENCE 1 x_draws)
         (MiniPuzzle.VList [MiniPuzzle.IInt 3; MiniPuzzle.IInt 3])
       = Py.Ret
           (bool_decide
              ([MiniPuzzle.IInt 3; MiniPuzzle.IInt 3]
               = missing
                   (MiniPuzzle.sequence (MiniPuzzle.setup_puzzle SEQUENCE 1 x_draws))
                   solution)).
Proof.
  exact (fill_in_puzzle_accepts_missing SEQUENCE 1 x_draws
           [MiniPuzzle.IInt 3; MiniPuzzle.IInt 3] (or_introl eq_refl)).
Defined.

(** ** Delivering *)

Lemma total_res_set (d : ResourceDict) (r : ResourceType) (v : Z) :
  total_resources (res_set d r v) = total_resources d + (v - res_get d r).
Proof. unfold total_resources. destruct r; cbn; lia. Qed.

Lemma reward_loop_total (choices : nat -> ResourceType) (i n : nat)
    (resources : ResourceDict) :
  total_resources (KuantumKitchen.reward_loop choices i n resources)
  = total_resources resources + Z.of_nat n.
Proof.
  revert i resources. induction n as [| n IH]; intros i resources;
    cbn [KuantumKitchen.reward_loop]; [lia |].
  rewrite IH, total_res_set. lia.
Qed.

Lemma reward_loop_grows (choices : nat -> ResourceType) (i n : nat)
    (resources : ResourceDict) (r : ResourceType) :
  res_get resources r <= res_get (KuantumKitchen.reward_loop choices i n resources) r.
Proof.
  revert i resources. induction n as [| n IH]; intros i resources;
    cbn [KuantumKitchen.reward_loop]; [lia |].
  etransitivity; [| apply IH].
  destruct (choices i), r; cbn; lia.
Qed.

(** X9: delivering a collapsed order whose outcome is recorded succeeds.
    The order leaves the active list for the end of the completed list and
    becomes DELIVERED; the kitchen gains [satisfaction // 20] resource
    units in all (none when that is not positive), spread over the kinds
    drawn, so no balance drops; the score and the two meters stay. *)
Theorem deliver_order_rewards (order_idx : Z) (choices : nat -> ResourceType)
    (k : KuantumKitchen.t) (a : nat) (order : Order.t) (r : nat)
    (outcome : Outcome) :
  0 <= order_idx ->
  KuantumKitchen.active_orders k !! Z.to_nat order_idx = Some a ->
  KuantumKitchen.objects k !! a = Some order ->
  Order.state order = COLLAPSED ->
  Order.actual_outcome order = Some r ->
  Order.heap order !! r = Some outcome ->
  (exists message,
     snd (KuantumKitchen.deliver_order order_idx choices k) = Py.Ret (true, message))
  /\ KuantumKitchen.active_orders (fst (KuantumKitchen.deliver_order order_idx choices k))
     = delete (Z.to_nat order_idx) (KuantumKitchen.active_orders k)
  /\ KuantumKitchen.completed_orders
       (fst (KuantumKitchen.deliver_order order_idx choices k))
     = KuantumKitchen.completed_orders k ++ [a]
  /\ KuantumKitchen.objects (fst (KuantumKitchen.deliver_order order_idx choices k)) !! a
     = Some (Order.set_state order DELIVERED)
  /\ total_resources
       (KuantumKitchen.resources (fst (KuantumKitchen.deliver_order order_idx choices k)))
     = total_resources (KuantumKitchen.resources k)
       + Z.max 0 (satisfaction outcome / 20)
  /\ (forall kind,
        res_get (KuantumKitchen.resources k) kind
        <= res_get
             (KuantumKitchen.resources
                (fst (KuantumKitchen.deliver_order order_idx choices k))) kind)
  /\ KuantumKitchen.score (fst (KuantumKitchen.deliver_order order_idx choices k))
     = KuantumKitchen.score k
  /\ KuantumKitchen.customer_satisfaction
       (fst (KuantumKitchen.deliver_order order_idx choices k))
     = KuantumKitchen.customer_satisfaction k
  /\ KuantumKitchen.reality_stability
       (fst (KuantumKitchen.deliver_order order_idx choices k))
     = KuantumKitchen.reality_stability k.
Proof.
  intros Hidx Ha Ho Hs Hr Hout.
  pose proof (lookup_lt_Some _ _ _ Ha) as Hlt.
  pose proof (lookup_lt_Some _ _ _ Ho) as Hlta.
  unfold KuantumKitchen.deliver_order, KuantumKitchen.valid_index.
  replace (order_idx <? 0) with false by (symmetry; apply Z.ltb_ge; lia).
  replace (Z.of_nat (length (KuantumKitchen.active_orders k)) <=? order_idx)
    with false by (symmetry; apply Z.leb_gt; lia).
  cbn [orb negb]. rewrite Ha. unfold KuantumKitchen.get_order. rewrite Ho, Hs.
  rewrite bool_decide_eq_true_2 by reflexivity. cbn [negb].
  cbn [Order.actual_outcome Order.set_state Order.heap]. rewrite Hr.
  unfold Order.deref. rewrite Hout.
  destruct (Z.ltb_spec 0 (satisfaction outcome / 20)) as [Hpos | Hneg]; cbn.
  - rewrite reward_loop_total, Z2Nat.id by lia.
    repeat split; eauto using reward_loop_grows; try lia.
    apply list_lookup_insert_eq. exact Hlta.
  - repeat split; eauto; try lia.
    apply list_lookup_insert_eq. exact Hlta.
Qed.

Lemma deliver_order_rewards_witness :
  (exists message,
     snd (KuantumKitchen.deliver_order 0 (fun _ => TIMELINE_TOKEN) prepared_kitchen)
     = Py.Ret (true, message))
  /\ KuantumKitchen.active_orders
       (fst (KuantumKitchen.deliver_order 0 (fun _ => TIMELINE_TOKEN) prepared_kitchen))
     = delete (Z.to_nat 0) (KuantumKitchen.active_orders prepared_kitchen)
  /\ KuantumKitchen.completed_orders
       (fst (KuantumKitchen.deliver_order 0 (fun _ => TIMELINE_TOKEN) prepared_kitchen))
     = KuantumKitchen.completed_orders prepared_kitchen ++ [0%nat]
  /\ KuantumKitchen.objects
       (fst (KuantumKitchen.deliver_order 0 (fun _ => TIMELINE_TOKEN) prepared_kitchen))
     !! 0%nat
     = Some (Order.set_state collapsed_burger DELIVERED)
  /\ total_resources
       (KuantumKitchen.resources
          (fst (KuantumKitchen.deliver_order 0 (fun _ => TIMELINE_TOKEN)
                  prepared_kitchen)))
     = total_resources (KuantumKitchen.resources prepared_kitchen)
       + Z.max 0 (satisfaction good_burger / 20)
  /\ (forall kind,
        res_get (KuantumKitchen.resources prepared_kitchen) kind
        <= res_get
             (KuantumKitchen.resources
                (fst (KuantumKitchen.deliver_order 0 (fun _ => TIMELINE_TOKEN)
                        prepared_kitchen))) kind)
  /\ KuantumKitchen.score
       (fst (KuantumKitchen.deliver_order 0 (fun _ => TIMELINE_TOKEN) prepared_kitchen))
     = KuantumKitchen.score prepared_kitchen
  /\ KuantumKitchen.customer_satisfaction
       (fst (KuantumKitchen.deliver_order 0 (fun _ => TIMELINE_TOKEN) prepared_kitchen))
     = KuantumKitchen.customer_satisfaction prepared_kitchen
  /\ KuantumKitchen.reality_stability
       (fst (KuantumKitchen.deliver_order 0 (fun _ => TIMELINE_TOKEN) prepared_kitchen))
     = KuantumKitchen.reality_stability prepared_kitchen.
Proof.
  refine (deliver_order_rewards 0 (fun _ => TIMELINE_TOKEN) prepared_kitchen 0
            collapsed_burger 1 good_burger _ _ _ _ _ _);
    first [lia | vm_compute; reflexivity].
Defined.

(** ** Preparing, then delivering *)

Lemma deliver_order_succeeds (order_idx : Z) (choices : nat -> ResourceType)
    (k : KuantumKitchen.t) (a : nat) (order : Order.t) (r : nat)
    (outcome : Outcome) :
  KuantumKitchen.valid_index order_idx (KuantumKitchen.active_orders k) = true ->
  KuantumKitchen.active_orders k !! Z.to_nat order_idx = Some a ->
  KuantumKitchen.objects k !! a = Some order ->
  Order.state order = COLLAPSED ->
  Order.actual_outcome order = Some r ->
  Order.heap order !! r = Some outcome ->
  exists message k',
    KuantumKitchen.deliver_order order_idx choices k = (k', Py.Ret (true, message))
    /\ KuantumKitchen.objects k' !! a = Some (Order.set_state order DELIVERED)
    /\ KuantumKitchen.completed_orders k' = KuantumKitchen.completed_orders k ++ [a].
Proof.
  intros Hv Ha Ho Hs Hr Hout. pose proof (lookup_lt_Some _ _ _ Ho) as Hlt.
  unfold KuantumKitchen.deliver_order. rewrite Hv. cbn [negb]. rewrite Ha.
  unfold KuantumKitchen.get_order. rewrite Ho, Hs.
  rewrite bool_decide_eq_true_2 by reflexivity. cbn [negb].
  cbn [Order.actual_outcome Order.set_state Order.heap]. rewrite Hr.
  unfold Order.deref. rewrite Hout.
  destruct (0 <? satisfaction outcome / 20); do 2 eexists;
    (split; [reflexivity |]); cbn; (split; [| reflexivity]);
    now apply list_lookup_insert_eq.
Qed.

(** X10: an order that [prepare_order] has prepared can be delivered.  When
    [prepare_order] returns [True] for an index, [deliver_order] called
    next with the same index returns [True] too, and the order is then
    DELIVERED and the last of the completed orders. *)
Theorem prepared_order_delivers (impl : Py.SumImpl) (order_idx : Z)
    (puzzle_draws : MiniPuzzle.Draws) (inputs : nat -> option MiniPuzzle.value)
    (rand : float) (refund_resource : ResourceType)
    (choices : nat -> ResourceType) (k k' : KuantumKitchen.t) (message : string) :
  KuantumKitchen.prepare_order impl order_idx puzzle_draws inputs rand
    refund_resource k = (k', Py.Ret (true, message)) ->
  exists a order' message' k'',
    KuantumKitchen.active_orders k !! Z.to_nat order_idx = Some a
    /\ KuantumKitchen.deliver_order order_idx choices k'
       = (k'', Py.Ret (true, message'))
    /\ KuantumKitchen.objects k'' !! a = Some order'
    /\ Order.state order' = DELIVERED
    /\ last (KuantumKitchen.completed_orders k'') = Some a.
Proof.
  unfold KuantumKitchen.prepare_order. intros H.
  destruct (negb (KuantumKitchen.valid_index order_idx (KuantumKitchen.active_orders k)))
    eqn:Hv; [discriminate |].
  apply negb_false_iff in Hv.
  destruct (KuantumKitchen.active_orders k !! Z.to_nat order_idx) as [a |] eqn:Ha;
    [| discriminate].
  unfold KuantumKitchen.get_order in H.
  destruct (KuantumKitchen.objects k !! a) as [order |] eqn:Ho; [| discriminate].
  destruct (bool_decide_reflect (Order.state order = SUPERPOSITION)) as [Hs | Hs];
    cbn [negb] in H; [| discriminate].
  destruct (KuantumKitchen.first_shortage _ _); [discriminate |].
  destruct (Order.collapse_state impl order _ rand) as [order1 [[] | e]] eqn:Hc;
    [| discriminate].
  apply collapse_state_returns_collapsed in Hc; [| exact Hs].
  destruct (Order.actual_outcome order1) as [ref |] eqn:Hact; [| discriminate].
  unfold Order.deref in H.
  destruct (Order.heap order1 !! ref) as [outcome |] eqn:Hout; [| discriminate].
  assert (KuantumKitchen.objects k' !! a = Some order1
          /\ KuantumKitchen.active_orders k' = KuantumKitchen.active_orders k)
    as [Hobj Hactive].
  { apply lookup_lt_Some in Ho.
    repeat case_match; simplify_eq; cbn;
      (split; [now apply list_lookup_insert_eq | reflexivity]). }
  rewrite <- Hactive in Hv, Ha.
  destruct (deliver_order_succeeds order_idx choices k' a order1 ref outcome
              Hv Ha Hobj Hc Hact Hout) as (message' & k'' & Hd & Hobj' & Hcompleted).
  rewrite Hactive in Ha.
  exists a, (Order.set_state order1 DELIVERED), message', k''.
  repeat split; try assumption. rewrite Hcompleted. apply last_snoc.
Qed.

Lemma prepared_order_delivers_witness :
  exists a order' message' k'',
    KuantumKitchen.active_orders (kitchen_of burger3) !! Z.to_nat 0 = Some a
    /\ KuantumKitchen.deliver_order 0 (fun _ => TIMELINE_TOKEN) prepared_kitchen
       = (k'', Py.Ret (true, message'))
    /\ KuantumKitchen.objects k'' !! a = Some order'
    /\ Order.state order' = DELIVERED
    /\ last (KuantumKitchen.completed_orders k'') = Some a.
Proof.
  refine (prepared_order_delivers Py.LeftToRight 0 x_draws no_answers 0.5%float
            QUANTUM_ENERGY (fun _ => TIMELINE_TOKEN) (kitchen_of burger3)
            prepared_kitchen
            "Prepared order #1234 (Good Quantum Burger). Earned 15 points. Gained 1 Quantum Energy!"
            _).
  vm_compute. reflexivity.
Defined.

(** ** The passing of time *)

Lemma update_time_expires (o : Order.t) :
  Order.state o = SUPERPOSITION -> snd (Order.update_time o) = expires o.
Proof.
  intros Hs. unfold Order.update_time, expires.
  cbn [Order.time_remaining Order.state Order.set_time_remaining].
  rewrite Hs. rewrite bool_decide_eq_true_2 by reflexivity.
  rewrite andb_true_r. cbn [andb]. now destruct (_ <=? _).
Qed.

Lemma set_objects_same (k : KuantumKitchen.t) :
  KuantumKitchen.set_objects k (KuantumKitchen.objects k) = k.
Proof. now destruct k. Qed.

Lemma filter_will_expire (h h' : list Order.t) (orders : list nat) :
  (forall a, In a orders -> h' !! a = h !! a) ->
  List.filter (will_expire h') orders = List.filter (will_expire h) orders.
Proof.
  intros H. apply List.filter_ext_in. intros a Ha. unfold will_expire.
  now rewrite (H a Ha).
Qed.

Lemma tick_loop_spec (orders expired : list nat) (k : KuantumKitchen.t) :
  NoDup orders ->
  Forall (fun a => (a < length (KuantumKitchen.objects k))%nat) orders ->
  exists h,
    KuantumKitchen.tick_loop orders expired k
    = (KuantumKitchen.set_objects k h,
       Py.Ret (expired ++ List.filter (will_expire (KuantumKitchen.objects k)) orders))
    /\ length h = length (KuantumKitchen.objects k)
    /\ forall a o,
         KuantumKitchen.objects k !! a = Some o ->
         h !! a = Some (if bool_decide (a ∈ orders) then ticked o else o).
Proof.
  revert expired k. induction orders as [| a rest IH]; intros expired k Hnd Hval.
  - exists (KuantumKitchen.objects k). cbn. rewrite set_objects_same, app_nil_r.
    repeat split. intros a o Ho.
    rewrite bool_decide_eq_false_2 by apply not_elem_of_nil. exact Ho.
  - apply NoDup_cons in Hnd as [Hfresh Hnd].
    inversion Hval as [| ? ? Ha Hrest]; subst.
    cbn [KuantumKitchen.tick_loop]. unfold KuantumKitchen.get_order.
    destruct (KuantumKitchen.objects k !! a) as [order |] eqn:Ho;
      [| apply lookup_ge_None in Ho; lia].
    cbn [List.filter]. unfold will_expire at 1. rewrite Ho.
    destruct (bool_decide_reflect (Order.state order = SUPERPOSITION)) as [Hs | Hs].
    + pose proof (update_time_expires order Hs) as Hexp.
      destruct (Order.update_time order) as [order1 exp] eqn:Hup. cbn [snd] in Hexp.
      subst exp.
      destruct (IH (if expires order then expired ++ [a] else expired)
                  (KuantumKitchen.put_order k a order1) Hnd) as (h & Hrun & Hlen & Hobj).
      { cbn. now rewrite length_insert. }
      exists h. split; [| split].
      * rewrite Hrun. cbn [KuantumKitchen.put_order KuantumKitchen.objects
                             KuantumKitchen.set_objects].
        f_equal. f_equal.
        rewrite (filter_will_expire (KuantumKitchen.objects k)).
        -- destruct (expires order); [| reflexivity]. now rewrite <- app_assoc.
        -- intros b Hb. apply list_lookup_insert_ne. intros <-.
           apply Hfresh. now apply list_elem_of_In.
      * rewrite Hlen. cbn. apply length_insert.
      * intros b o Hb. destruct (decide (a = b)) as [<- | Hne].
        -- rewrite bool_decide_eq_true_2 by (apply elem_of_cons; now left).
           assert (o = order) as -> by congruence.
           rewrite (Hobj a order1).
           ++ rewrite bool_decide_eq_false_2 by exact Hfresh.
              unfold ticked. rewrite bool_decide_eq_true_2 by exact Hs.
              now rewrite Hup.
           ++ cbn. now apply list_lookup_insert_eq.
        -- rewrite (Hobj b o) by (cbn; now rewrite list_lookup_insert_ne).
           apply f_equal. apply (f_equal (fun c : bool => if c then ticked o else o)).
           apply bool_decide_ext. rewrite elem_of_cons. intuition congruence.
    + assert (expires order = false) as ->.
      { unfold expires. now rewrite bool_decide_eq_false_2. }
      destruct (IH expired k Hnd Hrest) as (h & Hrun & Hlen & Hobj).
      exists h. split; [exact Hrun |]. split; [exact Hlen |].
      intros b o Hb. rewrite (Hobj b o Hb).
      destruct (decide (a = b)) as [<- | Hne].
      * assert (o = order) as -> by congruence.
        assert (ticked order = order) as Ht.
        { unfold ticked. now rewrite bool_decide_eq_false_2. }
        rewrite Ht. now repeat case_bool_decide.
      * apply f_equal. apply (f_equal (fun c : bool => if c then ticked o else o)).
        apply bool_decide_ext. rewrite elem_of_cons. intuition congruence.
Qed.

Lemma NoDup_bool_filter (f : nat -> bool) (l : list nat) :
  NoDup l -> NoDup (List.filter f l).
Proof.
  induction l as [| x l IH]; cbn; [auto |].
  intros [Hx Hnd]%NoDup_cons. destruct (f x); [| auto].
  apply NoDup_cons. split; [| auto].
  intros Hin. apply Hx. apply list_elem_of_In in Hin.
  apply filter_In in Hin as [Hin _]. now apply list_elem_of_In.
Qed.

Lemma remove_first_filter (x : nat) (l : list nat) :
  NoDup l -> x ∈ l ->
  KuantumKitchen.remove_first x l = Some (List.filter (fun y => negb (y =? x)%nat) l).
Proof.
  induction l as [| y l IH]; intros Hnd Hx; [now apply elem_of_nil in Hx |].
  apply NoDup_cons in Hnd as [Hy Hnd]. cbn.
  rewrite (Nat.eqb_sym y x).
  destruct (Nat.eqb_spec x y) as [<- | Hne]; cbn [negb].
  - f_equal. symmetry. apply List.forallb_filter_id. apply forallb_forall.
    intros z Hz. apply negb_true_iff, Nat.eqb_neq. intros ->.
    apply Hy. now apply list_elem_of_In.
  - apply elem_of_cons in Hx as [-> | Hx]; [congruence |].
    now rewrite (IH Hnd Hx).
Qed.

Lemma expire_loop_spec (expired : list nat) (k : KuantumKitchen.t) :
  NoDup expired ->
  (forall a, a ∈ expired -> a ∈ KuantumKitchen.active_orders k) ->
  NoDup (KuantumKitchen.active_orders k) ->
  exists k',
    KuantumKitchen.expire_loop expired k = (k', Py.Ret tt)
    /\ KuantumKitchen.active_orders k'
       = List.filter (fun a => negb (existsb (Nat.eqb a) expired))
           (KuantumKitchen.active_orders k)
    /\ KuantumKitchen.failed_orders k' = KuantumKitchen.failed_orders k ++ expired
    /\ KuantumKitchen.customer_satisfaction k'
       = Nat.iter (length expired) (fun x => lose x 5)
           (KuantumKitchen.customer_satisfaction k)
    /\ KuantumKitchen.reality_stability k'
       = Nat.iter (length expired) (fun x => lose x 5)
           (KuantumKitchen.reality_stability k)
    /\ KuantumKitchen.objects k' = KuantumKitchen.objects k
    /\ KuantumKitchen.timelines k' = KuantumKitchen.timelines k.
Proof.
  revert k. induction expired as [| e es IH]; intros k Hnd Hsub Hact.
  - exists k. cbn. rewrite app_nil_r. repeat split.
    symmetry. apply List.forallb_filter_id. now apply forallb_forall.
  - apply NoDup_cons in Hnd as [He Hnd].
    cbn [KuantumKitchen.expire_loop].
    rewrite (remove_first_filter e _ Hact) by (apply Hsub, elem_of_cons; now left).
    match goal with
    | |- context [KuantumKitchen.expire_loop es ?x] => set (k4 := x)
    end.
    destruct (IH k4 Hnd) as (k' & Hrun & H1 & H2 & H3 & H4 & H5 & H6).
    + intros a Ha. subst k4. cbn. apply list_elem_of_In, filter_In. split.
      * apply list_elem_of_In, Hsub, elem_of_cons. now right.
      * apply negb_true_iff, Nat.eqb_neq. intros ->. exact (He Ha).
    + subst k4. cbn. apply NoDup_bool_filter. exact Hact.
    + exists k'. split; [exact Hrun |]. subst k4. cbn in *.
      rewrite H1, H2, H3, H4, H5, H6, <- app_assoc.
      repeat split;
        try exact (Nat.iter_swap (length es) _ (fun x => lose x 5) _).
      clear. induction (KuantumKitchen.active_orders k) as [| a l IHl]; cbn;
        [reflexivity |].
      destruct (Nat.eqb_spec a e); cbn; [exact IHl |].
      destruct (existsb (Nat.eqb a) es); cbn; now rewrite IHl.
Qed.

(** X11: what [update_time] does to a kitchen whose active list names each
    order once.  Every active order in superposition loses one unit of
    time, and no other order changes; the active orders with at most one
    unit left fail, leave the active list in its order for the end of the
    failed list, and cost 5 points of each meter apiece, never below 0;
    the call returns whether any did.  The timelines index is not updated. *)
Theorem update_time_expires_orders (k : KuantumKitchen.t) :
  NoDup (KuantumKitchen.active_orders k) ->
  Forall (fun a => (a < length (KuantumKitchen.objects k))%nat)
    (KuantumKitchen.active_orders k) ->
  let expired :=
    List.filter (will_expire (KuantumKitchen.objects k))
      (KuantumKitchen.active_orders k) in
  snd (KuantumKitchen.update_time k) = Py.Ret (0 <? length expired)%nat
  /\ KuantumKitchen.active_orders (fst (KuantumKitchen.update_time k))
     = List.filter (fun a => negb (will_expire (KuantumKitchen.objects k) a))
         (KuantumKitchen.active_orders k)
  /\ KuantumKitchen.failed_orders (fst (KuantumKitchen.update_time k))
     = KuantumKitchen.failed_orders k ++ expired
  /\ (forall a o,
        KuantumKitchen.objects k !! a = Some o ->
        KuantumKitchen.objects (fst (KuantumKitchen.update_time k)) !! a
        = Some (if bool_decide (a ∈ KuantumKitchen.active_orders k)
                then ticked o else o))
  /\ KuantumKitchen.customer_satisfaction (fst (KuantumKitchen.update_time k))
     = Nat.iter (length expired) (fun x => lose x 5)
         (KuantumKitchen.customer_satisfaction k)
  /\ KuantumKitchen.reality_stability (fst (KuantumKitchen.update_time k))
     = Nat.iter (length expired) (fun x => lose x 5)
         (KuantumKitchen.reality_stability k)
  /\ KuantumKitchen.timelines (fst (KuantumKitchen.update_time k))
     = KuantumKitchen.timelines k.
Proof.
  intros Hnd Hval expired.
  destruct (tick_loop_spec (KuantumKitchen.active_orders k) [] k Hnd Hval)
    as (h & Hrun & Hlen & Hobj).
  cbn [app] in Hrun. fold expired in Hrun.
  destruct (expire_loop_spec expired (KuantumKitchen.set_objects k h))
    as (k' & Hrun' & H1 & H2 & H3 & H4 & H5 & H6).
  - subst expired. apply NoDup_bool_filter. exact Hnd.
  - intros a Ha. cbn. subst expired.
    apply list_elem_of_In, filter_In in Ha as [Ha _]. now apply list_elem_of_In.
  - exact Hnd.
  - unfold KuantumKitchen.update_time. rewrite Hrun, Hrun'. cbn [fst snd].
    cbn in H1, H2, H3, H4, H5, H6.
    rewrite H1, H2, H3, H4, H5, H6. repeat split; try assumption.
    apply List.filter_ext_in. intros a Ha. f_equal.
    subst expired. clear -Ha Hnd. destruct (will_expire _ a) eqn:Hw.
    + apply existsb_exists. exists a. split; [| apply Nat.eqb_refl].
      apply filter_In. auto.
    + apply not_true_is_false. intros (b & Hb & Hab)%existsb_exists.
      apply Nat.eqb_eq in Hab as <-. apply filter_In in Hb as [_ Hb]. congruence.
Qed.

Lemma update_time_expires_orders_witness :
  let k := last_minute_kitchen in
  let expired :=
    List.filter (will_expire (KuantumKitchen.objects k))
      (KuantumKitchen.active_orders k) in
  snd (KuantumKitchen.update_time k) = Py.Ret (0 <? length expired)%nat
  /\ KuantumKitchen.active_orders (fst (KuantumKitchen.update_time k))
     = List.filter (fun a => negb (will_expire (KuantumKitchen.objects k) a))
         (KuantumKitchen.active_orders k)
  /\ KuantumKitchen.failed_orders (fst (KuantumKitchen.update_time k))
     = KuantumKitchen.failed_orders k ++ expired
  /\ (forall a o,
        KuantumKitchen.objects k !! a = Some o ->
        KuantumKitchen.objects (fst (KuantumKitchen.update_time k)) !! a
        = Some (if bool_decide (a ∈ KuantumKitchen.active_orders k)
                then ticked o else o))
  /\ KuantumKitchen.customer_satisfaction (fst (KuantumKitchen.update_time k))
     = Nat.iter (length expired) (fun x => lose x 5)
         (KuantumKitchen.customer_satisfaction k)
  /\ KuantumKitchen.reality_stability (fst (KuantumKitchen.update_time k))
     = Nat.iter (length expired) (fun x => lose x 5)
         (KuantumKitchen.reality_stability k)
  /\ KuantumKitchen.timelines (fst (KuantumKitchen.update_time k))
     = KuantumKitchen.timelines k.
Proof.
  refine (update_time_expires_orders last_minute_kitchen _ _).
  - vm_compute. apply NoDup_singleton.
  - vm_compute. repeat constructor.
Defined.

(** ** The offers of a day *)

Lemma init_returns (impl : Py.SumImpl) (day : Z) (d : Order.Draws) :
  0 <= day -> 2 <= Order.draw_num_outcomes d <= 4 ->
  exists o,
    Order.init impl day d = Py.Ret o
    /\ Order.state o = SUPERPOSITION
    /\ Order.time_remaining o = Order.draw_time_limit d
    /\ Order.time_limit o = Order.draw_time_limit d
    /\ Order.actual_outcome o = None.
Proof.
  intros Hday Hn.
  assert (1 <= Z.min (1 + day / 3) 5 <= 5) as Hd.
  { pose proof (Z.div_pos day 3 Hday ltac:(lia)). lia. }
  destruct (generate_possible_outcomes_cases impl (Order.draw_dish d) _ _ Hd Hn)
    as (outcomes & Hgen & _).
  unfold Order.init. rewrite Hgen. cbn [Py.bind].
  eexists. split; [reflexivity |]. repeat split.
Qed.

Lemma generate_loop_spec (impl : Py.SumImpl) (draws : nat -> Order.Draws)
    (n i : nat) (k : KuantumKitchen.t) :
  0 <= KuantumKitchen.day k ->
  (forall j, 2 <= Order.draw_num_outcomes (draws j) <= 4) ->
  exists fresh,
    length fresh = n
    /\ KuantumKitchen.generate_loop impl draws i n k
       = (KuantumKitchen.set_available_orders
            (KuantumKitchen.set_objects k (KuantumKitchen.objects k ++ fresh))
            (KuantumKitchen.available_orders k
               ++ seq (length (KuantumKitchen.objects k)) n),
          Py.Ret tt)
    /\ forall j o,
         fresh !! j = Some o ->
         Order.init impl (KuantumKitchen.day k) (draws (i + j)%nat) = Py.Ret o.
Proof.
  intros Hday Hdraws. revert i k Hday.
  induction n as [| n IH]; intros i k Hday.
  - exists []. cbn. rewrite !app_nil_r. repeat split.
    + now destruct k.
    + intros j o Hj. now rewrite lookup_nil in Hj.
  - cbn [KuantumKitchen.generate_loop].
    destruct (init_returns impl (KuantumKitchen.day k) (draws i) Hday (Hdraws i))
      as (o & Hinit & _).
    rewrite Hinit.
    match goal with
    | |- context [KuantumKitchen.generate_loop impl draws (S i) n ?x] =>
        destruct (IH (S i) x Hday) as (fresh & Hlen & Hrun & Hfresh)
    end.
    exists (o :: fresh). split; [cbn; now rewrite Hlen |]. split.
    + rewrite Hrun. cbn. rewrite length_app, <- !app_assoc. cbn.
      now rewrite Nat.add_1_r.
    + intros [| j] x Hj; cbn in Hj.
      * rewrite Nat.add_0_r. congruence.
      * rewrite <- Nat.add_succ_comm. exact (Hfresh j x Hj).
Qed.

(** X12: [generate_orders] replaces the offers of the day.  For a day from
    0 on and draws of 2 to 4 outcomes it returns, and the available list
    is then exactly [3 + min(day // 2, 5)] orders, all new: the [i]-th is
    the order the constructor builds from the [i]-th draws, in
    SUPERPOSITION with its whole time limit left and no outcome.  The
    offers of the day before are dropped from the list, and no other order
    is touched. *)
Theorem generate_orders_offers (impl : Py.SumImpl) (draws : nat -> Order.Draws)
    (k : KuantumKitchen.t) :
  0 <= KuantumKitchen.day k ->
  (forall i, 2 <= Order.draw_num_outcomes (draws i) <= 4) ->
  exists fresh,
    Z.of_nat (length fresh) = 3 + Z.min (KuantumKitchen.day k / 2) 5
    /\ KuantumKitchen.generate_orders impl draws k
       = (KuantumKitchen.set_available_orders
            (KuantumKitchen.set_objects k (KuantumKitchen.objects k ++ fresh))
            (seq (length (KuantumKitchen.objects k)) (length fresh)),
          Py.Ret tt)
    /\ forall i o,
         fresh !! i = Some o ->
         Order.init impl (KuantumKitchen.day k) (draws i) = Py.Ret o
         /\ Order.state o = SUPERPOSITION
         /\ Order.time_remaining o = Order.time_limit o
         /\ Order.actual_outcome o = None.
Proof.
  intros Hday Hdraws. unfold KuantumKitchen.generate_orders. cbn zeta.
  destruct (generate_loop_spec impl draws
              (Z.to_nat (3 + Z.min (KuantumKitchen.day k / 2) 5)) 0
              (KuantumKitchen.set_available_orders k []) Hday Hdraws)
    as (fresh & Hlen & Hrun & Hfresh).
  exists fresh. split; [| split].
  - rewrite Hlen. pose proof (Z.div_pos (KuantumKitchen.day k) 2 Hday). lia.
  - rewrite Hrun, Hlen. reflexivity.
  - intros i o Hi. specialize (Hfresh i o Hi). cbn in Hfresh.
    destruct (init_returns impl (KuantumKitchen.day k) (draws i) Hday (Hdraws i))
      as (o' & Hinit & Hs & Ht & Hl & Ha).
    assert (o' = o) as -> by congruence.
    repeat split; congruence.
Qed.

Lemma generate_orders_offers_witness :
  exists fresh,
    Z.of_nat (length fresh) = 3 + Z.min (KuantumKitchen.day KuantumKitchen.init / 2) 5
    /\ KuantumKitchen.generate_orders Py.LeftToRight (fun _ => burger_draws 2)
         KuantumKitchen.init
       = (KuantumKitchen.set_available_orders
            (KuantumKitchen.set_objects KuantumKitchen.init
               (KuantumKitchen.objects KuantumKitchen.init ++ fresh))
            (seq (length (KuantumKitchen.objects KuantumKitchen.init)) (length fresh)),
          Py.Ret tt)
    /\ forall i o,
         fresh !! i = Some o ->
         Order.init Py.LeftToRight (KuantumKitchen.day KuantumKitchen.init)
           (burger_draws 2) = Py.Ret o
         /\ Order.state o = SUPERPOSITION
         /\ Order.time_remaining o = Order.time_limit o
         /\ Order.actual_outcome o = None.
Proof.
  refine (generate_orders_offers Py.LeftToRight (fun _ => burger_draws 2)
            KuantumKitchen.init _ _).
  - vm_compute. discriminate.
  - intros i. cbn. lia.
Defined.

(** ** The blanks of a fill-in puzzle *)

Lemma count_none_insert (l : list (option MiniPuzzle.item)) (i : nat)
    (x : MiniPuzzle.item) :
  l !! i = Some (Some x) ->
  MiniPuzzle.count_none (<[i := None]> l) = S (MiniPuzzle.count_none l).
Proof.
  unfold MiniPuzzle.count_none. revert i.
  induction l as [| y l IH]; intros i Hi; [now rewrite lookup_nil in Hi |].
  destruct i as [| i]; cbn in Hi.
  - injection Hi as ->. cbn [insert list_insert].
    rewrite filter_cons_True by reflexivity.
    now rewrite filter_cons_False by discriminate.
  - change (<[S i := None]> (y :: l)) with (y :: <[i := None]> l).
    destruct y as [y |].
    + rewrite !filter_cons_False by discriminate. now apply IH.
    + rewrite !filter_cons_True by reflexivity. cbn [length]. f_equal. now apply IH.
Qed.

Lemma blank_out_count (blanks : nat -> nat) (n round : nat)
    (l : list (option MiniPuzzle.item)) :
  (forall j, (j < n)%nat -> exists x, l !! blanks (round + j)%nat = Some (Some x)) ->
  (forall i j, (i < j < n)%nat -> blanks (round + i)%nat <> blanks (round + j)%nat) ->
  MiniPuzzle.count_none (MiniPuzzle.blank_out blanks round n l)
  = (MiniPuzzle.count_none l + n)%nat
  /\ length (MiniPuzzle.blank_out blanks round n l) = length l.
Proof.
  revert round l. induction n as [| n IH]; intros round l Hin Hne;
    cbn [MiniPuzzle.blank_out]; [split; [now rewrite Nat.add_0_r | reflexivity] |].
  destruct (Hin 0%nat ltac:(lia)) as (x & Hx). rewrite Nat.add_0_r in Hx.
  destruct (IH (S round) (<[blanks round := None]> l)) as [Hc Hl].
  - intros j Hj. destruct (Hin (S j) ltac:(lia)) as (y & Hy).
    exists y. rewrite Nat.add_succ_comm. rewrite list_lookup_insert_ne; [exact Hy |].
    specialize (Hne 0%nat (S j) ltac:(lia)). now rewrite Nat.add_0_r in Hne.
  - intros i j Hij. rewrite !Nat.add_succ_comm. apply Hne. lia.
  - rewrite Hc, Hl, length_insert, (count_none_insert _ _ x Hx). lia.
Qed.

Lemma count_none_solution (solution : list MiniPuzzle.item) :
  MiniPuzzle.count_none (map Some solution) = 0%nat.
Proof.
  unfold MiniPuzzle.count_none. induction solution as [| x l IH]; cbn [map];
    [reflexivity |].
  now rewrite filter_cons_False by discriminate.
Qed.

Lemma tile_length (fuel : nat) (len : Z) (pattern sequence : list string) :
  pattern <> [] ->
  (Z.to_nat len <= length sequence + fuel)%nat ->
  (Z.to_nat len <= length (MiniPuzzle.tile fuel len pattern sequence))%nat.
Proof.
  intros Hp. revert sequence. induction fuel as [| fuel IH]; intros sequence Hlen; cbn.
  - lia.
  - destruct (Z.ltb_spec (Z.of_nat (length sequence)) len); [| lia].
    apply IH. rewrite length_app. destruct pattern; [congruence |]. cbn. lia.
Qed.

(** X13: how much of a fill-in puzzle is blank.  For a difficulty from 0 on
    a Sequence puzzle has [3 + difficulty] entries of which
    [difficulty + 1] are blanked, a Pattern puzzle [4 + 2 * difficulty]
    entries of which [2 * difficulty] are blanked, and the solution has as
    many entries as the puzzle: [check_solution] expects that many values. *)
Theorem fill_in_puzzle_blanks (type : MiniPuzzleType) (difficulty : Z)
    (d : MiniPuzzle.Draws) :
  fill_in type ->
  0 <= difficulty ->
  MiniPuzzle.draw_pattern d <> [] ->
  blanks_accepted (MiniPuzzle.draw_blanks d) (shown_entries type difficulty)
    (blank_entries type difficulty) ->
  exists solution,
    MiniPuzzle.solution (MiniPuzzle.setup_puzzle type difficulty d)
    = MiniPuzzle.VList solution
    /\ length solution = shown_entries type difficulty
    /\ length (MiniPuzzle.sequence (MiniPuzzle.setup_puzzle type difficulty d))
       = shown_entries type difficulty
    /\ MiniPuzzle.count_none
         (MiniPuzzle.sequence (MiniPuzzle.setup_puzzle type difficulty d))
       = blank_entries type difficulty.
Proof.
  intros Htype Hd Hp [Hrange Hdistinct].
  assert (forall solution : list MiniPuzzle.item,
            length solution = shown_entries type difficulty ->
            MiniPuzzle.count_none
              (MiniPuzzle.blank_out (MiniPuzzle.draw_blanks d) 0
                 (blank_entries type difficulty) (map Some solution))
            = blank_entries type difficulty
            /\ length
                 (MiniPuzzle.blank_out (MiniPuzzle.draw_blanks d) 0
                    (blank_entries type difficulty) (map Some solution))
               = shown_entries type difficulty) as Hblank.
  { intros solution Hlen.
    destruct (blank_out_count (MiniPuzzle.draw_blanks d)
                (blank_entries type difficulty) 0 (map Some solution)) as [Hc Hl].
    - intros j Hj. cbn. specialize (Hrange j Hj). rewrite <- Hlen in Hrange.
      apply lookup_lt_is_Some_2 in Hrange as [x Hx].
      exists x. now rewrite list_lookup_fmap, Hx.
    - intros i j Hij. cbn. now apply Hdistinct.
    - rewrite Hc, Hl, count_none_solution, length_map. auto. }
  destruct Htype as [-> | ->]; cbn [MiniPuzzle.setup_puzzle MiniPuzzle.solution
                                      MiniPuzzle.sequence].
  - eexists. split; [reflexivity |].
    assert (length (map (fun i => MiniPuzzle.IInt (MiniPuzzle.draw_digits d i))
                      (seq 0 (Z.to_nat (3 + difficulty))))
            = shown_entries SEQUENCE difficulty) as Hlen
      by now rewrite length_map, length_seq.
    split; [exact Hlen |].
    replace (Z.to_nat (Z.min (3 + difficulty - 2) (difficulty + 1)))
      with (blank_entries SEQUENCE difficulty) by (cbn; lia).
    destruct (Hblank _ Hlen) as [Hc Hl]. auto.
  - eexists. split; [reflexivity |].
    assert (length
              (map MiniPuzzle.IStr
                 (take (Z.to_nat (4 + difficulty * 2))
                    (MiniPuzzle.tile (Z.to_nat (4 + difficulty * 2))
                       (4 + difficulty * 2) (MiniPuzzle.draw_pattern d) [])))
            = shown_entries PATTERN difficulty) as Hlen.
    { rewrite length_map, length_take. cbn [shown_entries].
      pose proof (tile_length (Z.to_nat (4 + difficulty * 2)) (4 + difficulty * 2)
                    (MiniPuzzle.draw_pattern d) [] Hp ltac:(cbn; lia)).
      lia. }
    split; [exact Hlen |].
    replace (Z.to_nat (Z.min (4 + difficulty * 2 - 4) (difficulty * 2)))
      with (blank_entries PATTERN difficulty) by (cbn; lia).
    destruct (Hblank _ Hlen) as [Hc Hl]. auto.
Qed.

Lemma fill_in_puzzle_blanks_witness :
  exists solution,
    MiniPuzzle.solution (MiniPuzzle.setup_puzzle SEQUENCE 1 x_draws)
    = MiniPuzzle.VList solution
    /\ length solution = shown_entries SEQUENCE 1
    /\ length (MiniPuzzle.sequence (MiniPuzzle.setup_puzzle SEQUENCE 1 x_draws))
       = shown_entries SEQUENCE 1
    /\ MiniPuzzle.count_none
         (MiniPuzzle.sequence (MiniPuzzle.setup_puzzle SEQUENCE 1 x_draws))
       = blank_entries SEQUENCE 1.
Proof.
  refine (fill_in_puzzle_blanks SEQUENCE 1 x_draws (or_introl eq_refl) _ _ _).
  - lia.
  - discriminate.
  - split; cbn; intros; lia.
Defined.

(** ** The end of the game *)

Lemma le_zero_table :
  forallb (fun n => forallb (fun x => Bool.eqb (Py.le x (Py.Int 0)) (n =? 0)) (carriers n))
    (seqZ 0 101) = true.
Proof. vm_compute. reflexivity. Qed.

Lemma le_zero_meter (x : Py.number) (n : Z) :
  0 <= n <= 100 -> meter_is x n -> Py.le x (Py.Int 0) = (n =? 0).
Proof.
  intros Hn Hx.
  pose proof (forallb_range _ 0 101 n le_zero_table ltac:(lia)) as H. cbn beta in H.
  rewrite forallb_forall in H. specialize (H x (meter_is_carrier _ _ Hx)).
  now apply Bool.eqb_prop in H.
Qed.

(** X14: the game is over exactly when a meter holds 0.  On meters that
    hold integers between 0 and 100, as ints or as floats,
    [check_game_over] reports the collapse of reality when reality
    stability is 0, otherwise the loss of the customers when customer
    satisfaction is 0, and otherwise that the game goes on. *)
Theorem game_over_at_zero (k : KuantumKitchen.t) (cs rs : Z) :
  0 <= cs <= 100 -> 0 <= rs <= 100 ->
  meter_is (KuantumKitchen.customer_satisfaction k) cs ->
  meter_is (KuantumKitchen.reality_stability k) rs ->
  KuantumKitchen.check_game_over k
  = if rs =? 0 then (true, "GAME OVER: Reality has completely collapsed!"%string)
    else if cs =? 0
         then (true, "GAME OVER: Your restaurant has lost all its customers!"%string)
         else (false, ""%string).
Proof.
  intros Hcs Hrs Hc Hr. unfold KuantumKitchen.check_game_over.
  now rewrite (le_zero_meter _ rs Hrs Hr), (le_zero_meter _ cs Hcs Hc).
Qed.

Lemma game_over_at_zero_witness :
  KuantumKitchen.check_game_over prepared_kitchen
  = if 100 =? 0 then (true, "GAME OVER: Reality has completely collapsed!"%string)
    else if 53 =? 0
         then (true, "GAME OVER: Your restaurant has lost all its customers!"%string)
         else (false, ""%string).
Proof.
  refine (game_over_at_zero prepared_kitchen 53 100 _ _ _ _).
  - lia.
  - lia.
  - right. vm_compute. reflexivity.
  - left. vm_compute. reflexivity.
Defined.
